(** * Smart Reconciliation Visualizer: the reconciliation engine

    A shallow embedding of [src/lib/reconciliation.ts] (with the record
    types of [src/types/reconciliation.ts]) and the properties of its four
    components: the key normaliser [generateMatchKey], the discrepancy
    detector [findMismatches], the matcher [reconcileDatasets] and the
    aggregator [calculateSummary].

    Conventions of the embedding.
    - A JavaScript [number] is an IEEE 754 binary64 value: Rocq's primitive
      [float], whose operations are the ones the engine runs.  Array lengths
      and the counts derived from them are natural numbers.
    - A JavaScript [string] is a Rocq [string].  The text handled here is
      7-bit: white space is TAB, LF, VT, FF, CR and SPACE, and case mapping
      acts on the letters a-z / A-Z only.
    - A JavaScript [Map] is an association list in insertion order; [set] on
      a key already present replaces the value in place.
    - [T | null] and [T | undefined] are [option T]. *)

From Stdlib Require Import Bool List Arith ZArith NArith Lia.
From Stdlib Require Import Ascii String DecimalString.
From Stdlib Require DecimalNat DecimalFacts.
From Stdlib Require Import Permutation.
From Stdlib Require Import Floats.
Import ListNotations.

Local Open Scope string_scope.
Local Open Scope list_scope.

(* ================================================================== *)
(** * JavaScript strings *)

Module JsString.

Definition code (c : ascii) : N := N_of_ascii c.

(** [\s] of a regular expression, and the characters [trim] removes. *)
Definition isWhiteSpace (c : ascii) : bool :=
  ((9 <=? code c) && (code c <=? 13))%N || (code c =? 32)%N.

(** [\d] of a regular expression. *)
Definition isDigit (c : ascii) : bool :=
  ((48 <=? code c) && (code c <=? 57))%N.

Definition upperChar (c : ascii) : ascii :=
  if ((97 <=? code c) && (code c <=? 122))%N
  then ascii_of_N (code c - 32) else c.

Definition lowerChar (c : ascii) : ascii :=
  if ((65 <=? code c) && (code c <=? 90))%N
  then ascii_of_N (code c + 32) else c.

Fixpoint mapChars (f : ascii -> ascii) (s : string) : string :=
  match s with
  | EmptyString => EmptyString
  | String c t => String (f c) (mapChars f t)
  end.

(** [toUpperCase] and [toLowerCase] on 7-bit text, where they map the
    letters a-z and A-Z and leave every other character as it is. *)
Definition toUpperCase : string -> string := mapChars upperChar.
Definition toLowerCase : string -> string := mapChars lowerChar.

Fixpoint trimStart (s : string) : string :=
  match s with
  | EmptyString => EmptyString
  | String c t => if isWhiteSpace c then trimStart t else s
  end.

Fixpoint trimEnd (s : string) : string :=
  match s with
  | EmptyString => EmptyString
  | String c t =>
      match trimEnd t with
      | EmptyString => if isWhiteSpace c then EmptyString else String c EmptyString
      | t' => String c t'
      end
  end.

Definition trim (s : string) : string := trimEnd (trimStart s).

(** [s.replace(/\s+/g, "")]: every run of white space is deleted. *)
Fixpoint removeWhiteSpace (s : string) : string :=
  match s with
  | EmptyString => EmptyString
  | String c t =>
      if isWhiteSpace c then removeWhiteSpace t
      else String c (removeWhiteSpace t)
  end.

(** [s.startsWith(needle)]. *)
Fixpoint startsWith (s needle : string) {struct needle} : bool :=
  match needle with
  | EmptyString => true
  | String a needle' =>
      match s with
      | EmptyString => false
      | String b s' => Ascii.eqb a b && startsWith s' needle'
      end
  end.

(** [hay.includes(needle)]: [needle] starts at some position of [hay]. *)
Fixpoint includes (hay needle : string) : bool :=
  startsWith hay needle ||
  match hay with
  | EmptyString => false
  | String _ t => includes t needle
  end.

(** Truthiness of a string: every string but the empty one. *)
Definition truthy (s : string) : bool :=
  match s with EmptyString => false | _ => true end.

Definition ofChars (l : list ascii) : string := string_of_list_ascii l.

(** [^(\d{4})-(\d{2})-(\d{2})$]: the three captured groups. *)
Definition isoMatch (s : string) : option (string * string * string) :=
  match list_ascii_of_string s with
  | [y1; y2; y3; y4; h1; m1; m2; h2; d1; d2] =>
      if forallb isDigit [y1; y2; y3; y4] && Ascii.eqb h1 "-"
         && forallb isDigit [m1; m2] && Ascii.eqb h2 "-"
         && forallb isDigit [d1; d2]
      then Some (ofChars [y1; y2; y3; y4], ofChars [m1; m2], ofChars [d1; d2])
      else None
  | _ => None
  end.

Definition isDateSep (c : ascii) : bool := Ascii.eqb c "-" || Ascii.eqb c "/".

(** [^(\d{2})[-/](\d{2})[-/](\d{4})$]: the groups day, month, year. *)
Definition indianMatch (s : string) : option (string * string * string) :=
  match list_ascii_of_string s with
  | [d1; d2; h1; m1; m2; h2; y1; y2; y3; y4] =>
      if forallb isDigit [d1; d2] && isDateSep h1
         && forallb isDigit [m1; m2] && isDateSep h2
         && forallb isDigit [y1; y2; y3; y4]
      then Some (ofChars [d1; d2], ofChars [m1; m2], ofChars [y1; y2; y3; y4])
      else None
  | _ => None
  end.

(** Decimal rendering of an array index, as in a template literal. *)
Definition ofNat (n : nat) : string := NilZero.string_of_uint (Nat.to_uint n).

End JsString.

Import JsString.

(* ================================================================== *)
(** * JavaScript numbers *)

Module JsNumber.

Local Open Scope float_scope.

(** Truthiness of a number: everything but [0], [-0] and [NaN]. *)
Definition truthy (x : float) : bool := negb (is_zero x || is_nan x).

(** [x || 0] where [x] may be [undefined]. *)
Definition orZero (x : option float) : float :=
  match x with
  | Some d => if truthy d then d else 0
  | None => 0
  end.

(** The number of an array length. Lengths stay below [2^32], where the
    conversion is exact. *)
Definition ofNat (n : nat) : float :=
  of_uint63 (Uint63.of_Z (Z.of_nat n)).

(** An integer of magnitude below [2^53], with the sign of zero given. *)
Definition ofInteger (negative : bool) (z : Z) : float :=
  let a := of_uint63 (Uint63.of_Z (Z.abs z)) in
  if negative then - a else a.

(** [floor ((-1)^s * m * 2^e + 1/2)] for [e < 0], computed exactly. *)
Definition floorHalfUp (s : bool) (m : positive) (e : Z) : Z :=
  let scale := Z.pow 2 (- e) in
  Z.div (2 * cond_Zopp s (Zpos m) + scale) (2 * scale).

(** [Math.round]: the closest integer, a tie going towards +infinity;
    integral and non-finite arguments are returned as they are, and the
    sign of the argument is kept on a zero result. *)
Definition Math_round (x : float) : float :=
  match Prim2SF x with
  | S754_finite s m e =>
      if (0 <=? e)%Z then x else ofInteger s (floorHalfUp s m e)
  | _ => x
  end.

End JsNumber.

(* ================================================================== *)
(** * The data model ([src/types/reconciliation.ts]) *)

(** [string | number], the type of a reported value and of a raw cell. *)
Inductive Value : Type :=
| VString (s : string)
| VNumber (x : float).

Record FinancialRecord : Type := {
  id : string;
  gstin : string;
  partyName : string;
  invoiceNo : string;
  invoiceDate : string;
  taxableAmount : float;
  igst : float;
  cgst : float;
  sgst : float;
  totalAmount : float;
  rawData : list (string * Value)
}.

Inductive ReconciliationStatus : Type :=
| matched
| mismatched
| missing_in_purchase
| missing_in_sales.

Record MismatchReason : Type := {
  field : string;
  purchaseValue : Value;
  salesValue : Value;
  difference : option float
}.

Record ReconciliationResult : Type := {
  resultId : string;
  status : ReconciliationStatus;
  purchaseRecord : option FinancialRecord;
  salesRecord : option FinancialRecord;
  matchKey : string;
  mismatchReasons : list MismatchReason;
  totalDifference : float
}.

Record ReconciliationSummary : Type := {
  totalRecords : nat;
  matchedCount : nat;
  mismatchedCount : nat;
  missingInPurchaseCount : nat;
  missingInSalesCount : nat;
  matchPercentage : float;
  totalDifferenceAmount : float
}.

Definition status_eqb (a b : ReconciliationStatus) : bool :=
  match a, b with
  | matched, matched
  | mismatched, mismatched
  | missing_in_purchase, missing_in_purchase
  | missing_in_sales, missing_in_sales => true
  | _, _ => false
  end.

(* ================================================================== *)
(** * Key normaliser *)

Definition normalizeInvoiceNo (s : string) : string :=
  removeWhiteSpace (toUpperCase (trim s)).

Definition normalizeDate (raw : string) : string :=
  if JsString.truthy raw then
    let dateStr := trim raw in
    match isoMatch dateStr, indianMatch dateStr with
    | Some _, _ => dateStr
    | None, Some (day, month, year) => year ++ "-" ++ month ++ "-" ++ day
    | None, None => dateStr
    end
  else "".

Definition generateMatchKey (record : FinancialRecord) : string :=
  let normalizedInvoiceNo := normalizeInvoiceNo (invoiceNo record) in
  let normalizedDate := normalizeDate (invoiceDate record) in
  normalizedInvoiceNo ++ "|" ++ normalizedDate.

(* ================================================================== *)
(** * Discrepancy detector *)

Section Detector.

Local Open Scope float_scope.

(** Tolerance for amount comparison. *)
Definition AMOUNT_TOLERANCE : float := 1.

Record AmountComparison : Type := {
  isEqual : bool;
  signedDifference : float
}.

Definition compareAmountsWith (amount1 amount2 tolerance : float)
  : AmountComparison :=
  let difference := abs (amount1 - amount2) in
  {| isEqual := difference <=? tolerance;
     signedDifference := amount1 - amount2 |}.

(** The call with the default tolerance, the only one the engine makes. *)
Definition compareAmounts (amount1 amount2 : float) : AmountComparison :=
  compareAmountsWith amount1 amount2 AMOUNT_TOLERANCE.

(** One numeric check of [findMismatches]: the reason it pushes, if any. *)
Definition amountReason (name : string) (purchase sales : float)
  : list MismatchReason :=
  let comparison := compareAmounts purchase sales in
  if negb (isEqual comparison) then
    [ {| field := name;
         purchaseValue := VNumber purchase;
         salesValue := VNumber sales;
         difference := Some (signedDifference comparison) |} ]
  else [].

Definition gstinReason (purchaseRecord salesRecord : FinancialRecord)
  : list MismatchReason :=
  let purchaseGstin := trim (toUpperCase (gstin purchaseRecord)) in
  let salesGstin := trim (toUpperCase (gstin salesRecord)) in
  if JsString.truthy purchaseGstin && JsString.truthy salesGstin
     && negb (String.eqb purchaseGstin salesGstin)
  then
    [ {| field := "GSTIN";
         purchaseValue := VString (gstin purchaseRecord);
         salesValue := VString (gstin salesRecord);
         difference := None |} ]
  else [].

Definition partyNameReason (purchaseRecord salesRecord : FinancialRecord)
  : list MismatchReason :=
  let purchaseName := trim (toLowerCase (partyName purchaseRecord)) in
  let salesName := trim (toLowerCase (partyName salesRecord)) in
  if JsString.truthy purchaseName && JsString.truthy salesName
     && negb (String.eqb purchaseName salesName)
  then
    if negb (includes purchaseName salesName)
       && negb (includes salesName purchaseName)
    then
      [ {| field := "Party Name";
           purchaseValue := VString (partyName purchaseRecord);
           salesValue := VString (partyName salesRecord);
           difference := None |} ]
    else []
  else [].

(** [reasons] starts empty and each check pushes at most one reason, in
    this order. *)
Definition findMismatches (purchaseRecord salesRecord : FinancialRecord)
  : list MismatchReason :=
  gstinReason purchaseRecord salesRecord
  ++ partyNameReason purchaseRecord salesRecord
  ++ amountReason "Taxable Amount"
       (taxableAmount purchaseRecord) (taxableAmount salesRecord)
  ++ amountReason "IGST" (igst purchaseRecord) (igst salesRecord)
  ++ amountReason "CGST" (cgst purchaseRecord) (cgst salesRecord)
  ++ amountReason "SGST" (sgst purchaseRecord) (sgst salesRecord)
  ++ amountReason "Total Amount"
       (totalAmount purchaseRecord) (totalAmount salesRecord).

End Detector.

(* ================================================================== *)
(** * JavaScript [Map] and [Set] keyed by strings *)

Module JsMap.

Definition t (V : Type) : Type := list (string * V).

Definition empty {V : Type} : t V := [].

(** [m.set(k, v)]: a new key goes last, a known key keeps its place. *)
Fixpoint set {V : Type} (m : t V) (k : string) (v : V) : t V :=
  match m with
  | [] => [(k, v)]
  | (k', v') :: rest =>
      if String.eqb k' k then (k', v) :: rest
      else (k', v') :: set rest k v
  end.

(** [m.get(k)], [None] standing for [undefined]. *)
Fixpoint get {V : Type} (m : t V) (k : string) : option V :=
  match m with
  | [] => None
  | (k', v) :: rest => if String.eqb k' k then Some v else get rest k
  end.

Definition keys {V : Type} (m : t V) : list string := map fst m.

End JsMap.

Module JsSet.

Definition t : Type := list string.

Definition empty : t := [].

Definition has (s : t) (k : string) : bool := existsb (String.eqb k) s.

Definition add (s : t) (k : string) : t := if has s k then s else s ++ [k].

End JsSet.

(* ================================================================== *)
(** * Reconciliation matcher *)

Section Matcher.

Local Open Scope float_scope.

(** The two [for ... of records] loops that fill the lookup maps. *)
Definition buildLookup (records : list FinancialRecord)
  : JsMap.t FinancialRecord :=
  fold_left (fun m record => JsMap.set m (generateMatchKey record) record)
            records JsMap.empty.

(** The identifier of the next result, [result-${results.length}]. *)
Definition nextId (results : list ReconciliationResult) : string :=
  "result-" ++ JsString.ofNat (List.length results).

(** The result pushed for an entry of the purchase map; [newId] is the
    [result-N] identifier, [N] the number of results pushed so far. *)
Definition classifyPurchase (salesMap : JsMap.t FinancialRecord)
           (newId : string) (key : string) (purchase : FinancialRecord)
  : ReconciliationResult :=
  match JsMap.get salesMap key with
  | None =>
      {| resultId := newId;
         status := missing_in_sales;
         purchaseRecord := Some purchase;
         salesRecord := None;
         matchKey := key;
         mismatchReasons := [];
         totalDifference := totalAmount purchase |}
  | Some sales =>
      let mismatches := findMismatches purchase sales in
      if Nat.eqb (List.length mismatches) 0 then
        {| resultId := newId;
           status := matched;
           purchaseRecord := Some purchase;
           salesRecord := Some sales;
           matchKey := key;
           mismatchReasons := [];
           totalDifference := 0 |}
      else
        let totalDiff :=
          find (fun m => String.eqb (field m) "Total Amount") mismatches in
        {| resultId := newId;
           status := mismatched;
           purchaseRecord := Some purchase;
           salesRecord := Some sales;
           matchKey := key;
           mismatchReasons := mismatches;
           totalDifference :=
             JsNumber.orZero
               (match totalDiff with
                | Some m => difference m
                | None => None
                end) |}
  end.

(** One turn of the loop over the purchase map. *)
Definition purchaseStep (salesMap : JsMap.t FinancialRecord)
           (state : list ReconciliationResult * JsSet.t)
           (entry : string * FinancialRecord)
  : list ReconciliationResult * JsSet.t :=
  let '(results, processedKeys) := state in
  let '(key, purchase) := entry in
  (results ++ [classifyPurchase salesMap (nextId results) key purchase],
   JsSet.add processedKeys key).

(** The result pushed for an entry of the sales map whose key was not
    processed. *)
Definition missingInPurchase (newId key : string) (sales : FinancialRecord)
  : ReconciliationResult :=
  {| resultId := newId;
     status := missing_in_purchase;
     purchaseRecord := None;
     salesRecord := Some sales;
     matchKey := key;
     mismatchReasons := [];
     totalDifference := - totalAmount sales |}.

(** One turn of the loop over the sales map. *)
Definition salesStep (processedKeys : JsSet.t)
           (results : list ReconciliationResult)
           (entry : string * FinancialRecord)
  : list ReconciliationResult :=
  let '(key, sales) := entry in
  if negb (JsSet.has processedKeys key) then
    results ++ [missingInPurchase (nextId results) key sales]
  else results.

Definition reconcileDatasets (purchaseRecords salesRecords : list FinancialRecord)
  : list ReconciliationResult :=
  let purchaseMap := buildLookup purchaseRecords in
  let salesMap := buildLookup salesRecords in
  let '(results, processedKeys) :=
    fold_left (purchaseStep salesMap) purchaseMap ([], JsSet.empty) in
  fold_left (salesStep processedKeys) salesMap results.

End Matcher.

(* ================================================================== *)
(** * Summary aggregator *)

Section Aggregator.

Local Open Scope float_scope.

(** [results.filter((r) => r.status === s).length]. *)
Definition countStatus (s : ReconciliationStatus)
           (results : list ReconciliationResult) : nat :=
  List.length (filter (fun r => status_eqb (status r) s) results).

Definition calculateSummary (results : list ReconciliationResult)
  : ReconciliationSummary :=
  let totalRecords := List.length results in
  let matchedCount := countStatus matched results in
  let mismatchedCount := countStatus mismatched results in
  let missingInPurchaseCount := countStatus missing_in_purchase results in
  let missingInSalesCount := countStatus missing_in_sales results in
  let matchPercentage :=
    if (0 <? totalRecords)%nat
    then JsNumber.Math_round
           (JsNumber.ofNat matchedCount / JsNumber.ofNat totalRecords * 100)
    else 0 in
  let totalDifferenceAmount :=
    fold_left (fun sum r => sum + abs (totalDifference r)) results 0 in
  {| totalRecords := totalRecords;
     matchedCount := matchedCount;
     mismatchedCount := mismatchedCount;
     missingInPurchaseCount := missingInPurchaseCount;
     missingInSalesCount := missingInSalesCount;
     matchPercentage := matchPercentage;
     totalDifferenceAmount := totalDifferenceAmount |}.

End Aggregator.

(* ================================================================== *)
(** * Notions used in the statements *)

(** The same record with another invoice date. *)
Definition withInvoiceDate (r : FinancialRecord) (d : string) : FinancialRecord :=
  {| id := id r; gstin := gstin r; partyName := partyName r;
     invoiceNo := invoiceNo r; invoiceDate := d;
     taxableAmount := taxableAmount r; igst := igst r; cgst := cgst r;
     sgst := sgst r; totalAmount := totalAmount r; rawData := rawData r |}.

(** The same record with another total amount. *)
Definition withTotalAmount (r : FinancialRecord) (t : float) : FinancialRecord :=
  {| id := id r; gstin := gstin r; partyName := partyName r;
     invoiceNo := invoiceNo r; invoiceDate := invoiceDate r;
     taxableAmount := taxableAmount r; igst := igst r; cgst := cgst r;
     sgst := sgst r; totalAmount := t; rawData := rawData r |}.

(** A date written year first, and one written day first with the
    separators [s1] and [s2]. *)
Definition isoDate (y1 y2 y3 y4 m1 m2 d1 d2 : ascii) : string :=
  ofChars [y1; y2; y3; y4; "-"; m1; m2; "-"; d1; d2]%char.

Definition dayFirstDate (s1 s2 : ascii) (y1 y2 y3 y4 m1 m2 d1 d2 : ascii) : string :=
  ofChars [d1; d2; s1; m1; m2; s2; y1; y2; y3; y4].


(** The last record of a collection that generates the key [k]. *)
Definition lastWithKey (records : list FinancialRecord) (k : string)
  : option FinancialRecord :=
  find (fun r => String.eqb (generateMatchKey r) k) (rev records).

(** The results of the loop over the purchase map, the first of them
    numbered [n]. *)
Fixpoint purchaseResults (salesMap : JsMap.t FinancialRecord) (n : nat)
         (entries : list (string * FinancialRecord))
  : list ReconciliationResult :=
  match entries with
  | [] => []
  | (key, purchase) :: rest =>
      classifyPurchase salesMap ("result-" ++ JsString.ofNat n) key purchase
      :: purchaseResults salesMap (S n) rest
  end.

(** The results of the loop over the sales map, the first of them
    numbered [n]. *)
Fixpoint salesResults (processedKeys : JsSet.t) (n : nat)
         (entries : list (string * FinancialRecord))
  : list ReconciliationResult :=
  match entries with
  | [] => []
  | (key, sales) :: rest =>
      if negb (JsSet.has processedKeys key)
      then missingInPurchase ("result-" ++ JsString.ofNat n) key sales
           :: salesResults processedKeys (S n) rest
      else salesResults processedKeys n rest
  end.

(** The results that carry the match key [k]. *)
Definition resultsFor (k : string) (results : list ReconciliationResult)
  : list ReconciliationResult :=
  filter (fun r => String.eqb (matchKey r) k) results.

(** The reasons of a list that name the field [name]. *)
Definition reasonsFor (name : string) (reasons : list MismatchReason)
  : list MismatchReason :=
  filter (fun m => String.eqb (field m) name) reasons.

(** The five numeric fields, with the amount each one reads. *)
Inductive AmountField : Type :=
| TaxableAmountField | IgstField | CgstField | SgstField | TotalAmountField.

Definition amountName (f : AmountField) : string :=
  match f with
  | TaxableAmountField => "Taxable Amount"
  | IgstField => "IGST"
  | CgstField => "CGST"
  | SgstField => "SGST"
  | TotalAmountField => "Total Amount"
  end.

Definition amountOf (f : AmountField) (r : FinancialRecord) : float :=
  match f with
  | TaxableAmountField => taxableAmount r
  | IgstField => igst r
  | CgstField => cgst r
  | SgstField => sgst r
  | TotalAmountField => totalAmount r
  end.

(** [a] occurs in [b] as a substring. *)
Definition isSubstring (a b : string) : Prop :=
  exists before after : string, b = (before ++ a ++ after)%string.

(** The four amounts other than the total are finite numbers. *)
Definition finiteParts (r : FinancialRecord) : Prop :=
  is_finite (taxableAmount r) = true /\ is_finite (igst r) = true
  /\ is_finite (cgst r) = true /\ is_finite (sgst r) = true.

(** Every amount of [p] is within the tolerance of that of [s]. *)
Definition withinTolerance (p s : FinancialRecord) : Prop :=
  forall f : AmountField,
    isEqual (compareAmounts (amountOf f p) (amountOf f s)) = true.

(** [abs (p - s) > 1] as JavaScript evaluates it. *)
Definition exceedsTolerance (p s : float) : bool :=
  (1 <? abs (p - s))%float.

(** The double closest to 1.01. *)
Definition onePointZeroOne : float := 0x1.028f5c28f5c29p+0%float.

(** Rounding to the closest integer, a tie going away from zero: the sign
    is set aside, the magnitude [m * 2^e] is rounded half up, and the sign
    is put back. *)
Definition roundHalfAwayFromZero (x : float) : float :=
  match Prim2SF x with
  | S754_finite s m e =>
      if (0 <=? e)%Z then x
      else
        let scale := Z.pow 2 (- e) in
        let magnitude := Z.div (2 * Zpos m + scale) (2 * scale) in
        JsNumber.ofInteger s (cond_Zopp s magnitude)
  | _ => x
  end.

(** A value of the specification of floats that is not below zero ([NaN]
    carries no sign). *)
Definition sfNonNegative (x : spec_float) : bool :=
  match x with
  | S754_nan => true
  | S754_zero s | S754_infinity s | S754_finite s _ _ => negb s
  end.

(** A result of the given status, for the examples. *)
Definition sampleResult (st : ReconciliationStatus) : ReconciliationResult :=
  {| resultId := ""; status := st; purchaseRecord := None;
     salesRecord := None; matchKey := ""; mismatchReasons := [];
     totalDifference := 0%float |}.

(** A record for the examples. *)
Definition sampleRecord (rowId gst name inv date : string) (total : float)
  : FinancialRecord :=
  {| id := rowId; gstin := gst; partyName := name; invoiceNo := inv;
     invoiceDate := date; taxableAmount := 100%float; igst := 0%float;
     cgst := 9%float; sgst := 9%float; totalAmount := total; rawData := [] |}.

(* ================================================================== *)
(** * Status display ([getStatusLabel], [getStatusColor]) *)

Inductive BadgeVariant : Type :=
| success
| destructive
| warning
| secondary.

Definition getStatusLabel (s : ReconciliationStatus) : string :=
  match s with
  | matched => "Matched"
  | mismatched => "Mismatched"
  | missing_in_purchase => "Missing in Purchase"
  | missing_in_sales => "Missing in Sales"
  end.

Definition getStatusColor (s : ReconciliationStatus) : BadgeVariant :=
  match s with
  | matched => success
  | mismatched => destructive
  | missing_in_purchase => warning
  | missing_in_sales => warning
  end.

(** The string literal that is a status in the source. *)
Definition statusValue (s : ReconciliationStatus) : string :=
  match s with
  | matched => "matched"
  | mismatched => "mismatched"
  | missing_in_purchase => "missing_in_purchase"
  | missing_in_sales => "missing_in_sales"
  end.

(* ================================================================== *)
(** * The page ([src/app/page.tsx]) *)

Definition canReconcile (purchaseRecords salesRecords : list FinancialRecord)
  : bool :=
  (0 <? List.length purchaseRecords)%nat && (0 <? List.length salesRecords)%nat.

Definition hasResults (results : list ReconciliationResult) : bool :=
  (0 <? List.length results)%nat.

(** [runReconciliation]: the results and the summary the page stores. *)
Definition runReconciliation (purchaseRecords salesRecords : list FinancialRecord)
  : list ReconciliationResult * ReconciliationSummary :=
  let reconciliationResults := reconcileDatasets purchaseRecords salesRecords in
  let reconciliationSummary := calculateSummary reconciliationResults in
  (reconciliationResults, reconciliationSummary).

(* ================================================================== *)
(** * The results table ([ResultsTable]) *)

(** [s.delete(k)]. *)
Definition setDelete (s : JsSet.t) (k : string) : JsSet.t :=
  filter (fun x => negb (String.eqb x k)) s.

(** [toggleRow], on a copy of the set of expanded rows. *)
Definition toggleRow (expandedRows : JsSet.t) (rowId : string) : JsSet.t :=
  if JsSet.has expandedRows rowId
  then setDelete expandedRows rowId
  else JsSet.add expandedRows rowId.

(** Whether the row of a result gets the expand button. *)
Definition hasDetails (r : ReconciliationResult) : bool :=
  (0 <? List.length (mismatchReasons r))%nat
  || negb (status_eqb (status r) matched).

(* ================================================================== *)
(** * Values read off a result ([a?.f || b?.f || d]) *)

(** [a || b] where [a] is a string or [undefined]. *)
Definition stringOr (a : option string) (b : string) : string :=
  match a with
  | Some v => if JsString.truthy v then v else b
  | None => b
  end.

(** [a || b] where [a] is a number or [undefined]. *)
Definition numberOr (a : option float) (b : float) : float :=
  match a with
  | Some v => if JsNumber.truthy v then v else b
  | None => b
  end.

(** [result.purchaseRecord?.f || result.salesRecord?.f || ""]. *)
Definition shownField (f : FinancialRecord -> string) (r : ReconciliationResult)
  : string :=
  stringOr (option_map f (purchaseRecord r))
           (stringOr (option_map f (salesRecord r)) "").

(* ================================================================== *)
(** * The filter panel ([FilterPanel]) *)

(** The state of the panel; [None] is the status filter "all". *)
Record FilterState : Type := {
  searchQuery : string;
  statusFilter : option ReconciliationStatus;
  minAmount : string;
  maxAmount : string
}.

Definition statusOptions : list (string * string) :=
  [ ("all", "All Status");
    ("matched", "Matched");
    ("mismatched", "Mismatched");
    ("missing_in_purchase", "Missing in Purchase");
    ("missing_in_sales", "Missing in Sales") ].

Section FilterPanel.

(** The built-in [parseFloat]. *)
Variable parseFloat : string -> float.

Definition searchKeeps (query : string) (result : ReconciliationResult) : bool :=
  let invoiceNo := toLowerCase (shownField invoiceNo result) in
  let partyName := toLowerCase (shownField partyName result) in
  let gstin := toLowerCase (shownField gstin result) in
  includes invoiceNo query || includes partyName query || includes gstin query.

(** The amount the range filter reads off a result. *)
Definition filterAmount (result : ReconciliationResult) : float :=
  numberOr (option_map totalAmount (purchaseRecord result))
           (numberOr (option_map totalAmount (salesRecord result)) 0%float).

Definition amountKeeps (min max : float) (result : ReconciliationResult) : bool :=
  let amount := filterAmount result in
  (min <=? amount)%float && (amount <=? max)%float.

Definition applyFilters (state : FilterState)
           (results : list ReconciliationResult) : list ReconciliationResult :=
  let filtered := results in
  let filtered :=
    if JsString.truthy (trim (searchQuery state)) then
      let query := trim (toLowerCase (searchQuery state)) in
      filter (searchKeeps query) filtered
    else filtered in
  let filtered :=
    match statusFilter state with
    | Some wanted => filter (fun result => status_eqb (status result) wanted) filtered
    | None => filtered
    end in
  let min := numberOr (Some (parseFloat (minAmount state))) 0%float in
  let max := numberOr (Some (parseFloat (maxAmount state))) infinity in
  if JsString.truthy (minAmount state) || JsString.truthy (maxAmount state)
  then filter (amountKeeps min max) filtered
  else filtered.

(** [clearFilters]: the state it sets, and the list it hands on. *)
Definition clearedState : FilterState :=
  {| searchQuery := ""; statusFilter := None; minAmount := ""; maxAmount := "" |}.

End FilterPanel.

(* ================================================================== *)
(** * The CSV export ([exportToCSV]) *)

Definition doubleQuote : ascii := ascii_of_nat 34.
Definition lineFeed : ascii := ascii_of_nat 10.

(** [l.join(sep)]. *)
Fixpoint join (sep : string) (l : list string) : string :=
  match l with
  | [] => ""
  | [x] => x
  | x :: rest => x ++ sep ++ join sep rest
  end.

(** The [replace] of [exportToCSV]: every double quote is written twice. *)
Fixpoint doubleQuotes (s : string) : string :=
  match s with
  | EmptyString => EmptyString
  | String c t =>
      if Ascii.eqb c doubleQuote
      then String doubleQuote (String doubleQuote (doubleQuotes t))
      else String c (doubleQuotes t)
  end.

(** A cell of the file, from its string. *)
Definition escapeCell (str : string) : string :=
  if includes str "," || includes str (String doubleQuote "")
     || includes str (String lineFeed "")
  then String doubleQuote (doubleQuotes str ++ String doubleQuote "")
  else str.

Definition exportHeaders : list string :=
  [ "Status"; "Invoice No"; "Invoice Date"; "Party Name"; "GSTIN";
    "Purchase Taxable Amount"; "Purchase IGST"; "Purchase CGST";
    "Purchase SGST"; "Purchase Total";
    "Sales Taxable Amount"; "Sales IGST"; "Sales CGST"; "Sales SGST";
    "Sales Total"; "Difference"; "Mismatch Reasons" ].

(** [record?.f || ""] for an amount [f]. *)
Definition amountCell (f : FinancialRecord -> float) (record : option FinancialRecord)
  : Value :=
  match record with
  | Some r => if JsNumber.truthy (f r) then VNumber (f r) else VString ""
  | None => VString ""
  end.

Section CsvExport.

(** The built-in conversion of a number to a string. *)
Variable numberToString : float -> string.

(** [String(cell)], also the conversion a template literal applies. *)
Definition cellString (cell : Value) : string :=
  match cell with
  | VString s => s
  | VNumber x => numberToString x
  end.

Definition reasonText (r : MismatchReason) : string :=
  field r ++ ": " ++ cellString (purchaseValue r) ++ " vs "
  ++ cellString (salesValue r).

Definition exportRow (result : ReconciliationResult) : list Value :=
  let purchase := purchaseRecord result in
  let sales := salesRecord result in
  let reasons := join "; " (map reasonText (mismatchReasons result)) in
  [ VString (statusValue (status result));
    VString (shownField invoiceNo result);
    VString (shownField invoiceDate result);
    VString (shownField partyName result);
    VString (shownField gstin result);
    amountCell taxableAmount purchase;
    amountCell igst purchase;
    amountCell cgst purchase;
    amountCell sgst purchase;
    amountCell totalAmount purchase;
    amountCell taxableAmount sales;
    amountCell igst sales;
    amountCell cgst sales;
    amountCell sgst sales;
    amountCell totalAmount sales;
    VNumber (totalDifference result);
    VString reasons ].

Definition csvLine (row : list Value) : string :=
  join "," (map (fun cell => escapeCell (cellString cell)) row).

Definition csvContent (results : list ReconciliationResult) : string :=
  join (String lineFeed "")
       (join "," exportHeaders :: map csvLine (map exportRow results)).

End CsvExport.

(* ================================================================== *)
(** * Ingestion ([FileUpload]) *)

(** [keyof ColumnMapping]. *)
Inductive MappingField : Type :=
| GstinColumn
| PartyNameColumn
| InvoiceNoColumn
| InvoiceDateColumn
| TaxableAmountColumn
| IgstColumn
| CgstColumn
| SgstColumn
| TotalAmountColumn.

(** [Partial<ColumnMapping>]: the column of a field, when it has one. *)
Definition ColumnMappings : Type := MappingField -> option string.

Definition DEFAULT_COLUMN_MAPPINGS (f : MappingField) : string :=
  match f with
  | GstinColumn => "GSTIN"
  | PartyNameColumn => "Party Name"
  | InvoiceNoColumn => "Invoice No"
  | InvoiceDateColumn => "Invoice Date"
  | TaxableAmountColumn => "Taxable Amount"
  | IgstColumn => "IGST"
  | CgstColumn => "CGST"
  | SgstColumn => "SGST"
  | TotalAmountColumn => "Total Amount"
  end.

Definition COLUMN_ALIASES (f : MappingField) : list string :=
  match f with
  | GstinColumn =>
      ["GSTIN"; "GST No"; "GST Number"; "Supplier GSTIN"; "Customer GSTIN";
       "GSTIN/UIN"]
  | PartyNameColumn =>
      ["Party Name"; "Supplier Name"; "Customer Name"; "Name"; "Vendor Name";
       "Business Name"]
  | InvoiceNoColumn =>
      ["Invoice No"; "Invoice Number"; "Inv No"; "Bill No"; "Document No";
       "Voucher No"]
  | InvoiceDateColumn =>
      ["Invoice Date"; "Date"; "Bill Date"; "Document Date"; "Voucher Date"]
  | TaxableAmountColumn =>
      ["Taxable Amount"; "Taxable Value"; "Base Amount"; "Net Amount"; "Amount"]
  | IgstColumn => ["IGST"; "IGST Amount"; "Integrated Tax"]
  | CgstColumn => ["CGST"; "CGST Amount"; "Central Tax"]
  | SgstColumn => ["SGST"; "SGST Amount"; "State Tax"; "UTGST"]
  | TotalAmountColumn =>
      ["Total Amount"; "Total"; "Invoice Value"; "Gross Amount";
       "Invoice Amount"]
  end.

(** [l.includes(x)] on strings. *)
Definition listIncludes (l : list string) (x : string) : bool :=
  existsb (String.eqb x) l.

(** Find matching column from CSV headers. *)
Definition findColumn (headers aliases : list string) : option string :=
  let normalizedAliases := map (fun a => trim (toLowerCase a)) aliases in
  find (fun header => listIncludes normalizedAliases (trim (toLowerCase header)))
       headers.

(** Auto-detect column mappings from CSV headers. *)
Definition detectColumnMappings (headers : list string) : ColumnMappings :=
  fun field =>
    match findColumn headers (COLUMN_ALIASES field) with
    | Some matchedColumn =>
        if JsString.truthy matchedColumn then Some matchedColumn else None
    | None => None
    end.


Section Ingestion.

(** [parseNumber] of [src/lib/utils.ts] on a string: the built-in
    [parseFloat] after the currency sign, commas and white space are
    removed, with 0 for no number. *)
Variable parseNumber : string -> float.






End Ingestion.

(* ================================================================== *)
(** * Further notions used in the statements *)

(** The distinct elements of a list, each at its first occurrence. *)
Fixpoint firstSeen (l : list string) : list string :=
  match l with
  | [] => []
  | k :: rest => k :: filter (fun x => negb (String.eqb x k)) (firstSeen rest)
  end.

(** The match keys of a collection, in the order they are first met. *)
Definition keysOf (records : list FinancialRecord) : list string :=
  firstSeen (map generateMatchKey records).

(** Whether a key is generated by a record of the collection. *)
Definition hasKey (records : list FinancialRecord) (k : string) : bool :=
  existsb (fun r => String.eqb (generateMatchKey r) k) records.

(** The field names of the reasons, in the order of the checks. *)
Definition reasonFields : list string :=
  ["GSTIN"; "Party Name"; "Taxable Amount"; "IGST"; "CGST"; "SGST";
   "Total Amount"].

(** All five amounts of a record are finite numbers. *)
Definition finiteAmounts (r : FinancialRecord) : Prop :=
  forall f : AmountField, is_finite (amountOf f r) = true.

(** A header as [findColumn] compares it. *)
Definition normalizedHeader (h : string) : string := trim (toLowerCase h).

(** Whether a header is one of the aliases of a field. *)
Definition headerMatches (f : MappingField) (h : string) : bool :=
  listIncludes (map normalizedHeader (COLUMN_ALIASES f)) (normalizedHeader h).

Definition mappingFields : list MappingField :=
  [GstinColumn; PartyNameColumn; InvoiceNoColumn; InvoiceDateColumn;
   TaxableAmountColumn; IgstColumn; CgstColumn; SgstColumn; TotalAmountColumn].

(** The amount written in decimal with two places after the point, [n]
    hundredths: the double closest to [n / 100], which is the number
    JavaScript reads from that decimal text (the quotient of two integers
    below [2^53] is rounded once, to the closest double). *)
Definition hundredths (n : N) : float :=
  (JsNumber.ofInteger false (Z.of_N n) / 100)%float.

(** The match percentage of the exact fraction [matched / total * 100],
    rounded to the closest integer, a tie going away from zero: the
    arithmetic of the integers, with no binary64 rounding in between. *)
Definition roundedExactPercentage (matched total : nat) : Z :=
  (Z.div (200 * Z.of_nat matched + Z.of_nat total) (2 * Z.of_nat total))%Z.

(** Text of 7-bit characters only.  On such text [toUpperCase] and
    [toLowerCase] above are those of JavaScript; beyond it JavaScript maps
    further letters, and may change the length of the text. *)
Definition sevenBit (s : string) : bool :=
  forallb (fun c => (JsString.code c <? 128)%N) (list_ascii_of_string s).

(* ================================================================== *)
(** * Properties of the key normaliser *)

Section KeyNormaliser.

Lemma isDigit_not_space (c : ascii) :
  isDigit c = true -> isWhiteSpace c = false.
Proof.
  unfold isDigit, isWhiteSpace. intros H.
  apply andb_true_iff in H as [H1 H2].
  apply N.leb_le in H1. apply N.leb_le in H2.
  apply orb_false_iff; split.
  - apply andb_false_iff; right. apply N.leb_gt. lia.
  - apply N.eqb_neq. lia.
Qed.

Lemma isDateSep_cases (c : ascii) :
  isDateSep c = true -> c = "-"%char \/ c = "/"%char.
Proof.
  unfold isDateSep. intros H. apply orb_true_iff in H as [H | H];
    apply Ascii.eqb_eq in H; auto.
Qed.

Lemma isDateSep_not_digit (c : ascii) :
  isDateSep c = true -> isDigit c = false.
Proof.
  intros H. destruct (isDateSep_cases c H); subst; reflexivity.
Qed.

(** A day-first date is rewritten year first. *)
Lemma normalizeDate_dayFirst (s1 s2 y1 y2 y3 y4 m1 m2 d1 d2 : ascii) :
  forallb isDigit [y1; y2; y3; y4; m1; m2; d1; d2] = true ->
  isDateSep s1 = true -> isDateSep s2 = true ->
  normalizeDate (dayFirstDate s1 s2 y1 y2 y3 y4 m1 m2 d1 d2)
  = isoDate y1 y2 y3 y4 m1 m2 d1 d2.
Proof.
  intros Hd Hs1 Hs2. cbn [forallb] in Hd.
  repeat (apply andb_true_iff in Hd as [? Hd]).
  unfold normalizeDate, dayFirstDate, isoDate, ofChars. cbn [string_of_list_ascii JsString.truthy].
  unfold trim. cbn [trimStart]. rewrite (isDigit_not_space d1) by assumption.
  cbn [trimEnd]. rewrite (isDigit_not_space y4) by assumption.
  unfold isoMatch, indianMatch. cbn [list_ascii_of_string forallb].
  rewrite (isDateSep_not_digit s1) by assumption.
  repeat match goal with
         | H : isDigit ?c = true |- context [isDigit ?c] => rewrite H
         end.
  rewrite Hs1, Hs2. cbn. reflexivity.
Qed.

(** A year-first date is kept. *)
Lemma normalizeDate_iso (y1 y2 y3 y4 m1 m2 d1 d2 : ascii) :
  forallb isDigit [y1; y2; y3; y4; m1; m2; d1; d2] = true ->
  normalizeDate (isoDate y1 y2 y3 y4 m1 m2 d1 d2)
  = isoDate y1 y2 y3 y4 m1 m2 d1 d2.
Proof.
  intros Hd. cbn [forallb] in Hd.
  repeat (apply andb_true_iff in Hd as [? Hd]).
  unfold normalizeDate, isoDate, ofChars. cbn [string_of_list_ascii JsString.truthy].
  unfold trim. cbn [trimStart]. rewrite (isDigit_not_space y1) by assumption.
  cbn [trimEnd]. rewrite (isDigit_not_space d2) by assumption.
  unfold isoMatch. cbn [list_ascii_of_string forallb].
  repeat match goal with
         | H : isDigit ?c = true |- context [isDigit ?c] => rewrite H
         end.
  cbn. reflexivity.
Qed.


Lemma append_inj_l (p a b : string) : (p ++ a = p ++ b)%string -> a = b.
Proof.
  induction p as [| c p IH]; cbn; intros H; [assumption |].
  injection H as H. auto.
Qed.

End KeyNormaliser.

Lemma generateMatchKey_key_of_fields (r1 r2 : FinancialRecord) :
  invoiceNo r1 = invoiceNo r2 -> invoiceDate r1 = invoiceDate r2 ->
  generateMatchKey r1 = generateMatchKey r2.
Proof.
  intros Hno Hdate. unfold generateMatchKey. rewrite Hno, Hdate. reflexivity.
Qed.

(** C10. The match key is a function of the invoice number and the invoice
    date alone: two records that agree on these two fields generate the same
    key, whatever their identifiers, GSTINs, party names, amounts and raw
    rows are. *)
Theorem generateMatchKey_reads_invoice_fields_only (r1 r2 : FinancialRecord) :
  invoiceNo r1 = invoiceNo r2 ->
  invoiceDate r1 = invoiceDate r2 ->
  generateMatchKey r1 = generateMatchKey r2.
Proof.
  intros Hno Hdate. unfold generateMatchKey.
  now rewrite Hno, Hdate.
Qed.

Lemma generateMatchKey_reads_invoice_fields_only_witness :
  generateMatchKey
    {| id := "row-0"; gstin := "27AAPFU0939F1ZV"; partyName := "Acme Traders";
       invoiceNo := "INV-2024-001"; invoiceDate := "15-01-2024";
       taxableAmount := 1000%float; igst := 180%float; cgst := 0%float;
       sgst := 0%float; totalAmount := 1180%float;
       rawData := [("Invoice No", VString "INV-2024-001")] |}
  = generateMatchKey
    {| id := "row-7"; gstin := "29AABCT1332L1ZP"; partyName := "Zenith Ltd";
       invoiceNo := "INV-2024-001"; invoiceDate := "15-01-2024";
       taxableAmount := 5%float; igst := 0%float; cgst := 2%float;
       sgst := 2%float; totalAmount := 9%float;
       rawData := [("Total", VNumber 9%float)] |}.
Proof.
  apply generateMatchKey_reads_invoice_fields_only; reflexivity.
Defined.

(** C5. A record dated day first, with [-] or [/] between the parts, gets
    the key of the same record dated year first; so for every record (hence
    every invoice number) the dates 2024-01-05, 05-01-2024 and 05/01/2024
    give one key. *)
Theorem generateMatchKey_date_format_equivalence :
  (forall (r : FinancialRecord) (s1 s2 y1 y2 y3 y4 m1 m2 d1 d2 : ascii),
      forallb isDigit [y1; y2; y3; y4; m1; m2; d1; d2] = true ->
      isDateSep s1 = true -> isDateSep s2 = true ->
      generateMatchKey
        (withInvoiceDate r (dayFirstDate s1 s2 y1 y2 y3 y4 m1 m2 d1 d2))
      = generateMatchKey
          (withInvoiceDate r (isoDate y1 y2 y3 y4 m1 m2 d1 d2)))
  /\ (forall r : FinancialRecord,
         generateMatchKey (withInvoiceDate r "05-01-2024")
         = generateMatchKey (withInvoiceDate r "2024-01-05")
         /\ generateMatchKey (withInvoiceDate r "05/01/2024")
            = generateMatchKey (withInvoiceDate r "2024-01-05")).
Proof.
  assert (G : forall r s1 s2 y1 y2 y3 y4 m1 m2 d1 d2,
             forallb isDigit [y1; y2; y3; y4; m1; m2; d1; d2] = true ->
             isDateSep s1 = true -> isDateSep s2 = true ->
             generateMatchKey
               (withInvoiceDate r (dayFirstDate s1 s2 y1 y2 y3 y4 m1 m2 d1 d2))
             = generateMatchKey
                 (withInvoiceDate r (isoDate y1 y2 y3 y4 m1 m2 d1 d2))).
  { intros r s1 s2 y1 y2 y3 y4 m1 m2 d1 d2 Hd Hs1 Hs2.
    unfold generateMatchKey, withInvoiceDate. cbn [invoiceNo invoiceDate].
    rewrite normalizeDate_dayFirst by assumption.
    rewrite normalizeDate_iso by assumption. reflexivity. }
  split; [exact G |].
  intros r. split.
  - exact (G r "-" "-" "2" "0" "2" "4" "0" "1" "0" "5"
             eq_refl eq_refl eq_refl)%char.
  - exact (G r "/" "/" "2" "0" "2" "4" "0" "1" "0" "5"
             eq_refl eq_refl eq_refl)%char.
Qed.

Lemma generateMatchKey_date_format_equivalence_witness :
  generateMatchKey (sampleRecord "row-0" "" "" "INV-1" "05/01/2024" 0%float)
  = "INV-1|2024-01-05"
  /\ generateMatchKey (sampleRecord "row-0" "" "" "INV-1" "05-01-2024" 0%float)
     = generateMatchKey (sampleRecord "row-0" "" "" "INV-1" "2024-01-05" 0%float).
Proof.
  split; [reflexivity |].
  exact (proj1 generateMatchKey_date_format_equivalence
           (sampleRecord "row-0" "" "" "INV-1" "" 0%float)
           "-" "-" "2" "0" "2" "4" "0" "1" "0" "5"
           eq_refl eq_refl eq_refl)%char.
Defined.




(* ================================================================== *)
(** * Properties of the summary counts *)

Section SummaryCounts.

Lemma countStatus_cons (s : ReconciliationStatus) (r : ReconciliationResult)
      (results : list ReconciliationResult) :
  countStatus s (r :: results)
  = (if status_eqb (status r) s then 1 else 0) + countStatus s results.
Proof.
  unfold countStatus. cbn [filter].
  destruct (status_eqb (status r) s); reflexivity.
Qed.

Lemma countStatus_total (results : list ReconciliationResult) :
  countStatus matched results + countStatus mismatched results
  + countStatus missing_in_purchase results
  + countStatus missing_in_sales results
  = List.length results.
Proof.
  induction results as [| r results IH]; [reflexivity |].
  rewrite !countStatus_cons. cbn [List.length].
  destruct (status r); cbn [status_eqb]; lia.
Qed.

End SummaryCounts.

(** C4. The four counts of a summary add up to [totalRecords], which is the
    length of the result list; every result carries one of the four status
    values and is counted under that one alone. *)
Theorem calculateSummary_counts_partition (results : list ReconciliationResult) :
  let s := calculateSummary results in
  matchedCount s + mismatchedCount s + missingInPurchaseCount s
  + missingInSalesCount s = totalRecords s
  /\ totalRecords s = List.length results
  /\ forall r : ReconciliationResult,
      In r results ->
      (status r = matched \/ status r = mismatched
       \/ status r = missing_in_purchase \/ status r = missing_in_sales)
      /\ countStatus matched [r] + countStatus mismatched [r]
         + countStatus missing_in_purchase [r]
         + countStatus missing_in_sales [r] = 1.
Proof.
  cbn zeta. unfold calculateSummary.
  cbn [matchedCount mismatchedCount missingInPurchaseCount
       missingInSalesCount totalRecords].
  split; [apply countStatus_total |]. split; [reflexivity |].
  intros r _. split.
  - destruct (status r); auto.
  - apply (countStatus_total [r]).
Qed.

(* ================================================================== *)
(** * Facts on binary64 numbers

    The operations are related to their specification on [spec_float]
    through the equations of [FloatAxioms]. *)

Section FloatFacts.
Local Open Scope float_scope.

Lemma Prim2SF_one : Prim2SF 1 = S754_finite false 4503599627370496 (-52).
Proof. vm_compute. reflexivity. Qed.

Lemma Prim2SF_infinity : Prim2SF infinity = S754_infinity false.
Proof. vm_compute. reflexivity. Qed.

Lemma SFcompare_refl (x : spec_float) :
  x <> S754_nan -> SFcompare x x = Some Eq.
Proof.
  destruct x as [s | s | | s m e]; intros H; try (destruct s; reflexivity).
  - contradiction.
  - cbn. rewrite Z.compare_refl, Pos.compare_cont_refl. destruct s; reflexivity.
Qed.

Lemma SFcompare_none (x y : spec_float) :
  SFcompare x y = None <-> x = S754_nan \/ y = S754_nan.
Proof.
  destruct x as [s | s | | s m e], y as [s' | s' | | s' m' e']; cbn;
    split; intros H; try discriminate; try (destruct H; discriminate); auto.
  all: destruct s, s'; discriminate.
Qed.

Lemma SFcompare_antisym (x y : spec_float) :
  SFcompare y x = option_map CompOpp (SFcompare x y).
Proof.
  destruct x as [s | s | | s m e], y as [s' | s' | | s' m' e']; cbn;
    try reflexivity; try (destruct s; reflexivity);
    try (destruct s'; reflexivity); try (destruct s, s'; reflexivity).
  destruct s, s'; cbn; try reflexivity.
  - rewrite (Z.compare_antisym e e').
    pose proof (Pos.compare_cont_antisym m m' Eq) as A. cbn in A.
    destruct (e ?= e')%Z; cbn; try reflexivity.
    rewrite <- A. reflexivity.
  - rewrite (Z.compare_antisym e e').
    pose proof (Pos.compare_cont_antisym m m' Eq) as A. cbn in A.
    destruct (e ?= e')%Z; cbn; try reflexivity.
    rewrite <- A. reflexivity.
Qed.

Lemma is_nan_spec (x : float) :
  is_nan x = true <-> Prim2SF x = S754_nan.
Proof.
  unfold is_nan. rewrite eqb_spec. unfold SFeqb. split.
  - intros H. destruct (Prim2SF x) as [s | s | | s m e] eqn:E; try reflexivity;
      rewrite SFcompare_refl in H by discriminate; discriminate.
  - intros ->. reflexivity.
Qed.

Lemma abs_nan (x : float) : is_nan (abs x) = is_nan x.
Proof.
  apply eq_true_iff_eq. rewrite !is_nan_spec, abs_spec.
  destruct (Prim2SF x); cbn; split; intros; congruence.
Qed.

(** [!(x <= y)] is [y < x], or one of the two is [NaN]. *)
Lemma leb_false_iff (x y : float) :
  (x <=? y) = false <-> (y <? x) = true \/ is_nan x = true \/ is_nan y = true.
Proof.
  rewrite leb_spec, ltb_spec, !is_nan_spec. unfold SFleb, SFltb.
  rewrite (SFcompare_antisym (Prim2SF x) (Prim2SF y)).
  pose proof (SFcompare_none (Prim2SF x) (Prim2SF y)) as Hn.
  destruct (SFcompare (Prim2SF x) (Prim2SF y)) as [[| |] |]; cbn; split;
    intros H; try discriminate; auto.
  - destruct H as [H | H]; [discriminate |].
    apply Hn in H. discriminate.
  - destruct H as [H | H]; [discriminate |].
    apply Hn in H. discriminate.
  - right. apply Hn. reflexivity.
Qed.

(** A difference outside the tolerance that is a number is not a zero,
    so [d || 0] keeps it. *)
Lemma truthy_outside_tolerance (d : float) :
  (abs d <=? AMOUNT_TOLERANCE) = false -> is_nan d = false ->
  JsNumber.truthy d = true.
Proof.
  intros Hout Hnan. unfold JsNumber.truthy. rewrite Hnan, orb_false_r.
  apply negb_true_iff. unfold is_zero. rewrite eqb_spec.
  unfold AMOUNT_TOLERANCE in Hout. rewrite leb_spec, abs_spec in Hout.
  change (Prim2SF zero) with (S754_zero false).
  rewrite Prim2SF_one in Hout.
  destruct (Prim2SF d) as [s | s | | s m e].
  - destruct s; discriminate Hout.
  - destruct s; reflexivity.
  - reflexivity.
  - destruct s; reflexivity.
Qed.

Lemma is_finite_spec (x : float) :
  is_finite x = true ->
  (exists s, Prim2SF x = S754_zero s)
  \/ (exists s m e, Prim2SF x = S754_finite s m e).
Proof.
  unfold is_finite, is_infinity. intros H.
  apply negb_true_iff, orb_false_iff in H as [Hnan Hinf].
  rewrite eqb_spec, abs_spec, Prim2SF_infinity in Hinf.
  assert (Hn : Prim2SF x <> S754_nan).
  { intros E. apply is_nan_spec in E. congruence. }
  destruct (Prim2SF x) as [s | s | | s m e]; eauto.
  - discriminate Hinf.
  - contradiction.
Qed.

(** A finite amount compared with itself is within the tolerance. *)
Lemma compareAmounts_same_finite (a : float) :
  is_finite a = true -> isEqual (compareAmounts a a) = true.
Proof.
  intros H. unfold compareAmounts, compareAmountsWith, AMOUNT_TOLERANCE.
  cbn [isEqual]. rewrite leb_spec, abs_spec, sub_spec, Prim2SF_one.
  destruct (is_finite_spec a H) as [[s E] | [s [m [e E]]]]; rewrite E.
  - destruct s; reflexivity.
  - unfold SF64sub, SFsub. rewrite Z.sub_diag. reflexivity.
Qed.

(** Signs through the operations of the match percentage. *)
Lemma binary_round_aux_sign (s : bool) (m e : Z) (l : location) :
  match binary_round_aux prec emax s m e l with
  | S754_nan => True
  | S754_zero s' | S754_infinity s' | S754_finite s' _ _ => s' = s
  end.
Proof.
  unfold binary_round_aux.
  destruct (shr_fexp prec emax m e l) as [mrs' e'].
  destruct (shr_fexp prec emax _ e' loc_Exact) as [mrs'' e''].
  destruct (shr_m mrs''); [reflexivity | | exact I].
  destruct (e'' <=? emax - prec)%Z; reflexivity.
Qed.

Lemma binary_round_aux_nonneg (m e : Z) (l : location) :
  sfNonNegative (binary_round_aux prec emax false m e l) = true.
Proof.
  pose proof (binary_round_aux_sign false m e l) as H.
  destruct (binary_round_aux prec emax false m e l); cbn; try reflexivity;
    rewrite H; reflexivity.
Qed.

Lemma ofNat_nonneg (n : nat) : sfNonNegative (Prim2SF (JsNumber.ofNat n)) = true.
Proof.
  unfold JsNumber.ofNat. rewrite of_uint63_spec.
  pose proof (Uint63.to_Z_bounded (Uint63.of_Z (Z.of_nat n))) as [Hlo _].
  destruct (Uint63.to_Z (Uint63.of_Z (Z.of_nat n))) as [| p | p].
  - reflexivity.
  - unfold binary_normalize, binary_round.
    destruct (shl_align _ _ _) as [mz ez]. apply binary_round_aux_nonneg.
  - exfalso. lia.
Qed.

Lemma SFdiv_nonneg (x y : spec_float) :
  sfNonNegative x = true -> sfNonNegative y = true ->
  sfNonNegative (SF64div x y) = true.
Proof.
  unfold SF64div, SFdiv.
  destruct x as [s | s | | s m e], y as [s' | s' | | s' m' e']; cbn [sfNonNegative];
    intros Hx Hy; try reflexivity;
    try (apply negb_true_iff in Hx); try (apply negb_true_iff in Hy); subst;
    try reflexivity.
  destruct (SFdiv_core_binary prec emax (Z.pos m) e (Z.pos m') e') as [[mz ez] lz].
  apply binary_round_aux_nonneg.
Qed.

Lemma SFmul_nonneg (x y : spec_float) :
  sfNonNegative x = true -> sfNonNegative y = true ->
  sfNonNegative (SF64mul x y) = true.
Proof.
  unfold SF64mul, SFmul.
  destruct x as [s | s | | s m e], y as [s' | s' | | s' m' e']; cbn [sfNonNegative];
    intros Hx Hy; try reflexivity;
    try (apply negb_true_iff in Hx); try (apply negb_true_iff in Hy); subst;
    try reflexivity.
  apply binary_round_aux_nonneg.
Qed.

Lemma percentage_nonneg (a b : nat) :
  sfNonNegative (Prim2SF (JsNumber.ofNat a / JsNumber.ofNat b * 100)) = true.
Proof.
  rewrite mul_spec, div_spec. apply SFmul_nonneg.
  - apply SFdiv_nonneg; apply ofNat_nonneg.
  - vm_compute. reflexivity.
Qed.

(** On a value that is not below zero, [Math.round] rounds a tie away from
    zero. *)
Lemma Math_round_nonneg (x : float) :
  sfNonNegative (Prim2SF x) = true ->
  JsNumber.Math_round x = roundHalfAwayFromZero x.
Proof.
  unfold JsNumber.Math_round, roundHalfAwayFromZero, JsNumber.floorHalfUp.
  destruct (Prim2SF x) as [s | s | | s m e]; try reflexivity.
  cbn [sfNonNegative]. intros H. apply negb_true_iff in H. subst s.
  reflexivity.
Qed.

End FloatFacts.

(* ================================================================== *)
(** * The match percentage *)

Example roundHalfAwayFromZero_ties :
  (roundHalfAwayFromZero 2.5 = 3 /\ roundHalfAwayFromZero (-2.5) = -3
   /\ JsNumber.Math_round 2.5 = 3 /\ JsNumber.Math_round (-2.5) = -2
   /\ roundHalfAwayFromZero 12.5 = 13 /\ roundHalfAwayFromZero 0.25 = 0)%float.
Proof. repeat split; vm_compute; reflexivity. Qed.

(** The percentage is rounded from the binary64 product: 23 matched results
    out of 40 give the product 57.499999999999993, one step below the tie
    57.5, hence 57. *)
Example matchPercentage_23_of_40 :
  matchPercentage
    (calculateSummary (repeat (sampleResult matched) 23
                       ++ repeat (sampleResult missing_in_sales) 17))
  = 57%float.
Proof. vm_compute. reflexivity. Qed.

(** C9, as amended. With no result the match percentage is 0, and no
    division takes place; otherwise it is the binary64 value of
    [matchedCount / totalRecords * 100] as the code computes it, the
    quotient rounded to a number and then the product, rounded to the
    closest integer with a tie going away from zero. *)
Theorem calculateSummary_matchPercentage (results : list ReconciliationResult) :
  let s := calculateSummary results in
  (totalRecords s = 0 -> matchPercentage s = 0%float)
  /\ (0 < totalRecords s ->
      matchPercentage s
      = roundHalfAwayFromZero
          (JsNumber.ofNat (matchedCount s) / JsNumber.ofNat (totalRecords s)
           * 100)%float).
Proof.
  cbn zeta. unfold calculateSummary.
  cbn [matchPercentage totalRecords matchedCount]. split.
  - intros H. rewrite H. reflexivity.
  - intros H. apply Nat.ltb_lt in H. rewrite H.
    apply Math_round_nonneg, percentage_nonneg.
Qed.

Lemma calculateSummary_matchPercentage_witness :
  matchPercentage (calculateSummary []) = 0%float
  /\ matchPercentage
       (calculateSummary [sampleResult matched; sampleResult mismatched;
                          sampleResult matched; sampleResult matched;
                          sampleResult missing_in_sales; sampleResult matched;
                          sampleResult matched; sampleResult missing_in_purchase])
     = 63%float.
Proof.
  split.
  - apply (proj1 (calculateSummary_matchPercentage [])). reflexivity.
  - rewrite (proj2 (calculateSummary_matchPercentage _)).
    + vm_compute. reflexivity.
    + cbn. lia.
Defined.

(** C9 as stated, on the exact fraction, fails on a tie: 23 matched results
    out of 40 are 57.5 percent, which rounds away from zero to 58, while
    the code rounds the binary64 product 57.499999999999993 and returns
    57. *)
Lemma calculateSummary_matchPercentage_counterexample :
  let s :=
    calculateSummary (repeat (sampleResult matched) 23
                      ++ repeat (sampleResult missing_in_sales) 17) in
  matchedCount s = 23 /\ totalRecords s = 40
  /\ (2 * (100 * 23) = 115 * 40
      /\ roundedExactPercentage (matchedCount s) (totalRecords s) = 58%Z)
  /\ ((JsNumber.ofNat (matchedCount s) / JsNumber.ofNat (totalRecords s) * 100
       = 0x1.cbfffffffffffp+5)%float
      /\ (0x1.cbfffffffffffp+5 <? 57.5)%float = true)
  /\ matchPercentage s = 57%float
  /\ (matchPercentage s
      =? JsNumber.ofInteger false
           (roundedExactPercentage (matchedCount s) (totalRecords s)))%float
     = false.
Proof.
  repeat split; vm_compute; reflexivity.
Qed.

(* ================================================================== *)
(** * Properties of the discrepancy detector *)

Section DetectorFacts.
Local Open Scope float_scope.

Lemma reasonsFor_app (name : string) (l1 l2 : list MismatchReason) :
  reasonsFor name (l1 ++ l2) = reasonsFor name l1 ++ reasonsFor name l2.
Proof. apply filter_app. Qed.

Lemma reasonsFor_In (name : string) (l : list MismatchReason) (m : MismatchReason) :
  In m (reasonsFor name l) <-> In m l /\ field m = name.
Proof.
  unfold reasonsFor. rewrite filter_In, String.eqb_eq. reflexivity.
Qed.

Lemma reasonsFor_gstin_amount (f : AmountField) (p s : FinancialRecord) :
  reasonsFor (amountName f) (gstinReason p s) = [].
Proof.
  unfold gstinReason.
  destruct (_ && _ && _); [| reflexivity]. destruct f; reflexivity.
Qed.

Lemma reasonsFor_partyName_amount (f : AmountField) (p s : FinancialRecord) :
  reasonsFor (amountName f) (partyNameReason p s) = [].
Proof.
  unfold partyNameReason.
  destruct (_ && _ && _); [| reflexivity].
  destruct (_ && _); [| reflexivity]. destruct f; reflexivity.
Qed.

Lemma reasonsFor_amountReason_same (f : AmountField) (a b : float) :
  reasonsFor (amountName f) (amountReason (amountName f) a b)
  = amountReason (amountName f) a b.
Proof.
  unfold amountReason. destruct (negb _); [| reflexivity].
  destruct f; reflexivity.
Qed.

Lemma reasonsFor_amountReason_other (f g : AmountField) (a b : float) :
  f <> g -> reasonsFor (amountName f) (amountReason (amountName g) a b) = [].
Proof.
  intros Hfg. unfold amountReason. destruct (negb _); [| reflexivity].
  destruct f, g; try reflexivity; contradiction.
Qed.

Lemma findMismatches_fields (p s : FinancialRecord) :
  findMismatches p s
  = gstinReason p s ++ partyNameReason p s
    ++ amountReason (amountName TaxableAmountField)
         (amountOf TaxableAmountField p) (amountOf TaxableAmountField s)
    ++ amountReason (amountName IgstField)
         (amountOf IgstField p) (amountOf IgstField s)
    ++ amountReason (amountName CgstField)
         (amountOf CgstField p) (amountOf CgstField s)
    ++ amountReason (amountName SgstField)
         (amountOf SgstField p) (amountOf SgstField s)
    ++ amountReason (amountName TotalAmountField)
         (amountOf TotalAmountField p) (amountOf TotalAmountField s).
Proof. reflexivity. Qed.

(** The reasons of [findMismatches] for a numeric field are those its own
    check pushed. *)
Lemma reasonsFor_findMismatches_amount (f : AmountField) (p s : FinancialRecord) :
  reasonsFor (amountName f) (findMismatches p s)
  = amountReason (amountName f) (amountOf f p) (amountOf f s).
Proof.
  rewrite findMismatches_fields, !reasonsFor_app.
  rewrite reasonsFor_gstin_amount, reasonsFor_partyName_amount.
  destruct f;
    rewrite reasonsFor_amountReason_same;
    rewrite !reasonsFor_amountReason_other by discriminate;
    cbn [app]; rewrite ?app_nil_r; reflexivity.
Qed.

(** Outside the tolerance: above it, or not a number. *)
Lemma isEqual_compareAmounts (a b : float) :
  isEqual (compareAmounts a b)
  = negb (exceedsTolerance a b || is_nan (a - b)).
Proof.
  unfold compareAmounts, compareAmountsWith, exceedsTolerance, AMOUNT_TOLERANCE.
  cbn [isEqual].
  destruct (abs (a - b) <=? 1) eqn:E.
  - symmetry. apply negb_true_iff.
    destruct (_ || _) eqn:E'; [| reflexivity].
    assert (H : (abs (a - b) <=? 1) = false).
    { apply leb_false_iff. apply orb_true_iff in E' as [E' | E']; auto.
      right. left. rewrite abs_nan. exact E'. }
    congruence.
  - symmetry. apply negb_false_iff.
    apply leb_false_iff in E as [E | [E | E]].
    + rewrite E. reflexivity.
    + rewrite abs_nan in E. rewrite E. apply orb_true_r.
    + discriminate E.
Qed.

Lemma amountReason_spec (name : string) (a b : float) :
  amountReason name a b
  = if exceedsTolerance a b || is_nan (a - b)
    then [ {| field := name; purchaseValue := VNumber a;
              salesValue := VNumber b; difference := Some (a - b) |} ]
    else [].
Proof.
  unfold amountReason. rewrite isEqual_compareAmounts, negb_involutive.
  reflexivity.
Qed.

Lemma gstinReason_same (p s : FinancialRecord) :
  gstin p = gstin s -> gstinReason p s = [].
Proof.
  intros H. unfold gstinReason. rewrite H, String.eqb_refl.
  cbn [negb]. rewrite andb_false_r. reflexivity.
Qed.

Lemma partyNameReason_same (p s : FinancialRecord) :
  partyName p = partyName s -> partyNameReason p s = [].
Proof.
  intros H. unfold partyNameReason. rewrite H, String.eqb_refl.
  cbn [negb]. rewrite andb_false_r. reflexivity.
Qed.

Lemma amountReason_within (name : string) (a b : float) :
  isEqual (compareAmounts a b) = true -> amountReason name a b = [].
Proof. intros H. unfold amountReason. rewrite H. reflexivity. Qed.

End DetectorFacts.

(* ================================================================== *)
(** * Properties of the lookup maps and of the two loops *)

Section MapFacts.
Context {V : Type}.
Implicit Types (m : JsMap.t V) (k : string) (v : V).

Lemma find_app_first {A : Type} (f : A -> bool) (l1 l2 : list A) :
  find f (l1 ++ l2)
  = match find f l1 with Some x => Some x | None => find f l2 end.
Proof.
  induction l1 as [| a l1 IH]; cbn; [reflexivity |].
  destruct (f a); [reflexivity | exact IH].
Qed.

Lemma get_set_same m k v : JsMap.get (JsMap.set m k v) k = Some v.
Proof.
  induction m as [| [k' v'] m IH]; cbn.
  - rewrite String.eqb_refl. reflexivity.
  - destruct (String.eqb k' k) eqn:E; cbn; rewrite E; [reflexivity | exact IH].
Qed.

Lemma get_set_other m k k' v :
  k <> k' -> JsMap.get (JsMap.set m k v) k' = JsMap.get m k'.
Proof.
  intros Hne. induction m as [| [k0 v0] m IH]; cbn.
  - apply String.eqb_neq in Hne. rewrite Hne. reflexivity.
  - destruct (String.eqb k0 k) eqn:E; cbn.
    + apply String.eqb_eq in E. subst k0.
      apply String.eqb_neq in Hne. rewrite Hne. reflexivity.
    + rewrite IH. reflexivity.
Qed.

Lemma get_some_In m k v : JsMap.get m k = Some v -> In (k, v) m.
Proof.
  induction m as [| [k' v'] m IH]; cbn; [discriminate |].
  destruct (String.eqb k' k) eqn:E.
  - apply String.eqb_eq in E. intros [= ->]. subst. left. reflexivity.
  - intros H. right. auto.
Qed.

Lemma get_none_keys m k : JsMap.get m k = None <-> ~ In k (JsMap.keys m).
Proof.
  induction m as [| [k' v'] m IH]; cbn.
  - tauto.
  - destruct (String.eqb k' k) eqn:E.
    + apply String.eqb_eq in E. split; [discriminate | tauto].
    + apply String.eqb_neq in E. rewrite IH. tauto.
Qed.

Lemma In_get m k v :
  NoDup (JsMap.keys m) -> In (k, v) m -> JsMap.get m k = Some v.
Proof.
  induction m as [| [k' v'] m IH]; cbn; [tauto |].
  intros Hnd [H | H]; inversion Hnd as [| ? ? Hnotin Hnd']; subst.
  - injection H as -> ->. rewrite String.eqb_refl. reflexivity.
  - destruct (String.eqb k' k) eqn:E; [| auto].
    apply String.eqb_eq in E. subst k'. exfalso. apply Hnotin.
    apply (in_map fst) in H. exact H.
Qed.

Lemma keys_set_In m k v k' :
  In k' (JsMap.keys (JsMap.set m k v)) <-> In k' (JsMap.keys m) \/ k' = k.
Proof.
  induction m as [| [k0 v0] m IH]; cbn.
  - intuition congruence.
  - destruct (String.eqb k0 k) eqn:E; cbn.
    + apply String.eqb_eq in E. subst. intuition congruence.
    + rewrite IH. tauto.
Qed.

Lemma keys_set_NoDup m k v :
  NoDup (JsMap.keys m) -> NoDup (JsMap.keys (JsMap.set m k v)).
Proof.
  induction m as [| [k0 v0] m IH]; cbn; intros Hnd.
  - constructor; [tauto | constructor].
  - inversion Hnd as [| ? ? Hnotin Hnd']; subst.
    destruct (String.eqb k0 k) eqn:E; cbn.
    + constructor; assumption.
    + constructor; [| auto].
      pose proof (keys_set_In m k v k0) as Hk. unfold JsMap.keys in Hk.
      rewrite Hk. apply String.eqb_neq in E. intuition congruence.
Qed.

End MapFacts.

Section SetFacts.

Lemma has_In (s : JsSet.t) (k : string) : JsSet.has s k = true <-> In k s.
Proof.
  unfold JsSet.has. rewrite existsb_exists. split.
  - intros [x [Hin E]]. apply String.eqb_eq in E. subst. exact Hin.
  - intros H. exists k. split; [exact H | apply String.eqb_refl].
Qed.

Lemma add_In (s : JsSet.t) (k k' : string) :
  In k' (JsSet.add s k) <-> In k' s \/ k' = k.
Proof.
  unfold JsSet.add. destruct (JsSet.has s k) eqn:E.
  - apply has_In in E. intuition congruence.
  - rewrite in_app_iff. cbn. intuition congruence.
Qed.

Lemma fold_add_In (ks : list string) (s : JsSet.t) (k : string) :
  In k (fold_left JsSet.add ks s) <-> In k s \/ In k ks.
Proof.
  revert s. induction ks as [| k0 ks IH]; intros s; cbn.
  - tauto.
  - rewrite IH, add_In. intuition congruence.
Qed.

End SetFacts.

Section LookupFacts.

Lemma buildLookup_from_get (records : list FinancialRecord)
      (m : JsMap.t FinancialRecord) (k : string) :
  JsMap.get
    (fold_left (fun m record => JsMap.set m (generateMatchKey record) record)
               records m) k
  = match lastWithKey records k with
    | Some r => Some r
    | None => JsMap.get m k
    end.
Proof.
  revert m. induction records as [| r records IH]; intros m; [reflexivity |].
  cbn [fold_left]. rewrite IH. unfold lastWithKey. cbn [rev].
  rewrite find_app_first.
  destruct (find _ (rev records)); [reflexivity |].
  cbn [find]. destruct (String.eqb (generateMatchKey r) k) eqn:E.
  - apply String.eqb_eq in E. subst k. apply get_set_same.
  - apply String.eqb_neq in E. apply get_set_other. exact E.
Qed.

(** Last write wins: the lookup map holds, for a key, the last record of
    the collection that generates it. *)
Lemma buildLookup_get (records : list FinancialRecord) (k : string) :
  JsMap.get (buildLookup records) k = lastWithKey records k.
Proof.
  unfold buildLookup. rewrite buildLookup_from_get.
  destruct (lastWithKey records k); reflexivity.
Qed.

Lemma buildLookup_from_NoDup (records : list FinancialRecord)
      (m : JsMap.t FinancialRecord) :
  NoDup (JsMap.keys m) ->
  NoDup (JsMap.keys
           (fold_left (fun m record => JsMap.set m (generateMatchKey record) record)
                      records m)).
Proof.
  revert m. induction records as [| r records IH]; intros m H; [exact H |].
  cbn [fold_left]. apply IH, keys_set_NoDup, H.
Qed.

Lemma buildLookup_NoDup (records : list FinancialRecord) :
  NoDup (JsMap.keys (buildLookup records)).
Proof. apply buildLookup_from_NoDup. constructor. Qed.

Lemma lastWithKey_some (records : list FinancialRecord) (k : string)
      (r : FinancialRecord) :
  lastWithKey records k = Some r -> In r records /\ generateMatchKey r = k.
Proof.
  unfold lastWithKey. intros H. apply find_some in H as [Hin E].
  apply in_rev in Hin. apply String.eqb_eq in E. auto.
Qed.

Lemma lastWithKey_none (records : list FinancialRecord) (k : string) :
  lastWithKey records k = None <->
  forall r, In r records -> generateMatchKey r <> k.
Proof.
  unfold lastWithKey. split.
  - intros H r Hin. apply in_rev in Hin.
    apply String.eqb_neq. exact (find_none _ _ H r Hin).
  - intros H. destruct (find _ (rev records)) as [r |] eqn:E; [| reflexivity].
    apply find_some in E as [Hin E]. apply in_rev in Hin.
    apply String.eqb_eq in E. exfalso. exact (H r Hin E).
Qed.

(** The last record with a key, found from its position. *)
Lemma lastWithKey_last (before after : list FinancialRecord)
      (b : FinancialRecord) :
  (forall x, In x after -> generateMatchKey x <> generateMatchKey b) ->
  lastWithKey (before ++ b :: after) (generateMatchKey b) = Some b.
Proof.
  intros H. unfold lastWithKey. rewrite rev_app_distr. cbn [rev].
  rewrite <- app_assoc, find_app_first.
  destruct (find _ (rev after)) as [x |] eqn:E.
  - apply find_some in E as [Hin E]. apply in_rev in Hin.
    apply String.eqb_eq in E. exfalso. exact (H x Hin E).
  - cbn. rewrite String.eqb_refl. reflexivity.
Qed.

Lemma buildLookup_keys (records : list FinancialRecord) (k : string) :
  In k (JsMap.keys (buildLookup records)) <->
  exists r, In r records /\ generateMatchKey r = k.
Proof.
  split.
  - intros H. destruct (JsMap.get (buildLookup records) k) as [r |] eqn:E.
    + rewrite buildLookup_get in E. exists r. apply lastWithKey_some, E.
    + apply get_none_keys in E. contradiction.
  - intros [r [Hin Hk]].
    destruct (JsMap.get (buildLookup records) k) as [r' |] eqn:E.
    + apply get_some_In in E. apply (in_map fst) in E. exact E.
    + rewrite buildLookup_get in E. exfalso.
      exact (proj1 (lastWithKey_none records k) E r Hin Hk).
Qed.

End LookupFacts.

Section LoopFacts.

Variable salesMap : JsMap.t FinancialRecord.

Lemma fold_purchaseStep (entries : list (string * FinancialRecord))
      (results : list ReconciliationResult) (processed : JsSet.t) :
  fold_left (purchaseStep salesMap) entries (results, processed)
  = (results ++ purchaseResults salesMap (List.length results) entries,
     fold_left JsSet.add (JsMap.keys entries) processed).
Proof.
  revert results processed.
  induction entries as [| [k p] entries IH]; intros results processed.
  - cbn. rewrite app_nil_r. reflexivity.
  - cbn [fold_left purchaseStep purchaseResults JsMap.keys map fst].
    rewrite IH. rewrite length_app, Nat.add_1_r, <- app_assoc.
    reflexivity.
Qed.

Lemma fold_salesStep (processed : JsSet.t)
      (entries : list (string * FinancialRecord))
      (results : list ReconciliationResult) :
  fold_left (salesStep processed) entries results
  = results ++ salesResults processed (List.length results) entries.
Proof.
  revert results.
  induction entries as [| [k s] entries IH]; intros results.
  - cbn. rewrite app_nil_r. reflexivity.
  - cbn [fold_left salesStep salesResults]. rewrite IH.
    destruct (negb (JsSet.has processed k)); [| reflexivity].
    rewrite length_app, Nat.add_1_r, <- app_assoc. reflexivity.
Qed.

Lemma purchaseResults_length (n : nat) (entries : list (string * FinancialRecord)) :
  List.length (purchaseResults salesMap n entries) = List.length entries.
Proof.
  revert n. induction entries as [| [k p] entries IH]; intros n; cbn;
    [reflexivity | rewrite IH; reflexivity].
Qed.

Lemma classifyPurchase_matchKey (newId k : string) (p : FinancialRecord) :
  matchKey (classifyPurchase salesMap newId k p) = k.
Proof.
  unfold classifyPurchase. destruct (JsMap.get salesMap k); [| reflexivity].
  destruct (Nat.eqb _ 0); reflexivity.
Qed.

Lemma classifyPurchase_purchaseRecord (newId k : string) (p : FinancialRecord) :
  purchaseRecord (classifyPurchase salesMap newId k p) = Some p.
Proof.
  unfold classifyPurchase. destruct (JsMap.get salesMap k); [| reflexivity].
  destruct (Nat.eqb _ 0); reflexivity.
Qed.

Lemma classifyPurchase_salesRecord (newId k : string) (p : FinancialRecord) :
  salesRecord (classifyPurchase salesMap newId k p) = JsMap.get salesMap k.
Proof.
  unfold classifyPurchase. destruct (JsMap.get salesMap k); [| reflexivity].
  destruct (Nat.eqb _ 0); reflexivity.
Qed.

Lemma purchaseResults_keys (n : nat) (entries : list (string * FinancialRecord)) :
  map matchKey (purchaseResults salesMap n entries) = JsMap.keys entries.
Proof.
  revert n. induction entries as [| [k p] entries IH]; intros n; cbn;
    [reflexivity |].
  rewrite classifyPurchase_matchKey. f_equal. apply IH.
Qed.

Lemma purchaseResults_In_entry (n : nat)
      (entries : list (string * FinancialRecord))
      (k : string) (p : FinancialRecord) :
  In (k, p) entries ->
  exists newId,
    In (classifyPurchase salesMap newId k p) (purchaseResults salesMap n entries).
Proof.
  revert n. induction entries as [| [k' p'] entries IH]; intros n; cbn;
    [tauto |].
  intros [H | H].
  - injection H as -> ->. eexists. left. reflexivity.
  - destruct (IH (S n) H) as [i Hi]. exists i. right. exact Hi.
Qed.

Lemma purchaseResults_In_inv (n : nat)
      (entries : list (string * FinancialRecord)) (r : ReconciliationResult) :
  In r (purchaseResults salesMap n entries) ->
  exists newId k p, In (k, p) entries /\ r = classifyPurchase salesMap newId k p.
Proof.
  revert n. induction entries as [| [k p] entries IH]; intros n; cbn;
    [tauto |].
  intros [H | H].
  - eexists _, k, p. split; [left; reflexivity | symmetry; exact H].
  - destruct (IH (S n) H) as [i [k' [p' [Hin E]]]].
    exists i, k', p'. auto.
Qed.

End LoopFacts.

Section SalesLoopFacts.

Variable processed : JsSet.t.

Lemma salesResults_keys (n : nat) (entries : list (string * FinancialRecord)) :
  map matchKey (salesResults processed n entries)
  = filter (fun k => negb (JsSet.has processed k)) (JsMap.keys entries).
Proof.
  revert n. induction entries as [| [k s] entries IH]; intros n; cbn;
    [reflexivity |].
  destruct (negb (JsSet.has processed k)); cbn; rewrite IH; reflexivity.
Qed.

Lemma salesResults_In_entry (n : nat)
      (entries : list (string * FinancialRecord))
      (k : string) (s : FinancialRecord) :
  In (k, s) entries -> JsSet.has processed k = false ->
  exists newId,
    In (missingInPurchase newId k s) (salesResults processed n entries).
Proof.
  revert n. induction entries as [| [k' s'] entries IH]; intros n; cbn;
    [tauto |].
  intros [H | H] Hk.
  - injection H as -> ->. rewrite Hk. cbn. eexists. left. reflexivity.
  - destruct (negb (JsSet.has processed k')).
    + destruct (IH (S n) H Hk) as [i Hi]. exists i. right. exact Hi.
    + exact (IH n H Hk).
Qed.

Lemma salesResults_In_inv (n : nat)
      (entries : list (string * FinancialRecord)) (r : ReconciliationResult) :
  In r (salesResults processed n entries) ->
  exists newId k s,
    In (k, s) entries /\ JsSet.has processed k = false
    /\ r = missingInPurchase newId k s.
Proof.
  revert n. induction entries as [| [k s] entries IH]; intros n; cbn;
    [tauto |].
  destruct (JsSet.has processed k) eqn:Hk; cbn.
  - intros H. destruct (IH n H) as [i [k' [s' [Hin [Hk' E]]]]].
    exists i, k', s'. auto.
  - intros [H | H].
    + eexists _, k, s. split; [left; reflexivity |]. split; [exact Hk |].
      symmetry. exact H.
    + destruct (IH (S n) H) as [i [k' [s' [Hin [Hk' E]]]]].
      exists i, k', s'. auto.
Qed.

End SalesLoopFacts.

Section ReconcileFacts.

Variables purchaseRecords salesRecords : list FinancialRecord.

(** The result list: the purchase map classified entry by entry, then
    the entries of the sales map whose key no purchase record has. *)
Lemma reconcileDatasets_eq :
  reconcileDatasets purchaseRecords salesRecords
  = purchaseResults (buildLookup salesRecords) 0 (buildLookup purchaseRecords)
    ++ salesResults
         (fold_left JsSet.add (JsMap.keys (buildLookup purchaseRecords))
                    JsSet.empty)
         (List.length (buildLookup purchaseRecords))
         (buildLookup salesRecords).
Proof.
  unfold reconcileDatasets.
  rewrite fold_purchaseStep. cbn [app List.length].
  rewrite fold_salesStep, purchaseResults_length. reflexivity.
Qed.

Lemma processedKeys_has (k : string) :
  JsSet.has (fold_left JsSet.add (JsMap.keys (buildLookup purchaseRecords))
                       JsSet.empty) k = true
  <-> In k (JsMap.keys (buildLookup purchaseRecords)).
Proof.
  rewrite has_In, fold_add_In. cbn. tauto.
Qed.

Lemma processedKeys_has_false (k : string) :
  JsSet.has (fold_left JsSet.add (JsMap.keys (buildLookup purchaseRecords))
                       JsSet.empty) k = false
  <-> JsMap.get (buildLookup purchaseRecords) k = None.
Proof.
  rewrite get_none_keys, <- processedKeys_has.
  destruct (JsSet.has _ k); split; congruence.
Qed.

Lemma reconcileDatasets_keys :
  map matchKey (reconcileDatasets purchaseRecords salesRecords)
  = JsMap.keys (buildLookup purchaseRecords)
    ++ filter (fun k => negb (JsSet.has
                                (fold_left JsSet.add
                                           (JsMap.keys (buildLookup purchaseRecords))
                                           JsSet.empty) k))
              (JsMap.keys (buildLookup salesRecords)).
Proof.
  rewrite reconcileDatasets_eq, map_app, purchaseResults_keys, salesResults_keys.
  reflexivity.
Qed.

(** One result per key. *)
Lemma reconcileDatasets_keys_NoDup :
  NoDup (map matchKey (reconcileDatasets purchaseRecords salesRecords)).
Proof.
  rewrite reconcileDatasets_keys. apply NoDup_app.
  - apply buildLookup_NoDup.
  - apply NoDup_filter, buildLookup_NoDup.
  - intros k Hin Hf. apply filter_In in Hf as [_ Hf].
    apply processedKeys_has in Hin. rewrite Hin in Hf. discriminate.
Qed.

Lemma reconcileDatasets_keys_In (k : string) :
  In k (map matchKey (reconcileDatasets purchaseRecords salesRecords)) <->
  In k (JsMap.keys (buildLookup purchaseRecords))
  \/ In k (JsMap.keys (buildLookup salesRecords)).
Proof.
  rewrite reconcileDatasets_keys, in_app_iff, filter_In. split.
  - tauto.
  - intros [H | H]; [tauto |].
    destruct (JsSet.has _ k) eqn:E.
    + left. apply processedKeys_has. exact E.
    + right. split; [exact H | reflexivity].
Qed.

End ReconcileFacts.

Section ResultsFor.

Lemma resultsFor_absent (k : string) (results : list ReconciliationResult) :
  ~ In k (map matchKey results) -> resultsFor k results = [].
Proof.
  induction results as [| r results IH]; cbn; [reflexivity |].
  intros H. destruct (String.eqb (matchKey r) k) eqn:E.
  - apply String.eqb_eq in E. tauto.
  - apply IH. tauto.
Qed.

(** In a list with one result per key, the results for the key of a member
    are that member alone. *)
Lemma resultsFor_unique (results : list ReconciliationResult)
      (r : ReconciliationResult) :
  NoDup (map matchKey results) -> In r results ->
  resultsFor (matchKey r) results = [r].
Proof.
  induction results as [| a results IH]; cbn; [tauto |].
  intros Hnd Hin. inversion Hnd as [| ? ? Hnotin Hnd']; subst.
  destruct Hin as [-> | Hin].
  - rewrite String.eqb_refl. f_equal. apply resultsFor_absent, Hnotin.
  - destruct (String.eqb (matchKey a) (matchKey r)) eqn:E.
    + apply String.eqb_eq in E. exfalso. apply Hnotin. rewrite E.
      apply in_map, Hin.
    + apply IH; assumption.
Qed.

Lemma resultsFor_the_one (results : list ReconciliationResult)
      (r : ReconciliationResult) (k : string) :
  NoDup (map matchKey results) -> In r results -> matchKey r = k ->
  resultsFor k results = [r].
Proof. intros Hnd Hin <-. apply resultsFor_unique; assumption. Qed.

End ResultsFor.

(* ================================================================== *)
(** * A purchase record and a sales record with one key *)

Section Pair.

Local Open Scope float_scope.

Lemma reconcileDatasets_pair (p s : FinancialRecord) :
  generateMatchKey p = generateMatchKey s ->
  reconcileDatasets [p] [s]
  = [classifyPurchase [(generateMatchKey s, s)] "result-0" (generateMatchKey p) p].
Proof.
  intros Hk. unfold reconcileDatasets, buildLookup.
  cbn [fold_left JsMap.set JsMap.empty purchaseStep app List.length].
  unfold salesStep, JsSet.add, JsSet.empty, JsSet.has.
  cbn [existsb app orb]. rewrite Hk, String.eqb_refl. reflexivity.
Qed.

Lemma classifyPurchase_found (newId k : string) (p s : FinancialRecord) :
  classifyPurchase [(k, s)] newId k p
  = let mismatches := findMismatches p s in
    if Nat.eqb (List.length mismatches) 0 then
      {| resultId := newId; status := matched; purchaseRecord := Some p;
         salesRecord := Some s; matchKey := k; mismatchReasons := [];
         totalDifference := 0 |}
    else
      {| resultId := newId; status := mismatched; purchaseRecord := Some p;
         salesRecord := Some s; matchKey := k; mismatchReasons := mismatches;
         totalDifference :=
           JsNumber.orZero
             (match find (fun m => String.eqb (field m) "Total Amount")
                         mismatches with
              | Some m => difference m
              | None => None
              end) |}.
Proof.
  unfold classifyPurchase. cbn [JsMap.get]. rewrite String.eqb_refl. reflexivity.
Qed.

(** Records that differ in the total alone, the other amounts finite, are
    compared on the total alone. *)
Lemma findMismatches_total_only (r : FinancialRecord) (t1 t2 : float) :
  finiteParts r ->
  findMismatches (withTotalAmount r t1) (withTotalAmount r t2)
  = amountReason "Total Amount" t1 t2.
Proof.
  intros [H1 [H2 [H3 H4]]]. unfold findMismatches.
  rewrite gstinReason_same, partyNameReason_same by reflexivity.
  cbn [withTotalAmount taxableAmount igst cgst sgst totalAmount].
  rewrite !(amountReason_within _ _ _ (compareAmounts_same_finite _ H1)).
  rewrite !(amountReason_within _ _ _ (compareAmounts_same_finite _ H2)).
  rewrite !(amountReason_within _ _ _ (compareAmounts_same_finite _ H3)).
  rewrite !(amountReason_within _ _ _ (compareAmounts_same_finite _ H4)).
  reflexivity.
Qed.

End Pair.

(** C3, as amended. For each of the five numeric fields the detector pushes
    one reason exactly when the difference of the two amounts is not within
    the tolerance, that is when [abs (p - s) > 1] or [p - s] is not a number,
    and the reason carries the two amounts and the signed difference
    [p - s]; the difference is the binary64 one the code computes. In
    particular two records that differ in the total alone, the other amounts
    finite, whatever the two totals, are matched exactly when the computed
    difference of the totals is within [-1, 1], and are otherwise mismatched
    with the one reason "Total Amount", which carries the computed
    difference; the result carries that difference too, or 0 when it is not
    a number. *)
Theorem findMismatches_amount_tolerance :
  (forall (f : AmountField) (p s : FinancialRecord),
      reasonsFor (amountName f) (findMismatches p s)
      = if exceedsTolerance (amountOf f p) (amountOf f s)
           || is_nan (amountOf f p - amountOf f s)%float
        then [ {| field := amountName f;
                  purchaseValue := VNumber (amountOf f p);
                  salesValue := VNumber (amountOf f s);
                  difference := Some (amountOf f p - amountOf f s)%float |} ]
        else [])
  /\ (forall (r : FinancialRecord) (t1 t2 : float),
         finiteParts r ->
         reconcileDatasets [withTotalAmount r t1] [withTotalAmount r t2]
         = [ if (abs (t1 - t2) <=? 1)%float then
               {| resultId := "result-0"; status := matched;
                  purchaseRecord := Some (withTotalAmount r t1);
                  salesRecord := Some (withTotalAmount r t2);
                  matchKey := generateMatchKey r;
                  mismatchReasons := [];
                  totalDifference := 0%float |}
             else
               {| resultId := "result-0"; status := mismatched;
                  purchaseRecord := Some (withTotalAmount r t1);
                  salesRecord := Some (withTotalAmount r t2);
                  matchKey := generateMatchKey r;
                  mismatchReasons :=
                    [ {| field := "Total Amount";
                         purchaseValue := VNumber t1;
                         salesValue := VNumber t2;
                         difference := Some (t1 - t2)%float |} ];
                  totalDifference :=
                    if is_nan (t1 - t2)%float then 0%float
                    else (t1 - t2)%float |} ]).
Proof.
  split.
  - intros f p s. rewrite reasonsFor_findMismatches_amount.
    apply amountReason_spec.
  - intros r t1 t2 Hfin.
    assert (Hpair :
              reconcileDatasets [withTotalAmount r t1] [withTotalAmount r t2]
              = [classifyPurchase [(generateMatchKey r, withTotalAmount r t2)]
                   "result-0" (generateMatchKey r) (withTotalAmount r t1)]).
    { apply (reconcileDatasets_pair (withTotalAmount r t1) (withTotalAmount r t2)).
      reflexivity. }
    rewrite Hpair, classifyPurchase_found, (findMismatches_total_only r t1 t2 Hfin).
    cbn zeta. unfold amountReason, compareAmounts, compareAmountsWith.
    cbn [isEqual signedDifference].
    change AMOUNT_TOLERANCE with 1%float.
    destruct (abs (t1 - t2) <=? 1)%float eqn:Hwithin; [reflexivity |].
    cbn [negb List.length Nat.eqb find field]. rewrite String.eqb_refl.
    cbn [difference]. do 2 f_equal. unfold JsNumber.orZero.
    destruct (is_nan (t1 - t2)%float) eqn:Hnan.
    + unfold JsNumber.truthy. rewrite Hnan, orb_true_r. reflexivity.
    + rewrite (truthy_outside_tolerance _ Hwithin Hnan). reflexivity.
Qed.

Lemma findMismatches_amount_tolerance_witness :
  reconcileDatasets
    [withTotalAmount (sampleRecord "row-0" "g" "n" "INV-1" "2024-01-05" 0) 119]
    [withTotalAmount (sampleRecord "row-0" "g" "n" "INV-1" "2024-01-05" 0) 118]
  = [ {| resultId := "result-0"; status := matched;
         purchaseRecord :=
           Some (withTotalAmount
                   (sampleRecord "row-0" "g" "n" "INV-1" "2024-01-05" 0) 119);
         salesRecord :=
           Some (withTotalAmount
                   (sampleRecord "row-0" "g" "n" "INV-1" "2024-01-05" 0) 118);
         matchKey := "INV-1|2024-01-05";
         mismatchReasons := [];
         totalDifference := 0 |} ]%float
  /\ reconcileDatasets
       [withTotalAmount (sampleRecord "row-0" "g" "n" "INV-1" "2024-01-05" 0)
          (hundredths 101%N)]
       [withTotalAmount (sampleRecord "row-0" "g" "n" "INV-1" "2024-01-05" 0)
          (hundredths 0%N)]
     = [ {| resultId := "result-0"; status := mismatched;
            purchaseRecord :=
              Some (withTotalAmount
                      (sampleRecord "row-0" "g" "n" "INV-1" "2024-01-05" 0)
                      (hundredths 101%N));
            salesRecord :=
              Some (withTotalAmount
                      (sampleRecord "row-0" "g" "n" "INV-1" "2024-01-05" 0)
                      (hundredths 0%N));
            matchKey := "INV-1|2024-01-05";
            mismatchReasons :=
              [ {| field := "Total Amount";
                   purchaseValue := VNumber (hundredths 101%N);
                   salesValue := VNumber (hundredths 0%N);
                   difference := Some onePointZeroOne |} ];
            totalDifference := onePointZeroOne |} ]%float.
Proof.
  split.
  - rewrite (proj2 findMismatches_amount_tolerance
               (sampleRecord "row-0" "g" "n" "INV-1" "2024-01-05" 0)
               119 118 (conj eq_refl (conj eq_refl (conj eq_refl eq_refl))))%float.
    reflexivity.
  - rewrite (proj2 findMismatches_amount_tolerance
               (sampleRecord "row-0" "g" "n" "INV-1" "2024-01-05" 0)
               (hundredths 101%N) (hundredths 0%N)
               (conj eq_refl (conj eq_refl (conj eq_refl eq_refl)))).
    reflexivity.
Defined.

(** C3 as stated fails in three ways. On amounts that are not finite: two
    totals of [Infinity] get a "Total Amount" reason although
    [abs (p - s) > 1] is false, and two records that differ by exactly 1 in
    the total alone are mismatched when their IGST is [Infinity]. On
    decimal amounts exactly 1.00 apart: the totals 2.14 and 1.14 have the
    computed difference 1.0000000000000002, above the tolerance, and the
    records are mismatched. On decimal amounts 1.01 apart: for the totals
    101.01 and 100.00 the reason carries 1.0100000000000051, which is above
    the number 1.01. *)
Lemma findMismatches_amount_tolerance_counterexample :
  (exceedsTolerance infinity infinity = false
   /\ reasonsFor "Total Amount"
        (findMismatches
           (sampleRecord "row-0" "g" "n" "INV-1" "2024-01-05" infinity)
           (sampleRecord "row-0" "g" "n" "INV-1" "2024-01-05" infinity))
      = [ {| field := "Total Amount";
             purchaseValue := VNumber infinity;
             salesValue := VNumber infinity;
             difference := Some nan |} ])
  /\ map status
       (reconcileDatasets
          [ {| id := "row-0"; gstin := "g"; partyName := "n";
               invoiceNo := "INV-1"; invoiceDate := "2024-01-05";
               taxableAmount := 100; igst := infinity; cgst := 0; sgst := 0;
               totalAmount := 119; rawData := [] |} ]
          [ {| id := "row-0"; gstin := "g"; partyName := "n";
               invoiceNo := "INV-1"; invoiceDate := "2024-01-05";
               taxableAmount := 100; igst := infinity; cgst := 0; sgst := 0;
               totalAmount := 118; rawData := [] |} ])%float
     = [mismatched]
  /\ ((hundredths 214%N - hundredths 114%N)%float = 0x1.0000000000001p+0%float
      /\ map (fun result => (status result, mismatchReasons result))
           (reconcileDatasets
              [sampleRecord "row-0" "g" "n" "INV-1" "2024-01-05"
                 (hundredths 214%N)]
              [sampleRecord "row-0" "g" "n" "INV-1" "2024-01-05"
                 (hundredths 114%N)])
         = [ (mismatched,
              [ {| field := "Total Amount";
                   purchaseValue := VNumber (hundredths 214%N);
                   salesValue := VNumber (hundredths 114%N);
                   difference := Some 0x1.0000000000001p+0%float |} ]) ])
  /\ (hundredths 101%N = onePointZeroOne
      /\ map (fun result => (status result, mismatchReasons result))
           (reconcileDatasets
              [sampleRecord "row-0" "g" "n" "INV-1" "2024-01-05"
                 (hundredths 10101%N)]
              [sampleRecord "row-0" "g" "n" "INV-1" "2024-01-05"
                 (hundredths 10000%N)])
         = [ (mismatched,
              [ {| field := "Total Amount";
                   purchaseValue := VNumber (hundredths 10101%N);
                   salesValue := VNumber (hundredths 10000%N);
                   difference := Some 0x1.028f5c28f5c4p+0%float |} ]) ]
      /\ (onePointZeroOne <? 0x1.028f5c28f5c4p+0)%float = true).
Proof.
  repeat split; vm_compute; reflexivity.
Qed.

(* ================================================================== *)
(** * Party names *)

Section PartyName.

Lemma startsWith_spec (b a : string) :
  startsWith b a = true <-> exists after : string, b = (a ++ after)%string.
Proof.
  revert b. induction a as [| c a IH]; intros b; cbn.
  - split; [intros _; exists b; reflexivity | intros _; reflexivity].
  - destruct b as [| d b].
    + split; [discriminate | intros [after H]; discriminate H].
    + rewrite andb_true_iff, IH, Ascii.eqb_eq.
      split.
      * intros [-> [after H]]. exists after. rewrite H. reflexivity.
      * intros [after H]. injection H as -> H. split; [reflexivity |].
        exists after. exact H.
Qed.

Lemma includes_unfold (hay needle : string) :
  includes hay needle
  = startsWith hay needle
    || match hay with
       | EmptyString => false
       | String _ t => includes t needle
       end.
Proof. destruct hay; reflexivity. Qed.

(** [includes] decides the substring relation. *)
Lemma includes_spec (hay needle : string) :
  includes hay needle = true <-> isSubstring needle hay.
Proof.
  unfold isSubstring. split.
  - induction hay as [| c t IH]; rewrite includes_unfold; intros H;
      apply orb_true_iff in H as [H | H].
    + apply startsWith_spec in H as [after H]. exists EmptyString, after. exact H.
    + discriminate H.
    + apply startsWith_spec in H as [after H]. exists EmptyString, after. exact H.
    + destruct (IH H) as [before [after E]].
      exists (String c before), after. rewrite E. reflexivity.
  - intros [before [after E]]. revert hay E.
    induction before as [| c before IH]; intros hay E;
      rewrite includes_unfold; apply orb_true_iff.
    + left. apply startsWith_spec. exists after. exact E.
    + right. rewrite E. cbn. apply IH. reflexivity.
Qed.

Lemma truthy_nonempty (s : string) : JsString.truthy s = true <-> s <> "".
Proof. destruct s; cbn; split; congruence. Qed.

(** The reasons of [findMismatches] for the party name are those its own
    check pushed. *)
Lemma reasonsFor_findMismatches_partyName (p s : FinancialRecord) :
  reasonsFor "Party Name" (findMismatches p s) = partyNameReason p s.
Proof.
  unfold findMismatches. rewrite !reasonsFor_app.
  assert (G : reasonsFor "Party Name" (gstinReason p s) = []).
  { unfold gstinReason. destruct (_ && _ && _); reflexivity. }
  assert (A : forall name a b,
             String.eqb name "Party Name" = false ->
             reasonsFor "Party Name" (amountReason name a b) = []).
  { intros name a b H. unfold amountReason. destruct (negb _); [| reflexivity].
    cbn. rewrite H. reflexivity. }
  rewrite G, !A by reflexivity. rewrite !app_nil_r. cbn [app].
  unfold partyNameReason.
  destruct (_ && _ && _); [| reflexivity].
  destruct (_ && _); reflexivity.
Qed.

(** When [partyNameReason] pushes. *)
Lemma partyNameReason_spec (p s : FinancialRecord) :
  partyNameReason p s
  = if JsString.truthy (trim (toLowerCase (partyName p)))
       && JsString.truthy (trim (toLowerCase (partyName s)))
       && negb (String.eqb (trim (toLowerCase (partyName p)))
                           (trim (toLowerCase (partyName s))))
       && negb (includes (trim (toLowerCase (partyName p)))
                         (trim (toLowerCase (partyName s))))
       && negb (includes (trim (toLowerCase (partyName s)))
                         (trim (toLowerCase (partyName p))))
    then [ {| field := "Party Name";
              purchaseValue := VString (partyName p);
              salesValue := VString (partyName s);
              difference := None |} ]
    else [].
Proof.
  unfold partyNameReason.
  destruct (_ && _ && negb (String.eqb _ _)); [| reflexivity].
  cbn [andb]. reflexivity.
Qed.

End PartyName.

(** C7. The detector pushes a "Party Name" reason exactly when the two
    names, lower-cased and trimmed, are both non-empty, differ, and neither
    occurs in the other as a substring; the reason carries the two names as
    given. In particular a purchase from "HCL Technologies" and a sale to
    "HCL Technologies Ltd", with one GSTIN, one invoice number and date and
    every amount within the tolerance, give the single result [matched],
    with no reason at all. *)
Theorem findMismatches_party_name :
  (forall p s : FinancialRecord,
      let purchaseName := trim (toLowerCase (partyName p)) in
      let salesName := trim (toLowerCase (partyName s)) in
      ((exists m, In m (findMismatches p s) /\ field m = "Party Name")
       <-> (purchaseName <> "" /\ salesName <> "" /\ purchaseName <> salesName
            /\ ~ isSubstring salesName purchaseName
            /\ ~ isSubstring purchaseName salesName))
      /\ (forall m, In m (findMismatches p s) -> field m = "Party Name" ->
                    m = {| field := "Party Name";
                           purchaseValue := VString (partyName p);
                           salesValue := VString (partyName s);
                           difference := None |}))
  /\ (forall p s : FinancialRecord,
         partyName p = "HCL Technologies" ->
         partyName s = "HCL Technologies Ltd" ->
         gstin p = gstin s ->
         invoiceNo p = invoiceNo s -> invoiceDate p = invoiceDate s ->
         withinTolerance p s ->
         findMismatches p s = []
         /\ reconcileDatasets [p] [s]
            = [ {| resultId := "result-0"; status := matched;
                   purchaseRecord := Some p; salesRecord := Some s;
                   matchKey := generateMatchKey p;
                   mismatchReasons := [];
                   totalDifference := 0%float |} ]).
Proof.
  split.
  - intros p s. cbn zeta.
    assert (E : forall m, (In m (findMismatches p s) /\ field m = "Party Name")
                          <-> In m (partyNameReason p s)).
    { intros m. rewrite <- reasonsFor_findMismatches_partyName.
      symmetry. apply reasonsFor_In. }
    rewrite partyNameReason_spec in E. split.
    + rewrite <- !includes_spec, <- !truthy_nonempty.
      rewrite <- (String.eqb_neq (trim (toLowerCase (partyName p)))).
      rewrite !not_true_iff_false.
      destruct (JsString.truthy (trim (toLowerCase (partyName p))));
        destruct (JsString.truthy (trim (toLowerCase (partyName s))));
        destruct (String.eqb _ _);
        destruct (includes (trim (toLowerCase (partyName p))) _);
        destruct (includes (trim (toLowerCase (partyName s))) _);
        cbn [andb negb] in E; split;
        try (intros [m Hm]; apply E in Hm; destruct Hm);
        try (intros [? [? [? [? ?]]]]; discriminate);
        try (intros _; eexists; apply E; left; reflexivity);
        try (repeat split; reflexivity).
    + intros m Hin Hf. pose proof (proj1 (E m) (conj Hin Hf)) as Hm.
      destruct (_ && _); [| destruct Hm].
      destruct Hm as [Hm | []]. symmetry. exact Hm.
  - intros p s Hp Hs Hg Hno Hdate Htol.
    assert (Hnone : findMismatches p s = []).
    { unfold findMismatches. rewrite (gstinReason_same p s Hg).
      rewrite (amountReason_within _ _ _ (Htol TaxableAmountField)).
      rewrite (amountReason_within _ _ _ (Htol IgstField)).
      rewrite (amountReason_within _ _ _ (Htol CgstField)).
      rewrite (amountReason_within _ _ _ (Htol SgstField)).
      rewrite (amountReason_within _ _ _ (Htol TotalAmountField)).
      unfold partyNameReason. rewrite Hp, Hs. reflexivity. }
    split; [exact Hnone |].
    pose proof (generateMatchKey_key_of_fields p s Hno Hdate) as Hk.
    rewrite (reconcileDatasets_pair p s Hk), <- Hk.
    rewrite classifyPurchase_found, Hnone. reflexivity.
Qed.

Lemma findMismatches_party_name_witness :
  reconcileDatasets
    [sampleRecord "row-0" "27AAACH1234F1Z5" "HCL Technologies" "INV-2024-009"
                  "2024-01-05" 118%float]
    [sampleRecord "row-3" "27AAACH1234F1Z5" "HCL Technologies Ltd" "INV-2024-009"
                  "2024-01-05" 118.5%float]
  = [ {| resultId := "result-0"; status := matched;
         purchaseRecord :=
           Some (sampleRecord "row-0" "27AAACH1234F1Z5" "HCL Technologies"
                              "INV-2024-009" "2024-01-05" 118%float);
         salesRecord :=
           Some (sampleRecord "row-3" "27AAACH1234F1Z5" "HCL Technologies Ltd"
                              "INV-2024-009" "2024-01-05" 118.5%float);
         matchKey := "INV-2024-009|2024-01-05";
         mismatchReasons := [];
         totalDifference := 0%float |} ].
Proof.
  apply (proj2 findMismatches_party_name
           (sampleRecord "row-0" "27AAACH1234F1Z5" "HCL Technologies"
                         "INV-2024-009" "2024-01-05" 118%float)
           (sampleRecord "row-3" "27AAACH1234F1Z5" "HCL Technologies Ltd"
                         "INV-2024-009" "2024-01-05" 118.5%float));
    try reflexivity.
  intros f. destruct f; reflexivity.
Defined.

(* ================================================================== *)
(** * The results of the matcher, key by key *)

Section ResultsByKey.

Local Open Scope float_scope.

Lemma find_hd_filter {A : Type} (f : A -> bool) (l : list A) :
  find f l = hd_error (filter f l).
Proof.
  induction l as [| a l IH]; cbn; [reflexivity |].
  destruct (f a); [reflexivity | exact IH].
Qed.

(** What the matcher reads off the reasons of a mismatch: the difference of
    the totals when it is above the tolerance, 0 when there is no
    "Total Amount" reason or when its difference is not a number. *)
Lemma totalDifference_of_reasons (p s : FinancialRecord) :
  JsNumber.orZero
    (match find (fun m => String.eqb (field m) "Total Amount")
                (findMismatches p s) with
     | Some m => difference m
     | None => None
     end)
  = if is_nan (totalAmount p - totalAmount s) then 0
    else if exceedsTolerance (totalAmount p) (totalAmount s)
         then totalAmount p - totalAmount s else 0.
Proof.
  rewrite find_hd_filter.
  change (filter (fun m => String.eqb (field m) "Total Amount")
                 (findMismatches p s))
    with (reasonsFor (amountName TotalAmountField) (findMismatches p s)).
  rewrite reasonsFor_findMismatches_amount, amountReason_spec.
  cbn [amountOf].
  destruct (is_nan (totalAmount p - totalAmount s)) eqn:Hnan.
  - rewrite orb_true_r. cbn [hd_error difference JsNumber.orZero].
    unfold JsNumber.truthy. rewrite Hnan, orb_true_r. reflexivity.
  - rewrite orb_false_r.
    destruct (exceedsTolerance (totalAmount p) (totalAmount s)) eqn:Hex;
      [| reflexivity].
    cbn [hd_error difference JsNumber.orZero].
    rewrite truthy_outside_tolerance; [reflexivity | | exact Hnan].
    pose proof (isEqual_compareAmounts (totalAmount p) (totalAmount s)) as H.
    rewrite Hex in H. exact H.
Qed.

Lemma length_zero_nil {A : Type} (l : list A) :
  Nat.eqb (List.length l) 0 = true <-> l = [].
Proof. destruct l; cbn; split; congruence. Qed.

End ResultsByKey.

(** C1, as amended. A key held by both lookup maps gets exactly one result,
    with both records attached. When the detector finds nothing the result
    is [matched], with no reason and a total difference of 0. Otherwise it
    is [mismatched] and carries the detector's list; its total difference is
    the signed difference of the "Total Amount" reason when the list has one
    and that difference is a number, and 0 when that difference is not a
    number or the list has no such reason. *)
Theorem reconcileDatasets_common_key
        (purchaseRecords salesRecords : list FinancialRecord)
        (k : string) (p s : FinancialRecord) :
  JsMap.get (buildLookup purchaseRecords) k = Some p ->
  JsMap.get (buildLookup salesRecords) k = Some s ->
  exists r : ReconciliationResult,
    resultsFor k (reconcileDatasets purchaseRecords salesRecords) = [r]
    /\ matchKey r = k
    /\ purchaseRecord r = Some p /\ salesRecord r = Some s
    /\ (findMismatches p s = [] ->
        status r = matched /\ mismatchReasons r = []
        /\ totalDifference r = 0%float)
    /\ (findMismatches p s <> [] ->
        status r = mismatched
        /\ mismatchReasons r = findMismatches p s
        /\ (forall m : MismatchReason,
               In m (findMismatches p s) -> field m = "Total Amount" ->
               exists d : float,
                 difference m = Some d
                 /\ totalDifference r = if is_nan d then 0%float else d)
        /\ ((forall m : MismatchReason,
                In m (findMismatches p s) -> field m <> "Total Amount") ->
            totalDifference r = 0%float)).
Proof.
  intros Hp Hs.
  destruct (purchaseResults_In_entry (buildLookup salesRecords) 0
              (buildLookup purchaseRecords) k p (get_some_In _ _ _ Hp))
    as [newId Hin].
  exists (classifyPurchase (buildLookup salesRecords) newId k p).
  split.
  { rewrite <- (classifyPurchase_matchKey (buildLookup salesRecords) newId k p)
      at 1.
    apply resultsFor_unique; [apply reconcileDatasets_keys_NoDup |].
    rewrite reconcileDatasets_eq. apply in_or_app. left. exact Hin. }
  split; [apply classifyPurchase_matchKey |].
  split; [apply classifyPurchase_purchaseRecord |].
  split; [rewrite classifyPurchase_salesRecord; exact Hs |].
  unfold classifyPurchase. rewrite Hs. split.
  - intros Hnil. rewrite Hnil. cbn. auto.
  - intros Hne.
    destruct (Nat.eqb (List.length (findMismatches p s)) 0) eqn:E.
    { apply length_zero_nil in E. contradiction. }
    cbn [status mismatchReasons totalDifference].
    split; [reflexivity |]. split; [reflexivity |].
    rewrite totalDifference_of_reasons.
    pose proof (reasonsFor_findMismatches_amount TotalAmountField p s) as Hr.
    rewrite amountReason_spec in Hr. cbn [amountName amountOf] in Hr.
    split.
    + intros m Hm Hf.
      assert (Hm' : In m (reasonsFor "Total Amount" (findMismatches p s)))
        by (apply reasonsFor_In; auto).
      rewrite Hr in Hm'.
      destruct (exceedsTolerance (totalAmount p) (totalAmount s)) eqn:Hex;
        destruct (is_nan (totalAmount p - totalAmount s)%float) eqn:Hnan;
        cbn [orb] in Hm'; try (destruct Hm' as [<- | []]);
        try (destruct Hm').
      * eexists. split; [reflexivity |]. rewrite Hnan. reflexivity.
      * eexists. split; [reflexivity |]. rewrite Hnan. reflexivity.
      * eexists. split; [reflexivity |]. rewrite Hnan. reflexivity.
    + intros Hnone.
      destruct (is_nan (totalAmount p - totalAmount s)%float) eqn:Hnan;
        [reflexivity |].
      destruct (exceedsTolerance (totalAmount p) (totalAmount s)) eqn:Hex;
        [| reflexivity].
      cbn [orb] in Hr. exfalso.
      apply (Hnone {| field := "Total Amount";
                      purchaseValue := VNumber (totalAmount p);
                      salesValue := VNumber (totalAmount s);
                      difference := Some (totalAmount p - totalAmount s)%float |});
        [| reflexivity].
      apply (proj1 (reasonsFor_In "Total Amount" (findMismatches p s) _)).
      rewrite Hr. left. reflexivity.
Qed.

Lemma reconcileDatasets_common_key_witness :
  exists r : ReconciliationResult,
    resultsFor "INV-1|2024-01-05"
      (reconcileDatasets
         [sampleRecord "row-0" "g" "n" "INV-1" "05-01-2024" 121%float;
          sampleRecord "row-1" "g" "n" "INV-2" "05-01-2024" 50%float]
         [sampleRecord "row-0" "g" "n" "inv-1" "2024-01-05" 118%float]) = [r]
    /\ status r = mismatched /\ totalDifference r = 3%float.
Proof.
  destruct (reconcileDatasets_common_key
              [sampleRecord "row-0" "g" "n" "INV-1" "05-01-2024" 121%float;
               sampleRecord "row-1" "g" "n" "INV-2" "05-01-2024" 50%float]
              [sampleRecord "row-0" "g" "n" "inv-1" "2024-01-05" 118%float]
              "INV-1|2024-01-05"
              (sampleRecord "row-0" "g" "n" "INV-1" "05-01-2024" 121%float)
              (sampleRecord "row-0" "g" "n" "inv-1" "2024-01-05" 118%float)
              eq_refl eq_refl)
    as [r [Hr [_ [_ [_ [_ Hmis]]]]]].
  exists r. split; [exact Hr |].
  destruct (Hmis ltac:(vm_compute; discriminate)) as [Hst [_ [Htot _]]].
  split; [exact Hst |].
  destruct (Htot {| field := "Total Amount";
                    purchaseValue := VNumber 121%float;
                    salesValue := VNumber 118%float;
                    difference := Some 3%float |}
                 ltac:(left; reflexivity) eq_refl)
    as [d [Hd Ht]].
  injection Hd as <-. exact Ht.
Defined.

(** C1 as stated fails when the difference of the totals is not a number:
    two totals of [Infinity] give a "Total Amount" reason of difference
    [NaN], and a total difference of 0. *)
Lemma reconcileDatasets_common_key_counterexample :
  exists (r : ReconciliationResult) (m : MismatchReason) (d : float),
    reconcileDatasets
      [sampleRecord "row-0" "g" "n" "INV-1" "2024-01-05" infinity]
      [sampleRecord "row-0" "g" "n" "INV-1" "2024-01-05" infinity] = [r]
    /\ status r = mismatched
    /\ In m (mismatchReasons r) /\ field m = "Total Amount"
    /\ difference m = Some d
    /\ totalDifference r <> d.
Proof.
  eexists _, {| field := "Total Amount"; purchaseValue := VNumber infinity;
                salesValue := VNumber infinity; difference := Some nan |}, nan.
  split; [vm_compute; reflexivity |].
  cbn [status mismatchReasons totalDifference].
  split; [reflexivity |]. split; [left; reflexivity |].
  split; [reflexivity |]. split; [reflexivity |].
  intros E. apply (f_equal is_nan) in E. vm_compute in E. discriminate E.
Qed.

(** C2. A key held by the purchase map alone gets the result
    [missing_in_sales] with the purchase record, no sales record, no reason
    and the purchase total as total difference; a key held by the sales map
    alone gets the result [missing_in_purchase] with the sales record, no
    purchase record, no reason and the negated sales total. In both cases it
    is the only result for the key. *)
Theorem reconcileDatasets_one_sided_key
        (purchaseRecords salesRecords : list FinancialRecord) (k : string) :
  (forall p : FinancialRecord,
      JsMap.get (buildLookup purchaseRecords) k = Some p ->
      JsMap.get (buildLookup salesRecords) k = None ->
      exists newId : string,
        resultsFor k (reconcileDatasets purchaseRecords salesRecords)
        = [ {| resultId := newId; status := missing_in_sales;
               purchaseRecord := Some p; salesRecord := None;
               matchKey := k; mismatchReasons := [];
               totalDifference := totalAmount p |} ])
  /\ (forall s : FinancialRecord,
         JsMap.get (buildLookup purchaseRecords) k = None ->
         JsMap.get (buildLookup salesRecords) k = Some s ->
         exists newId : string,
           resultsFor k (reconcileDatasets purchaseRecords salesRecords)
           = [ {| resultId := newId; status := missing_in_purchase;
                  purchaseRecord := None; salesRecord := Some s;
                  matchKey := k; mismatchReasons := [];
                  totalDifference := (- totalAmount s)%float |} ]).
Proof.
  split.
  - intros p Hp Hs.
    destruct (purchaseResults_In_entry (buildLookup salesRecords) 0
                (buildLookup purchaseRecords) k p (get_some_In _ _ _ Hp))
      as [newId Hin].
    exists newId.
    assert (E : classifyPurchase (buildLookup salesRecords) newId k p
                = {| resultId := newId; status := missing_in_sales;
                     purchaseRecord := Some p; salesRecord := None;
                     matchKey := k; mismatchReasons := [];
                     totalDifference := totalAmount p |}).
    { unfold classifyPurchase. rewrite Hs. reflexivity. }
    rewrite E in Hin.
    apply resultsFor_the_one;
      [apply reconcileDatasets_keys_NoDup | | reflexivity].
    rewrite reconcileDatasets_eq. apply in_or_app. left. exact Hin.
  - intros s Hp Hs.
    apply processedKeys_has_false in Hp.
    destruct (salesResults_In_entry _ (List.length (buildLookup purchaseRecords))
                (buildLookup salesRecords) k s (get_some_In _ _ _ Hs) Hp)
      as [newId Hin].
    exists newId.
    apply resultsFor_the_one;
      [apply reconcileDatasets_keys_NoDup | | reflexivity].
    rewrite reconcileDatasets_eq. apply in_or_app. right. exact Hin.
Qed.

Lemma reconcileDatasets_one_sided_key_witness :
  (exists newId : string,
      resultsFor "INV-2024-016|2024-02-01"
        (reconcileDatasets
           [sampleRecord "row-0" "g" "n" "INV-2024-016" "01/02/2024" 5900%float]
           [sampleRecord "row-0" "g" "n" "INV-2024-012" "2024-02-01" 1180%float])
      = [ {| resultId := newId; status := missing_in_sales;
             purchaseRecord :=
               Some (sampleRecord "row-0" "g" "n" "INV-2024-016" "01/02/2024"
                                  5900%float);
             salesRecord := None;
             matchKey := "INV-2024-016|2024-02-01"; mismatchReasons := [];
             totalDifference := 5900%float |} ])
  /\ (exists newId : string,
         resultsFor "INV-2024-012|2024-02-01"
           (reconcileDatasets
              [sampleRecord "row-0" "g" "n" "INV-2024-016" "01/02/2024" 5900%float]
              [sampleRecord "row-0" "g" "n" "INV-2024-012" "2024-02-01" 1180%float])
         = [ {| resultId := newId; status := missing_in_purchase;
                purchaseRecord := None;
                salesRecord :=
                  Some (sampleRecord "row-0" "g" "n" "INV-2024-012" "2024-02-01"
                                     1180%float);
                matchKey := "INV-2024-012|2024-02-01"; mismatchReasons := [];
                totalDifference := (-1180)%float |} ]).
Proof.
  split.
  - apply (proj1 (reconcileDatasets_one_sided_key
                    [sampleRecord "row-0" "g" "n" "INV-2024-016" "01/02/2024"
                                  5900%float]
                    [sampleRecord "row-0" "g" "n" "INV-2024-012" "2024-02-01"
                                  1180%float]
                    "INV-2024-016|2024-02-01")); reflexivity.
  - apply (proj2 (reconcileDatasets_one_sided_key
                    [sampleRecord "row-0" "g" "n" "INV-2024-016" "01/02/2024"
                                  5900%float]
                    [sampleRecord "row-0" "g" "n" "INV-2024-012" "2024-02-01"
                                  1180%float]
                    "INV-2024-012|2024-02-01")
                 (sampleRecord "row-0" "g" "n" "INV-2024-012" "2024-02-01"
                               1180%float)); reflexivity.
Defined.

(** C8. The result list has one result per distinct match key generated by
    a record of either collection, and no other result: its keys are without
    repetition, they are the keys the records generate, and there are as many
    results as distinct keys. The records attached to the result of a key are,
    on each side, the last record of the collection that generates the key:
    a record followed by no other record of its key is the one attached,
    whatever precedes it, so a record overwritten by a later one shows in no
    result. *)
Theorem reconcileDatasets_one_result_per_key
        (purchaseRecords salesRecords : list FinancialRecord) :
  let results := reconcileDatasets purchaseRecords salesRecords in
  NoDup (map matchKey results)
  /\ (forall k : string,
         In k (map matchKey results) <->
         (exists r, In r purchaseRecords /\ generateMatchKey r = k)
         \/ (exists r, In r salesRecords /\ generateMatchKey r = k))
  /\ List.length results
     = List.length
         (nodup string_dec
                (map generateMatchKey (purchaseRecords ++ salesRecords)))
  /\ (forall r : ReconciliationResult,
         In r results ->
         purchaseRecord r = lastWithKey purchaseRecords (matchKey r)
         /\ salesRecord r = lastWithKey salesRecords (matchKey r))
  /\ (forall (before after : list FinancialRecord) (b : FinancialRecord)
             (r : ReconciliationResult),
         (forall x, In x after -> generateMatchKey x <> generateMatchKey b) ->
         matchKey r = generateMatchKey b ->
         (In r (reconcileDatasets (before ++ b :: after) salesRecords) ->
          purchaseRecord r = Some b)
         /\ (In r (reconcileDatasets purchaseRecords (before ++ b :: after)) ->
             salesRecord r = Some b)).
Proof.
  cbn zeta.
  assert (Hkeys : forall P S k,
             In k (map matchKey (reconcileDatasets P S)) <->
             (exists r, In r P /\ generateMatchKey r = k)
             \/ (exists r, In r S /\ generateMatchKey r = k)).
  { intros P S k. rewrite reconcileDatasets_keys_In, !buildLookup_keys.
    reflexivity. }
  assert (Hlast : forall P S r,
             In r (reconcileDatasets P S) ->
             purchaseRecord r = lastWithKey P (matchKey r)
             /\ salesRecord r = lastWithKey S (matchKey r)).
  { intros P S r Hin. rewrite reconcileDatasets_eq in Hin.
    apply in_app_or in Hin as [Hin | Hin].
    - apply purchaseResults_In_inv in Hin as [newId [k [p [Hkp ->]]]].
      rewrite classifyPurchase_matchKey, classifyPurchase_purchaseRecord,
        classifyPurchase_salesRecord, <- !buildLookup_get.
      split; [| reflexivity]. symmetry.
      apply In_get; [apply buildLookup_NoDup | exact Hkp].
    - apply salesResults_In_inv in Hin as [newId [k [s [Hks [Hk ->]]]]].
      cbn [missingInPurchase matchKey purchaseRecord salesRecord].
      rewrite <- !buildLookup_get. split.
      + symmetry. apply processedKeys_has_false. exact Hk.
      + symmetry. apply In_get; [apply buildLookup_NoDup | exact Hks]. }
  split; [apply reconcileDatasets_keys_NoDup |].
  split; [apply Hkeys |].
  split.
  { rewrite <- (length_map matchKey).
    assert (Hsame : forall k,
               In k (map matchKey (reconcileDatasets purchaseRecords salesRecords))
               <-> In k (nodup string_dec
                               (map generateMatchKey
                                    (purchaseRecords ++ salesRecords)))).
    { intros k. rewrite Hkeys, nodup_In, in_map_iff. split.
      - intros [[r [Hin E]] | [r [Hin E]]]; exists r;
          (split; [exact E | apply in_or_app; auto]).
      - intros [r [E Hin]]. apply in_app_or in Hin as [Hin | Hin];
          [left | right]; exists r; auto. }
    apply Nat.le_antisymm; apply NoDup_incl_length;
      try apply reconcileDatasets_keys_NoDup; try apply NoDup_nodup;
      intros k Hk; apply Hsame; exact Hk. }
  split; [apply Hlast |].
  intros before after b r Hafter Hkey. split; intros Hin.
  - rewrite (proj1 (Hlast _ _ r Hin)), Hkey. apply lastWithKey_last, Hafter.
  - rewrite (proj2 (Hlast _ _ r Hin)), Hkey. apply lastWithKey_last, Hafter.
Qed.

(** Two purchase records with one key: the later one is attached, and the
    earlier one is in no result. *)
Example reconcileDatasets_last_write_wins :
  map (fun r => (status r, option_map id (purchaseRecord r),
                 option_map id (salesRecord r)))
      (reconcileDatasets
         [sampleRecord "row-0" "g" "n" "INV-1" "2024-01-05" 118%float;
          sampleRecord "row-1" "g" "n" "INV-2" "2024-01-06" 50%float;
          sampleRecord "row-2" "g" "n" "inv-1" "05/01/2024" 118%float]
         [sampleRecord "row-0" "g" "n" "INV-1" "05-01-2024" 118%float;
          sampleRecord "row-1" "g" "n" "INV-3" "2024-01-07" 70%float])
  = [(matched, Some "row-2", Some "row-0");
     (missing_in_sales, Some "row-1", None);
     (missing_in_purchase, None, Some "row-1")].
Proof. vm_compute. reflexivity. Qed.

Lemma reconcileDatasets_one_result_per_key_witness :
  List.length
    (reconcileDatasets
       [sampleRecord "row-0" "g" "n" "INV-1" "2024-01-05" 118%float;
        sampleRecord "row-1" "g" "n" "INV-2" "2024-01-06" 50%float;
        sampleRecord "row-2" "g" "n" "inv-1" "05/01/2024" 118%float]
       [sampleRecord "row-0" "g" "n" "INV-1" "05-01-2024" 118%float;
        sampleRecord "row-1" "g" "n" "INV-3" "2024-01-07" 70%float]) = 3
  /\ (In (sampleRecord "row-2" "g" "n" "inv-1" "05/01/2024" 118%float)
         [sampleRecord "row-0" "g" "n" "INV-1" "2024-01-05" 118%float;
          sampleRecord "row-1" "g" "n" "INV-2" "2024-01-06" 50%float;
          sampleRecord "row-2" "g" "n" "inv-1" "05/01/2024" 118%float]
      /\ generateMatchKey
           (sampleRecord "row-2" "g" "n" "inv-1" "05/01/2024" 118%float)
         = "INV-1|2024-01-05"
      -> In "INV-1|2024-01-05"
            (map matchKey
                 (reconcileDatasets
                    [sampleRecord "row-0" "g" "n" "INV-1" "2024-01-05" 118%float;
                     sampleRecord "row-1" "g" "n" "INV-2" "2024-01-06" 50%float;
                     sampleRecord "row-2" "g" "n" "inv-1" "05/01/2024" 118%float]
                    [sampleRecord "row-0" "g" "n" "INV-1" "05-01-2024" 118%float;
                     sampleRecord "row-1" "g" "n" "INV-3" "2024-01-07" 70%float]))).
Proof.
  pose proof (reconcileDatasets_one_result_per_key
                [sampleRecord "row-0" "g" "n" "INV-1" "2024-01-05" 118%float;
                 sampleRecord "row-1" "g" "n" "INV-2" "2024-01-06" 50%float;
                 sampleRecord "row-2" "g" "n" "inv-1" "05/01/2024" 118%float]
                [sampleRecord "row-0" "g" "n" "INV-1" "05-01-2024" 118%float;
                 sampleRecord "row-1" "g" "n" "INV-3" "2024-01-07" 70%float])
    as [_ [Hkeys [Hlen _]]].
  split.
  - rewrite Hlen. reflexivity.
  - intros H. apply Hkeys. left. eexists. exact H.
Defined.

(* ================================================================== *)
(** * The engine on small inputs *)

Example generateMatchKey_of_empty_record :
  generateMatchKey (sampleRecord "" "" "" "" "" 0%float) = "|".
Proof. reflexivity. Qed.

Example generateMatchKey_normalises_invoice_number :
  generateMatchKey (sampleRecord "" "" "" "  inv 20 24-a " " 05/01/2024 " 0%float)
  = "INV2024-A|2024-01-05".
Proof. reflexivity. Qed.

Example reconcileDatasets_of_nothing : reconcileDatasets [] [] = [].
Proof. reflexivity. Qed.

Example calculateSummary_of_nothing :
  calculateSummary []
  = {| totalRecords := 0; matchedCount := 0; mismatchedCount := 0;
       missingInPurchaseCount := 0; missingInSalesCount := 0;
       matchPercentage := 0%float; totalDifferenceAmount := 0%float |}.
Proof. reflexivity. Qed.

(** Identifiers follow the order of emission, and a mismatch on the GSTIN
    alone leaves the total difference at 0. *)
Example reconcileDatasets_identifiers :
  map (fun r => (resultId r, status r, matchKey r,
                 map field (mismatchReasons r), totalDifference r))
      (reconcileDatasets
         [sampleRecord "row-0" "g1" "n" "INV-1" "2024-01-05" 118%float;
          sampleRecord "row-1" "g1" "n" "INV-2" "2024-01-06" 50%float]
         [sampleRecord "row-0" "g2" "n" "INV-1" "05-01-2024" 118%float;
          sampleRecord "row-1" "g1" "n" "INV-3" "2024-01-07" 70%float])
  = [("result-0", mismatched, "INV-1|2024-01-05", ["GSTIN"], 0%float);
     ("result-1", missing_in_sales, "INV-2|2024-01-06", [], 50%float);
     ("result-2", missing_in_purchase, "INV-3|2024-01-07", [], (-70)%float)].
Proof. vm_compute. reflexivity. Qed.

Section EngineFacts.

Local Open Scope float_scope.

Lemma classifyPurchase_shape (salesMap : JsMap.t FinancialRecord)
      (newId k : string) (p : FinancialRecord) :
  let r := classifyPurchase salesMap newId k p in
  match status r with
  | matched =>
      exists s, JsMap.get salesMap k = Some s
                /\ purchaseRecord r = Some p /\ salesRecord r = Some s
                /\ findMismatches p s = []
                /\ mismatchReasons r = [] /\ totalDifference r = 0
  | mismatched =>
      exists s, JsMap.get salesMap k = Some s
                /\ purchaseRecord r = Some p /\ salesRecord r = Some s
                /\ mismatchReasons r = findMismatches p s
                /\ mismatchReasons r <> []
  | missing_in_sales =>
      JsMap.get salesMap k = None
      /\ purchaseRecord r = Some p /\ salesRecord r = None
      /\ mismatchReasons r = [] /\ totalDifference r = totalAmount p
  | missing_in_purchase => False
  end.
Proof.
  cbn zeta. unfold classifyPurchase.
  destruct (JsMap.get salesMap k) as [s |] eqn:Hs.
  - cbn zeta. destruct (Nat.eqb (List.length (findMismatches p s)) 0) eqn:E;
      cbn [status purchaseRecord salesRecord mismatchReasons totalDifference].
    + apply length_zero_nil in E. exists s. auto 10.
    + exists s. repeat split; try reflexivity.
      intros H. rewrite H in E. discriminate E.
  - cbn. auto.
Qed.

Lemma orZero_not_nan (x : option float) : is_nan (JsNumber.orZero x) = false.
Proof.
  destruct x as [d |]; [| reflexivity]. cbn [JsNumber.orZero].
  destruct (JsNumber.truthy d) eqn:E; [| reflexivity].
  unfold JsNumber.truthy in E. apply negb_true_iff, orb_false_iff in E.
  apply E.
Qed.

Lemma classifyPurchase_not_nan (salesMap : JsMap.t FinancialRecord)
      (newId k : string) (p : FinancialRecord) :
  status (classifyPurchase salesMap newId k p) <> missing_in_sales ->
  is_nan (totalDifference (classifyPurchase salesMap newId k p)) = false.
Proof.
  unfold classifyPurchase. destruct (JsMap.get salesMap k) as [s |].
  - destruct (Nat.eqb _ 0); cbn [status totalDifference]; intros _.
    + reflexivity.
    + apply orZero_not_nan.
  - cbn. congruence.
Qed.


Lemma missingInPurchase_shape (newId k : string) (s : FinancialRecord) :
  status (missingInPurchase newId k s) = missing_in_purchase.
Proof. reflexivity. Qed.

(** Every result of the matcher, by its status. *)
Lemma reconcileDatasets_shape_of (P S : list FinancialRecord)
      (r : ReconciliationResult) :
  In r (reconcileDatasets P S) ->
  match status r with
  | matched =>
      exists p s, purchaseRecord r = Some p /\ salesRecord r = Some s
                  /\ findMismatches p s = []
                  /\ mismatchReasons r = [] /\ totalDifference r = 0
  | mismatched =>
      exists p s, purchaseRecord r = Some p /\ salesRecord r = Some s
                  /\ mismatchReasons r = findMismatches p s
                  /\ mismatchReasons r <> []
  | missing_in_sales =>
      exists p, purchaseRecord r = Some p /\ salesRecord r = None
                /\ mismatchReasons r = []
                /\ totalDifference r = totalAmount p
  | missing_in_purchase =>
      exists s, purchaseRecord r = None /\ salesRecord r = Some s
                /\ mismatchReasons r = []
                /\ totalDifference r = - totalAmount s
  end.
Proof.
  intros Hin. rewrite reconcileDatasets_eq in Hin.
  apply in_app_or in Hin as [Hin | Hin].
  - apply purchaseResults_In_inv in Hin as [newId [k [p [_ ->]]]].
    pose proof (classifyPurchase_shape (buildLookup S) newId k p) as H.
    cbn zeta in H.
    destruct (status (classifyPurchase (buildLookup S) newId k p)).
    + destruct H as [s [_ H]]. exists p, s. exact H.
    + destruct H as [s [_ H]]. exists p, s. exact H.
    + contradiction.
    + destruct H as [_ H]. exists p. exact H.
  - apply salesResults_In_inv in Hin as [newId [k [s [_ [_ ->]]]]].
    cbn. exists s. auto.
Qed.

(** Identifiers. *)
Lemma to_uint_nonnil (n : nat) : Nat.to_uint n <> Decimal.Nil.
Proof.
  rewrite <- (DecimalNat.Unsigned.of_to n) at 1.
  rewrite DecimalNat.Unsigned.to_of. apply DecimalFacts.unorm_nonnil.
Qed.

Lemma ofNat_inj (a b : nat) : JsString.ofNat a = JsString.ofNat b -> a = b.
Proof.
  unfold JsString.ofNat. intros H.
  apply (f_equal NilZero.uint_of_string) in H.
  rewrite !NilZero.usu in H by apply to_uint_nonnil.
  injection H as H. apply DecimalNat.Unsigned.to_uint_inj, H.
Qed.

Lemma resultId_inj (a b : nat) :
  ("result-" ++ JsString.ofNat a = "result-" ++ JsString.ofNat b)%string -> a = b.
Proof. intros H. apply append_inj_l in H. apply ofNat_inj, H. Qed.

Lemma classifyPurchase_resultId (salesMap : JsMap.t FinancialRecord)
      (newId k : string) (p : FinancialRecord) :
  resultId (classifyPurchase salesMap newId k p) = newId.
Proof.
  unfold classifyPurchase. destruct (JsMap.get salesMap k); [| reflexivity].
  destruct (Nat.eqb _ 0); reflexivity.
Qed.

Lemma purchaseResults_nth (salesMap : JsMap.t FinancialRecord) (n : nat)
      (entries : list (string * FinancialRecord)) (i : nat)
      (r : ReconciliationResult) :
  nth_error (purchaseResults salesMap n entries) i = Some r ->
  resultId r = ("result-" ++ JsString.ofNat (n + i))%string.
Proof.
  revert n i. induction entries as [| [k p] entries IH]; intros n i; cbn.
  - destruct i; discriminate.
  - destruct i as [| i]; cbn.
    + intros [= <-]. rewrite classifyPurchase_resultId, Nat.add_0_r. reflexivity.
    + intros H. rewrite (IH (S n) i H). rewrite Nat.add_succ_r. reflexivity.
Qed.

Lemma salesResults_nth (processed : JsSet.t) (n : nat)
      (entries : list (string * FinancialRecord)) (i : nat)
      (r : ReconciliationResult) :
  nth_error (salesResults processed n entries) i = Some r ->
  resultId r = ("result-" ++ JsString.ofNat (n + i))%string.
Proof.
  revert n i. induction entries as [| [k s] entries IH]; intros n i; cbn.
  - destruct i; discriminate.
  - destruct (negb (JsSet.has processed k)); [| apply IH].
    destruct i as [| i]; cbn.
    + intros [= <-]. cbn. rewrite Nat.add_0_r. reflexivity.
    + intros H. rewrite (IH (S n) i H). rewrite Nat.add_succ_r. reflexivity.
Qed.

Lemma reconcileDatasets_nth (P S : list FinancialRecord) (i : nat)
      (r : ReconciliationResult) :
  nth_error (reconcileDatasets P S) i = Some r ->
  resultId r = ("result-" ++ JsString.ofNat i)%string.
Proof.
  rewrite reconcileDatasets_eq. intros H.
  destruct (Nat.lt_ge_cases i
              (List.length (purchaseResults (buildLookup S) 0 (buildLookup P))))
    as [Hlt | Hge].
  - rewrite nth_error_app1 in H by exact Hlt.
    apply purchaseResults_nth in H. exact H.
  - rewrite nth_error_app2 in H by exact Hge.
    apply salesResults_nth in H. rewrite H.
    rewrite purchaseResults_length in *. do 2 f_equal. lia.
Qed.

Lemma reconcileDatasets_ids_NoDup (P S : list FinancialRecord) :
  NoDup (map resultId (reconcileDatasets P S)).
Proof.
  apply NoDup_nth_error. intros i j Hi Hij.
  rewrite length_map in Hi.
  rewrite !nth_error_map in Hij.
  destruct (nth_error (reconcileDatasets P S) i) as [ri |] eqn:Ei.
  - destruct (nth_error (reconcileDatasets P S) j) as [rj |] eqn:Ej;
      [| discriminate Hij].
    cbn in Hij. injection Hij as Hij.
    rewrite (reconcileDatasets_nth P S i ri Ei) in Hij.
    rewrite (reconcileDatasets_nth P S j rj Ej) in Hij.
    apply resultId_inj, Hij.
  - apply nth_error_None in Ei. lia.
Qed.

End EngineFacts.

Section OrderFacts.

Lemma filter_filter_implied {A : Type} (f g : A -> bool) (l : list A) :
  (forall x, f x = true -> g x = true) ->
  filter f (filter g l) = filter f l.
Proof.
  intros H. induction l as [| a l IH]; cbn; [reflexivity |].
  destruct (g a) eqn:Eg; cbn.
  - destruct (f a); [f_equal |]; exact IH.
  - destruct (f a) eqn:Ef; [| exact IH].
    apply H in Ef. congruence.
Qed.

Lemma filter_andb {A : Type} (f g : A -> bool) (l : list A) :
  filter f (filter g l) = filter (fun x => f x && g x) l.
Proof.
  induction l as [| a l IH]; cbn; [reflexivity |].
  destruct (g a) eqn:Eg; cbn; rewrite ?andb_false_r, ?andb_true_r, IH;
    reflexivity.
Qed.

Lemma filter_all {A : Type} (f : A -> bool) (l : list A) :
  (forall x, f x = true) -> filter f l = l.
Proof.
  intros H. induction l as [| a l IH]; cbn; [reflexivity |].
  rewrite H, IH. reflexivity.
Qed.

Lemma filter_comm {A : Type} (f g : A -> bool) (l : list A) :
  filter f (filter g l) = filter g (filter f l).
Proof.
  induction l as [| a l IH]; cbn; [reflexivity |].
  destruct (f a) eqn:Ef, (g a) eqn:Eg; cbn; rewrite ?Ef, ?Eg, IH; reflexivity.
Qed.

Lemma keys_set {V : Type} (m : JsMap.t V) (k : string) (v : V) :
  JsMap.keys (JsMap.set m k v)
  = if JsSet.has (JsMap.keys m) k then JsMap.keys m else JsMap.keys m ++ [k].
Proof.
  unfold JsMap.keys, JsSet.has.
  induction m as [| [k' v'] m IH]; [reflexivity |].
  cbn [JsMap.set map fst existsb]. rewrite (String.eqb_sym k k').
  destruct (String.eqb k' k) eqn:E; cbn [orb map fst]; [reflexivity |].
  rewrite IH.
  destruct (existsb (String.eqb k) (map fst m)); reflexivity.
Qed.

Lemma has_app (a b : JsSet.t) (k : string) :
  JsSet.has (a ++ b) k = JsSet.has a k || JsSet.has b k.
Proof. apply existsb_app. Qed.

(** The keys of a lookup map built on top of [m]: those of [m], then the
    new ones as first met. *)
Lemma buildLookup_from_keys (records : list FinancialRecord)
      (m : JsMap.t FinancialRecord) :
  JsMap.keys
    (fold_left (fun m record => JsMap.set m (generateMatchKey record) record)
               records m)
  = JsMap.keys m
    ++ filter (fun k => negb (JsSet.has (JsMap.keys m) k))
              (firstSeen (map generateMatchKey records)).
Proof.
  revert m. induction records as [| r records IH]; intros m.
  - cbn. rewrite app_nil_r. reflexivity.
  - cbn [fold_left map firstSeen filter]. rewrite IH, keys_set.
    destruct (JsSet.has (JsMap.keys m) (generateMatchKey r)) eqn:E;
      cbn [negb].
    + f_equal. symmetry. apply filter_filter_implied.
      intros x Hx. apply negb_true_iff. apply negb_true_iff in Hx.
      apply String.eqb_neq. intros ->. congruence.
    + rewrite <- app_assoc. cbn [app]. do 2 f_equal.
      rewrite filter_andb. apply filter_ext. intros x.
      rewrite has_app, negb_orb. f_equal.
      unfold JsSet.has. cbn. rewrite orb_false_r. reflexivity.
Qed.

Lemma buildLookup_keysOf (records : list FinancialRecord) :
  JsMap.keys (buildLookup records) = keysOf records.
Proof.
  unfold buildLookup, keysOf. rewrite buildLookup_from_keys. cbn [JsMap.keys JsMap.empty map app].
  apply filter_all. reflexivity.
Qed.

End OrderFacts.

Section EngineOrder.

Variables P S : list FinancialRecord.

Lemma hasKey_In (records : list FinancialRecord) (k : string) :
  hasKey records k = true <-> In k (JsMap.keys (buildLookup records)).
Proof.
  rewrite buildLookup_keys. unfold hasKey. rewrite existsb_exists.
  split; intros [r [Hin E]]; exists r; split; try exact Hin.
  - apply String.eqb_eq, E.
  - apply String.eqb_eq, E.
Qed.

Lemma processedKeys_hasKey (k : string) :
  JsSet.has (fold_left JsSet.add (JsMap.keys (buildLookup P)) JsSet.empty) k
  = hasKey P k.
Proof.
  apply eq_true_iff_eq. rewrite processedKeys_has, hasKey_In. reflexivity.
Qed.

(** The keys of the results, in the order of emission. *)
Lemma reconcileDatasets_keys_order :
  map matchKey (reconcileDatasets P S)
  = keysOf P ++ filter (fun k => negb (hasKey P k)) (keysOf S).
Proof.
  rewrite reconcileDatasets_keys.
  rewrite (filter_ext _ (fun k => negb (hasKey P k)))
    by (intros k; rewrite processedKeys_hasKey; reflexivity).
  rewrite !buildLookup_keysOf. reflexivity.
Qed.

Lemma firstSeen_length (l : list string) :
  List.length (firstSeen l) <= List.length l.
Proof.
  induction l as [| k l IH]; cbn; [lia |].
  pose proof (filter_length_le (fun x => negb (String.eqb x k)) (firstSeen l)).
  lia.
Qed.

Lemma reconcileDatasets_length_le :
  List.length (reconcileDatasets P S) <= List.length P + List.length S.
Proof.
  rewrite <- (length_map matchKey), reconcileDatasets_keys_order, length_app.
  pose proof (firstSeen_length (map generateMatchKey P)) as H1.
  pose proof (firstSeen_length (map generateMatchKey S)) as H2.
  pose proof (filter_length_le (fun k => negb (hasKey P k)) (keysOf S)) as H3.
  unfold keysOf in *. rewrite length_map in H1, H2. lia.
Qed.

Lemma reconcileDatasets_nil_iff :
  reconcileDatasets P S = [] <-> P = [] /\ S = [].
Proof.
  split.
  - intros H. apply (f_equal (map matchKey)) in H.
    rewrite reconcileDatasets_keys_order in H. cbn in H.
    apply app_eq_nil in H as [HP HS].
    destruct P as [| p P']; [| discriminate HP]. split; [reflexivity |].
    destruct S as [| s S']; [reflexivity |]. cbn in HS. discriminate HS.
  - intros [-> ->]. reflexivity.
Qed.

End EngineOrder.

Section EngineRecords.

(** The records of a result are the last ones of its key. *)
Lemma reconcileDatasets_records_last (P S : list FinancialRecord)
      (r : ReconciliationResult) :
  In r (reconcileDatasets P S) ->
  purchaseRecord r = lastWithKey P (matchKey r)
  /\ salesRecord r = lastWithKey S (matchKey r).
Proof.
  intros Hin. rewrite reconcileDatasets_eq in Hin.
  apply in_app_or in Hin as [Hin | Hin].
  - apply purchaseResults_In_inv in Hin as [newId [k [p [Hkp ->]]]].
    rewrite classifyPurchase_matchKey, classifyPurchase_purchaseRecord,
      classifyPurchase_salesRecord, <- !buildLookup_get.
    split; [| reflexivity]. symmetry.
    apply In_get; [apply buildLookup_NoDup | exact Hkp].
  - apply salesResults_In_inv in Hin as [newId [k [s [Hks [Hk ->]]]]].
    cbn [missingInPurchase matchKey purchaseRecord salesRecord].
    rewrite <- !buildLookup_get. split.
    + symmetry. apply processedKeys_has_false. exact Hk.
    + symmetry. apply In_get; [apply buildLookup_NoDup | exact Hks].
Qed.

Lemma findMismatches_same (r : FinancialRecord) :
  finiteAmounts r -> findMismatches r r = [].
Proof.
  intros H. unfold findMismatches.
  rewrite gstinReason_same, partyNameReason_same by reflexivity.
  rewrite (amountReason_within _ _ _
             (compareAmounts_same_finite _ (H TaxableAmountField))).
  rewrite (amountReason_within _ _ _ (compareAmounts_same_finite _ (H IgstField))).
  rewrite (amountReason_within _ _ _ (compareAmounts_same_finite _ (H CgstField))).
  rewrite (amountReason_within _ _ _ (compareAmounts_same_finite _ (H SgstField))).
  rewrite (amountReason_within _ _ _
             (compareAmounts_same_finite _ (H TotalAmountField))).
  reflexivity.
Qed.

Lemma get_none_hasKey (records : list FinancialRecord) (k : string) :
  JsMap.get (buildLookup records) k = None <-> hasKey records k = false.
Proof.
  rewrite get_none_keys, <- hasKey_In.
  destruct (hasKey records k); split; congruence.
Qed.

Lemma classifyPurchase_missing (S : list FinancialRecord)
      (newId k : string) (p : FinancialRecord) :
  status_eqb (status (classifyPurchase (buildLookup S) newId k p))
             missing_in_sales
  = negb (hasKey S k).
Proof.
  unfold classifyPurchase.
  destruct (JsMap.get (buildLookup S) k) as [s |] eqn:E.
  - assert (H : hasKey S k = true).
    { destruct (hasKey S k) eqn:Hk; [reflexivity |].
      apply get_none_hasKey in Hk. congruence. }
    rewrite H. destruct (Nat.eqb _ 0); reflexivity.
  - apply get_none_hasKey in E. rewrite E. reflexivity.
Qed.

Lemma classifyPurchase_not_missing_in_purchase
      (salesMap : JsMap.t FinancialRecord) (newId k : string)
      (p : FinancialRecord) :
  status_eqb (status (classifyPurchase salesMap newId k p))
             missing_in_purchase = false.
Proof.
  unfold classifyPurchase. destruct (JsMap.get salesMap k); [| reflexivity].
  destruct (Nat.eqb _ 0); reflexivity.
Qed.

Lemma countStatus_app (st : ReconciliationStatus)
      (l1 l2 : list ReconciliationResult) :
  countStatus st (l1 ++ l2) = countStatus st l1 + countStatus st l2.
Proof. unfold countStatus. rewrite filter_app, length_app. reflexivity. Qed.

Lemma count_purchase_missing_in_sales (salesRecords : list FinancialRecord)
      (n : nat) (entries : list (string * FinancialRecord)) :
  countStatus missing_in_sales
              (purchaseResults (buildLookup salesRecords) n entries)
  = List.length (filter (fun k => negb (hasKey salesRecords k))
                        (JsMap.keys entries)).
Proof.
  revert n. induction entries as [| [k p] entries IH]; intros n;
    [reflexivity |].
  cbn [purchaseResults JsMap.keys map fst filter].
  rewrite countStatus_cons, classifyPurchase_missing, IH.
  unfold JsMap.keys. destruct (negb (hasKey salesRecords k)); reflexivity.
Qed.

Lemma count_purchase_missing_in_purchase (salesMap : JsMap.t FinancialRecord)
      (n : nat) (entries : list (string * FinancialRecord)) :
  countStatus missing_in_purchase (purchaseResults salesMap n entries) = 0.
Proof.
  revert n. induction entries as [| [k p] entries IH]; intros n;
    [reflexivity |].
  cbn [purchaseResults].
  rewrite countStatus_cons, classifyPurchase_not_missing_in_purchase, IH.
  reflexivity.
Qed.

Lemma count_sales (processed : JsSet.t) (st : ReconciliationStatus) (n : nat)
      (entries : list (string * FinancialRecord)) :
  countStatus st (salesResults processed n entries)
  = if status_eqb missing_in_purchase st
    then List.length (salesResults processed n entries) else 0.
Proof.
  revert n. induction entries as [| [k s] entries IH]; intros n;
    cbn [salesResults].
  - destruct st; reflexivity.
  - destruct (negb (JsSet.has processed k)); [| apply IH].
    rewrite countStatus_cons, IH. cbn [status missingInPurchase List.length].
    destruct st; reflexivity.
Qed.

Lemma filter_length_split {A : Type} (f : A -> bool) (l : list A) :
  List.length (filter f l) + List.length (filter (fun x => negb (f x)) l)
  = List.length l.
Proof.
  induction l as [| a l IH]; cbn; [reflexivity |].
  destruct (f a); cbn; lia.
Qed.

End EngineRecords.

(* ================================================================== *)
(** * Further properties of the matcher *)

(** X1. Every result of [reconcileDatasets] has the shape of its status:
    a matched result holds both records, no reason and a total difference
    of 0, and the detector finds nothing on its records; a mismatched one
    holds both records and the detector's reasons, of which there is at
    least one; a result missing on one side holds the record of the other
    side alone, no reason, and that record's total as total difference,
    negated when it is the sales record. *)
Theorem reconcileDatasets_result_shape
        (purchaseRecords salesRecords : list FinancialRecord)
        (r : ReconciliationResult) :
  In r (reconcileDatasets purchaseRecords salesRecords) ->
  match status r with
  | matched =>
      exists p s, purchaseRecord r = Some p /\ salesRecord r = Some s
                  /\ findMismatches p s = []
                  /\ mismatchReasons r = [] /\ totalDifference r = 0%float
  | mismatched =>
      exists p s, purchaseRecord r = Some p /\ salesRecord r = Some s
                  /\ mismatchReasons r = findMismatches p s
                  /\ mismatchReasons r <> []
  | missing_in_sales =>
      exists p, purchaseRecord r = Some p /\ salesRecord r = None
                /\ mismatchReasons r = []
                /\ totalDifference r = totalAmount p
  | missing_in_purchase =>
      exists s, purchaseRecord r = None /\ salesRecord r = Some s
                /\ mismatchReasons r = []
                /\ totalDifference r = (- totalAmount s)%float
  end.
Proof. apply reconcileDatasets_shape_of. Qed.

Lemma reconcileDatasets_result_shape_witness :
  exists s : FinancialRecord,
    purchaseRecord
      (missingInPurchase "result-0" "INV-3|2024-01-07"
         (sampleRecord "row-1" "g" "n" "INV-3" "2024-01-07" 70%float)) = None
    /\ salesRecord
         (missingInPurchase "result-0" "INV-3|2024-01-07"
            (sampleRecord "row-1" "g" "n" "INV-3" "2024-01-07" 70%float))
       = Some s
    /\ mismatchReasons
         (missingInPurchase "result-0" "INV-3|2024-01-07"
            (sampleRecord "row-1" "g" "n" "INV-3" "2024-01-07" 70%float)) = []
    /\ totalDifference
         (missingInPurchase "result-0" "INV-3|2024-01-07"
            (sampleRecord "row-1" "g" "n" "INV-3" "2024-01-07" 70%float))
       = (- totalAmount s)%float.
Proof.
  exact (reconcileDatasets_result_shape
           []
           [sampleRecord "row-1" "g" "n" "INV-3" "2024-01-07" 70%float]
           (missingInPurchase "result-0" "INV-3|2024-01-07"
              (sampleRecord "row-1" "g" "n" "INV-3" "2024-01-07" 70%float))
           (or_introl eq_refl)).
Defined.

(** X2. The identifier of the result at position [i] of the list is
    [result-i], whatever the results are; so no two results of a run share
    an identifier. *)
Theorem reconcileDatasets_identifiers_sequential
        (purchaseRecords salesRecords : list FinancialRecord) :
  (forall (i : nat) (r : ReconciliationResult),
      nth_error (reconcileDatasets purchaseRecords salesRecords) i = Some r ->
      resultId r = ("result-" ++ JsString.ofNat i)%string)
  /\ NoDup (map resultId (reconcileDatasets purchaseRecords salesRecords)).
Proof.
  split; [apply reconcileDatasets_nth | apply reconcileDatasets_ids_NoDup].
Qed.

(** X3. Results come out in a fixed order: first one result per purchase
    key, in the order the keys are first met in the purchase collection (a
    later duplicate does not move its key), then one per key that only sales
    records generate, in the order these are first met in the sales
    collection. *)
Theorem reconcileDatasets_emission_order
        (purchaseRecords salesRecords : list FinancialRecord) :
  map matchKey (reconcileDatasets purchaseRecords salesRecords)
  = keysOf purchaseRecords
    ++ filter (fun k => negb (hasKey purchaseRecords k)) (keysOf salesRecords).
Proof. apply reconcileDatasets_keys_order. Qed.

(** X4. There are never more results than records, and there is no result
    only when both collections are empty; so whenever the page allows a run
    ([canReconcile]) the run ends with results to show ([hasResults]). *)
Theorem reconcileDatasets_size
        (purchaseRecords salesRecords : list FinancialRecord) :
  List.length (reconcileDatasets purchaseRecords salesRecords)
  <= List.length purchaseRecords + List.length salesRecords
  /\ (reconcileDatasets purchaseRecords salesRecords = []
      <-> purchaseRecords = [] /\ salesRecords = [])
  /\ (canReconcile purchaseRecords salesRecords = true ->
      hasResults (fst (runReconciliation purchaseRecords salesRecords)) = true).
Proof.
  split; [apply reconcileDatasets_length_le |].
  split; [apply reconcileDatasets_nil_iff |].
  unfold canReconcile, hasResults, runReconciliation. cbn [fst].
  intros H. apply andb_true_iff in H as [H _]. apply Nat.ltb_lt in H.
  apply Nat.ltb_lt.
  destruct (reconcileDatasets purchaseRecords salesRecords) eqn:E;
    [| cbn; lia].
  apply reconcileDatasets_nil_iff in E as [-> _]. cbn in H. lia.
Qed.

(** X5. A record attached to a result is a record of the collection of its
    side, and it generates the match key of the result. *)
Theorem reconcileDatasets_records_generate_key
        (purchaseRecords salesRecords : list FinancialRecord)
        (r : ReconciliationResult) :
  In r (reconcileDatasets purchaseRecords salesRecords) ->
  (forall p, purchaseRecord r = Some p ->
             In p purchaseRecords /\ generateMatchKey p = matchKey r)
  /\ (forall s, salesRecord r = Some s ->
                In s salesRecords /\ generateMatchKey s = matchKey r).
Proof.
  intros Hin.
  destruct (reconcileDatasets_records_last _ _ r Hin) as [Hp Hs].
  split; intros x Hx.
  - rewrite Hx in Hp. symmetry in Hp. apply lastWithKey_some, Hp.
  - rewrite Hx in Hs. symmetry in Hs. apply lastWithKey_some, Hs.
Qed.

Lemma reconcileDatasets_records_generate_key_witness :
  In (sampleRecord "row-1" "g" "n" "inv 3" "07/01/2024" 70%float)
     [sampleRecord "row-1" "g" "n" "inv 3" "07/01/2024" 70%float]
  /\ generateMatchKey (sampleRecord "row-1" "g" "n" "inv 3" "07/01/2024" 70%float)
     = "INV3|2024-01-07".
Proof.
  exact (proj2 (reconcileDatasets_records_generate_key
                  []
                  [sampleRecord "row-1" "g" "n" "inv 3" "07/01/2024" 70%float]
                  (missingInPurchase "result-0" "INV3|2024-01-07"
                     (sampleRecord "row-1" "g" "n" "inv 3" "07/01/2024" 70%float))
                  (or_introl eq_refl))
               (sampleRecord "row-1" "g" "n" "inv 3" "07/01/2024" 70%float)
               eq_refl).
Defined.

(** X6. The total difference of a matched or mismatched result is never
    [NaN], whatever the amounts of its records are. *)
Theorem reconcileDatasets_difference_is_number
        (purchaseRecords salesRecords : list FinancialRecord)
        (r : ReconciliationResult) :
  In r (reconcileDatasets purchaseRecords salesRecords) ->
  status r = matched \/ status r = mismatched ->
  is_nan (totalDifference r) = false.
Proof.
  intros Hin Hst. rewrite reconcileDatasets_eq in Hin.
  apply in_app_or in Hin as [Hin | Hin].
  - apply purchaseResults_In_inv in Hin as [newId [k [p [_ ->]]]].
    apply classifyPurchase_not_nan. destruct Hst as [H | H]; rewrite H; discriminate.
  - apply salesResults_In_inv in Hin as [newId [k [s [_ [_ ->]]]]].
    cbn in Hst. destruct Hst; discriminate.
Qed.

Lemma reconcileDatasets_difference_is_number_witness :
  is_nan
    (totalDifference
       (classifyPurchase
          [("INV-1|2024-01-05",
            sampleRecord "row-0" "g" "n" "INV-1" "2024-01-05" infinity)]
          "result-0" "INV-1|2024-01-05"
          (sampleRecord "row-0" "g" "n" "INV-1" "2024-01-05" infinity)))
  = false.
Proof.
  apply (reconcileDatasets_difference_is_number
           [sampleRecord "row-0" "g" "n" "INV-1" "2024-01-05" infinity]
           [sampleRecord "row-0" "g" "n" "INV-1" "2024-01-05" infinity]).
  - left. reflexivity.
  - right. reflexivity.
Defined.

(** X7. Against an empty sales collection every result is
    [missing_in_sales], one per purchase key; against an empty purchase
    collection every result is [missing_in_purchase], one per sales key. *)
Theorem reconcileDatasets_one_side_empty (records : list FinancialRecord) :
  (map matchKey (reconcileDatasets records []) = keysOf records
   /\ forall r, In r (reconcileDatasets records []) ->
                status r = missing_in_sales)
  /\ (map matchKey (reconcileDatasets [] records) = keysOf records
      /\ forall r, In r (reconcileDatasets [] records) ->
                   status r = missing_in_purchase).
Proof.
  split; split.
  - rewrite reconcileDatasets_keys_order. cbn. apply app_nil_r.
  - intros r Hin.
    destruct (reconcileDatasets_records_last _ _ r Hin) as [_ Hs].
    pose proof (reconcileDatasets_shape_of _ _ r Hin) as H.
    cbn in Hs. destruct (status r); [| | | reflexivity].
    + destruct H as [p [s [_ [Es _]]]]. congruence.
    + destruct H as [p [s [_ [Es _]]]]. congruence.
    + destruct H as [s [_ [Es _]]]. congruence.
  - rewrite reconcileDatasets_keys_order. cbn. apply filter_all. reflexivity.
  - intros r Hin.
    destruct (reconcileDatasets_records_last _ _ r Hin) as [Hp _].
    pose proof (reconcileDatasets_shape_of _ _ r Hin) as H.
    cbn in Hp. destruct (status r); [| | reflexivity |].
    + destruct H as [p [s [Ep _]]]. congruence.
    + destruct H as [p [s [Ep _]]]. congruence.
    + destruct H as [p [Ep _]]. congruence.
Qed.

(** X8. A collection whose amounts are all finite, reconciled against
    itself, gives matched results only. *)
Theorem reconcileDatasets_self (records : list FinancialRecord)
        (r : ReconciliationResult) :
  (forall p, In p records -> finiteAmounts p) ->
  In r (reconcileDatasets records records) ->
  status r = matched.
Proof.
  intros Hfin Hin.
  destruct (reconcileDatasets_records_last _ _ r Hin) as [Hp Hs].
  pose proof (reconcileDatasets_shape_of _ _ r Hin) as Hshape.
  destruct (status r); [reflexivity | | |].
  - destruct Hshape as [p [s [Ep [Es [Hm Hne]]]]].
    assert (p = s) by congruence. subst s.
    rewrite Ep in Hp. symmetry in Hp. apply lastWithKey_some in Hp as [Hin' _].
    rewrite (findMismatches_same p (Hfin p Hin')) in Hm. contradiction.
  - destruct Hshape as [s [Ep [Es _]]]. congruence.
  - destruct Hshape as [p [Ep [Es _]]]. congruence.
Qed.

Lemma reconcileDatasets_self_witness :
  status
    (classifyPurchase
       [("INV-1|2024-01-05",
         sampleRecord "row-0" "g" "n" "INV-1" "2024-01-05" 118%float)]
       "result-0" "INV-1|2024-01-05"
       (sampleRecord "row-0" "g" "n" "INV-1" "2024-01-05" 118%float))
  = matched.
Proof.
  apply (reconcileDatasets_self
           [sampleRecord "row-0" "g" "n" "INV-1" "2024-01-05" 118%float]).
  - intros p [<- | []] f. destruct f; reflexivity.
  - left. reflexivity.
Defined.

(** X9. The summary of a run, read off the two collections: the total is
    the number of purchase keys plus the number of sales keys no purchase
    record generates; the latter number is the count missing in purchase;
    the count missing in sales is the number of purchase keys no sales
    record generates; matched and mismatched results together are as many
    as the purchase keys some sales record generates. *)
Theorem runReconciliation_counts
        (purchaseRecords salesRecords : list FinancialRecord) :
  let s := snd (runReconciliation purchaseRecords salesRecords) in
  totalRecords s
  = List.length (keysOf purchaseRecords)
    + List.length (filter (fun k => negb (hasKey purchaseRecords k))
                          (keysOf salesRecords))
  /\ missingInPurchaseCount s
     = List.length (filter (fun k => negb (hasKey purchaseRecords k))
                           (keysOf salesRecords))
  /\ missingInSalesCount s
     = List.length (filter (fun k => negb (hasKey salesRecords k))
                           (keysOf purchaseRecords))
  /\ matchedCount s + mismatchedCount s
     = List.length (filter (hasKey salesRecords) (keysOf purchaseRecords)).
Proof.
  cbn zeta. unfold runReconciliation, calculateSummary.
  cbn [snd totalRecords missingInPurchaseCount missingInSalesCount
       matchedCount mismatchedCount].
  assert (Htotal :
            List.length (reconcileDatasets purchaseRecords salesRecords)
            = List.length (keysOf purchaseRecords)
              + List.length (filter (fun k => negb (hasKey purchaseRecords k))
                                    (keysOf salesRecords))).
  { rewrite <- (length_map matchKey), reconcileDatasets_keys_order, length_app.
    reflexivity. }
  assert (Hmp :
            countStatus missing_in_purchase
                        (reconcileDatasets purchaseRecords salesRecords)
            = List.length (filter (fun k => negb (hasKey purchaseRecords k))
                                  (keysOf salesRecords))).
  { rewrite reconcileDatasets_eq, countStatus_app,
      count_purchase_missing_in_purchase, count_sales.
    cbn [status_eqb].
    rewrite <- (length_map matchKey), salesResults_keys.
    rewrite (filter_ext _ (fun k => negb (hasKey purchaseRecords k)))
      by (intros k; rewrite processedKeys_hasKey; reflexivity).
    rewrite buildLookup_keysOf. reflexivity. }
  assert (Hms :
            countStatus missing_in_sales
                        (reconcileDatasets purchaseRecords salesRecords)
            = List.length (filter (fun k => negb (hasKey salesRecords k))
                                  (keysOf purchaseRecords))).
  { rewrite reconcileDatasets_eq, countStatus_app,
      count_purchase_missing_in_sales, count_sales.
    cbn [status_eqb]. rewrite buildLookup_keysOf. lia. }
  split; [exact Htotal |]. split; [exact Hmp |]. split; [exact Hms |].
  pose proof (countStatus_total (reconcileDatasets purchaseRecords salesRecords))
    as Hsum.
  pose proof (filter_length_split (hasKey salesRecords) (keysOf purchaseRecords))
    as Hsplit.
  lia.
Qed.

Section MoreFloatFacts.

Local Open Scope float_scope.

Lemma binary_round_aux_abs (s s' : bool) (m e : Z) (l : location) :
  SFabs (binary_round_aux prec emax s m e l)
  = SFabs (binary_round_aux prec emax s' m e l).
Proof.
  unfold binary_round_aux.
  destruct (shr_fexp prec emax m e l) as [mrs' e'].
  destruct (shr_fexp prec emax _ e' loc_Exact) as [mrs'' e''].
  destruct (shr_m mrs''); [reflexivity | | reflexivity].
  destruct (e'' <=? emax - prec)%Z; reflexivity.
Qed.

Lemma binary_normalize_opp_abs (z e : Z) :
  SFabs (binary_normalize prec emax (- z) e false)
  = SFabs (binary_normalize prec emax z e false).
Proof.
  destruct z as [| p | p]; cbn [Z.opp binary_normalize]; [reflexivity | |];
    unfold binary_round;
    destruct (shl_align p e (fexp prec emax (Z.pos (digits2_pos p) + e)))
      as [mz ez];
    apply binary_round_aux_abs.
Qed.

(** The magnitude of a difference does not depend on the order of its
    terms. *)
Lemma SFsub_abs_sym (x y : spec_float) :
  SFabs (SF64sub x y) = SFabs (SF64sub y x).
Proof.
  unfold SF64sub, SFsub.
  destruct x as [sx | sx | | sx mx ex], y as [sy | sy | | sy my ey];
    try reflexivity;
    try (destruct sx, sy; reflexivity);
    try (destruct sx; reflexivity); try (destruct sy; reflexivity).
  rewrite (Z.min_comm ey ex).
  rewrite <- binary_normalize_opp_abs. f_equal. f_equal. lia.
Qed.

Lemma compareAmounts_isEqual_sym (a b : float) :
  isEqual (compareAmounts a b) = isEqual (compareAmounts b a).
Proof.
  unfold compareAmounts, compareAmountsWith. cbn [isEqual].
  rewrite !leb_spec, !abs_spec, !sub_spec, SFsub_abs_sym. reflexivity.
Qed.

(** Sums of values that are not below zero. *)
Lemma SFadd_nonneg (x y : spec_float) :
  sfNonNegative x = true -> sfNonNegative y = true ->
  sfNonNegative (SF64add x y) = true.
Proof.
  unfold SF64add, SFadd.
  destruct x as [sx | sx | | sx mx ex], y as [sy | sy | | sy my ey];
    cbn [sfNonNegative]; intros Hx Hy; try reflexivity;
    try (apply negb_true_iff in Hx); try (apply negb_true_iff in Hy); subst;
    try reflexivity.
  cbn [cond_Zopp Z.add binary_normalize]. unfold binary_round.
  destruct (shl_align _ _ _) as [mz ez]. apply binary_round_aux_nonneg.
Qed.

Lemma SFabs_nonneg (x : spec_float) : sfNonNegative (SFabs x) = true.
Proof. destruct x; reflexivity. Qed.

Lemma totalDifferenceAmount_from (results : list ReconciliationResult)
      (start : float) :
  sfNonNegative (Prim2SF start) = true ->
  sfNonNegative
    (Prim2SF (fold_left (fun sum r => sum + abs (totalDifference r))
                        results start)) = true.
Proof.
  revert start. induction results as [| r results IH]; intros start H;
    [exact H |].
  cbn [fold_left]. apply IH. rewrite add_spec, abs_spec.
  apply SFadd_nonneg; [exact H | apply SFabs_nonneg].
Qed.

(** Any value is at most [Infinity], unless it is [NaN]. *)
Lemma leb_infinity (x : float) :
  is_nan x = false -> (x <=? infinity) = true.
Proof.
  intros H. rewrite leb_spec, Prim2SF_infinity.
  assert (Hn : Prim2SF x <> S754_nan).
  { intros E. apply is_nan_spec in E. congruence. }
  destruct (Prim2SF x) as [s | s | | s m e]; try (destruct s; reflexivity).
  contradiction.
Qed.

Lemma leb_true_not_nan (x y : float) :
  (x <=? y) = true -> is_nan y = false.
Proof.
  rewrite leb_spec. intros H.
  destruct (is_nan y) eqn:E; [| reflexivity].
  apply is_nan_spec in E. rewrite E in H.
  destruct (Prim2SF x); discriminate H.
Qed.

End MoreFloatFacts.

Section MoreDetectorFacts.

Lemma reasonsFor_findMismatches_gstin (p s : FinancialRecord) :
  reasonsFor "GSTIN" (findMismatches p s) = gstinReason p s.
Proof.
  unfold findMismatches. rewrite !reasonsFor_app.
  assert (N : reasonsFor "GSTIN" (partyNameReason p s) = []).
  { unfold partyNameReason. destruct (_ && _ && _); [| reflexivity].
    destruct (_ && _); reflexivity. }
  assert (A : forall name a b,
             String.eqb name "GSTIN" = false ->
             reasonsFor "GSTIN" (amountReason name a b) = []).
  { intros name a b H. unfold amountReason. destruct (negb _); [| reflexivity].
    cbn. rewrite H. reflexivity. }
  rewrite N, !A by reflexivity. rewrite !app_nil_r.
  unfold gstinReason. destruct (_ && _ && _); reflexivity.
Qed.

Lemma gstinReason_fields (p s : FinancialRecord) :
  map field (gstinReason p s) = [] \/ map field (gstinReason p s) = ["GSTIN"].
Proof. unfold gstinReason. destruct (_ && _ && _); auto. Qed.

Lemma partyNameReason_fields (p s : FinancialRecord) :
  map field (partyNameReason p s) = []
  \/ map field (partyNameReason p s) = ["Party Name"].
Proof.
  unfold partyNameReason. destruct (_ && _ && _); auto.
  destruct (_ && _); auto.
Qed.

Lemma amountReason_fields (name : string) (a b : float) :
  map field (amountReason name a b) = []
  \/ map field (amountReason name a b) = [name].
Proof. unfold amountReason. destruct (negb _); auto. Qed.

Lemma gstinReason_fields_sym (p s : FinancialRecord) :
  map field (gstinReason p s) = map field (gstinReason s p).
Proof.
  unfold gstinReason.
  rewrite (String.eqb_sym (trim (toUpperCase (gstin s)))).
  destruct (JsString.truthy (trim (toUpperCase (gstin p))));
    destruct (JsString.truthy (trim (toUpperCase (gstin s))));
    destruct (negb _); reflexivity.
Qed.

Lemma partyNameReason_fields_sym (p s : FinancialRecord) :
  map field (partyNameReason p s) = map field (partyNameReason s p).
Proof.
  unfold partyNameReason.
  rewrite (String.eqb_sym (trim (toLowerCase (partyName s)))).
  destruct (JsString.truthy (trim (toLowerCase (partyName p))));
    destruct (JsString.truthy (trim (toLowerCase (partyName s))));
    destruct (negb (String.eqb _ _)); cbn [andb]; try reflexivity.
  destruct (includes (trim (toLowerCase (partyName p))) _);
    destruct (includes (trim (toLowerCase (partyName s))) _); reflexivity.
Qed.

Lemma amountReason_fields_sym (name : string) (a b : float) :
  map field (amountReason name a b) = map field (amountReason name b a).
Proof.
  unfold amountReason. rewrite (compareAmounts_isEqual_sym a b).
  destruct (negb _); reflexivity.
Qed.

End MoreDetectorFacts.

(* ================================================================== *)
(** * Further properties of the detector *)

(** X10. The detector pushes a "GSTIN" reason exactly when the two
    GSTINs, upper-cased and trimmed, are both non-empty and differ; an empty
    GSTIN on either side is never reported. The reason carries the two
    GSTINs as given and no difference. *)
Theorem findMismatches_gstin (p s : FinancialRecord) :
  let purchaseGstin := trim (toUpperCase (gstin p)) in
  let salesGstin := trim (toUpperCase (gstin s)) in
  ((exists m, In m (findMismatches p s) /\ field m = "GSTIN")
   <-> (purchaseGstin <> "" /\ salesGstin <> "" /\ purchaseGstin <> salesGstin))
  /\ (forall m, In m (findMismatches p s) -> field m = "GSTIN" ->
                m = {| field := "GSTIN";
                       purchaseValue := VString (gstin p);
                       salesValue := VString (gstin s);
                       difference := None |}).
Proof.
  cbn zeta.
  assert (E : forall m, (In m (findMismatches p s) /\ field m = "GSTIN")
                        <-> In m (gstinReason p s)).
  { intros m. rewrite <- reasonsFor_findMismatches_gstin.
    symmetry. apply reasonsFor_In. }
  unfold gstinReason in E. split.
  - rewrite <- !truthy_nonempty.
    rewrite <- (String.eqb_neq (trim (toUpperCase (gstin p)))).
    destruct (JsString.truthy (trim (toUpperCase (gstin p))));
      destruct (JsString.truthy (trim (toUpperCase (gstin s))));
      destruct (String.eqb _ _);
      cbn [andb negb] in E; split;
      try (intros [m Hm]; apply E in Hm; destruct Hm);
      try (intros [? [? ?]]; congruence);
      try (intros _; eexists; apply E; left; reflexivity);
      try (repeat split; congruence).
  - intros m Hin Hf. pose proof (proj1 (E m) (conj Hin Hf)) as Hm.
    destruct (_ && _ && _); [| destruct Hm].
    destruct Hm as [Hm | []]. symmetry. exact Hm.
Qed.

(** X11. The reasons of a comparison name their fields in the order of the
    checks, GSTIN, Party Name, Taxable Amount, IGST, CGST, SGST, Total
    Amount, each field at most once: there are never more than seven. *)
Theorem findMismatches_reason_order (p s : FinancialRecord) :
  (exists keep : string -> bool,
      map field (findMismatches p s) = filter keep reasonFields)
  /\ NoDup (map field (findMismatches p s))
  /\ List.length (findMismatches p s) <= 7.
Proof.
  assert (H : exists keep : string -> bool,
             map field (findMismatches p s) = filter keep reasonFields).
  { exists (fun name => existsb (String.eqb name) (map field (findMismatches p s))).
    unfold findMismatches. rewrite !map_app.
    destruct (gstinReason_fields p s) as [-> | ->];
      destruct (partyNameReason_fields p s) as [-> | ->];
      destruct (amountReason_fields "Taxable Amount"
                  (taxableAmount p) (taxableAmount s)) as [-> | ->];
      destruct (amountReason_fields "IGST" (igst p) (igst s)) as [-> | ->];
      destruct (amountReason_fields "CGST" (cgst p) (cgst s)) as [-> | ->];
      destruct (amountReason_fields "SGST" (sgst p) (sgst s)) as [-> | ->];
      destruct (amountReason_fields "Total Amount"
                  (totalAmount p) (totalAmount s)) as [-> | ->];
      reflexivity. }
  split; [exact H |]. destruct H as [keep H]. split.
  - rewrite H. apply NoDup_filter.
    repeat (constructor; [cbn; intuition discriminate |]). constructor.
  - rewrite <- (length_map field), H.
    apply (filter_length_le keep reasonFields).
Qed.

(** X12. Two amounts are within the tolerance whichever comes first, and
    the detector names the same fields when the purchase record and the
    sales record are exchanged. *)
Theorem findMismatches_fields_symmetric (p s : FinancialRecord) :
  (forall a b : float,
      isEqual (compareAmounts a b) = isEqual (compareAmounts b a))
  /\ map field (findMismatches p s) = map field (findMismatches s p).
Proof.
  split; [apply compareAmounts_isEqual_sym |].
  unfold findMismatches. rewrite !map_app.
  rewrite (gstinReason_fields_sym p s), (partyNameReason_fields_sym p s).
  rewrite (amountReason_fields_sym _ (taxableAmount p)),
    (amountReason_fields_sym _ (igst p)), (amountReason_fields_sym _ (cgst p)),
    (amountReason_fields_sym _ (sgst p)),
    (amountReason_fields_sym _ (totalAmount p)).
  reflexivity.
Qed.

(** X13. The total difference amount of a summary is never below zero: it
    is [NaN] or at least 0, whatever the signs of the differences added. *)
Theorem calculateSummary_totalDifferenceAmount_not_negative
        (results : list ReconciliationResult) :
  let total := totalDifferenceAmount (calculateSummary results) in
  (total <? 0)%float = false
  /\ (is_nan total = false -> (0 <=? total)%float = true).
Proof.
  cbn zeta. unfold calculateSummary. cbn [totalDifferenceAmount].
  pose proof (totalDifferenceAmount_from results 0%float eq_refl) as H.
  rewrite ltb_spec, leb_spec.
  change (Prim2SF 0%float) with (S754_zero false).
  split.
  - destruct (Prim2SF _) as [sg | sg | | sg m e]; cbn [sfNonNegative] in H;
      try (apply negb_true_iff in H; subst sg); reflexivity.
  - intros Hnan.
    assert (Hn : Prim2SF
                   (fold_left
                      (fun sum r => (sum + abs (totalDifference r))%float)
                      results 0%float) <> S754_nan).
    { intros E. apply is_nan_spec in E. congruence. }
    destruct (Prim2SF _) as [sg | sg | | sg m e]; cbn [sfNonNegative] in H;
      try (apply negb_true_iff in H; subst sg); try reflexivity.
    contradiction.
Qed.

Section TableFacts.

Lemma setDelete_has (s : JsSet.t) (k x : string) :
  JsSet.has (setDelete s k) x = JsSet.has s x && negb (String.eqb x k).
Proof.
  unfold JsSet.has, setDelete. induction s as [| a s IH]; [reflexivity |].
  cbn [filter existsb]. destruct (String.eqb a k) eqn:Ea; cbn [negb existsb].
  - rewrite IH. apply String.eqb_eq in Ea. subst a.
    destruct (String.eqb x k) eqn:Ex; cbn [orb negb].
    + rewrite !andb_false_r. reflexivity.
    + reflexivity.
  - rewrite IH. destruct (String.eqb x a) eqn:Exa; cbn [orb]; [| reflexivity].
    apply String.eqb_eq in Exa. subst a. rewrite Ea. reflexivity.
Qed.

Lemma add_has (s : JsSet.t) (k x : string) :
  JsSet.has (JsSet.add s k) x = JsSet.has s x || String.eqb x k.
Proof.
  unfold JsSet.add. destruct (JsSet.has s k) eqn:E.
  - destruct (String.eqb x k) eqn:Ex; [| rewrite orb_false_r; reflexivity].
    apply String.eqb_eq in Ex. subst x. rewrite E. reflexivity.
  - rewrite has_app. unfold JsSet.has at 2. cbn. rewrite orb_false_r.
    reflexivity.
Qed.

Lemma toggleRow_has (s : JsSet.t) (rowId x : string) :
  JsSet.has (toggleRow s rowId) x
  = if String.eqb x rowId then negb (JsSet.has s rowId) else JsSet.has s x.
Proof.
  unfold toggleRow. destruct (JsSet.has s rowId) eqn:E.
  - rewrite setDelete_has. destruct (String.eqb x rowId) eqn:Ex; cbn [negb].
    + apply andb_false_r.
    + apply andb_true_r.
  - rewrite add_has. destruct (String.eqb x rowId) eqn:Ex; cbn [negb].
    + apply orb_true_r.
    + apply orb_false_r.
Qed.

End TableFacts.

(* ================================================================== *)
(** * Properties of the results table *)

(** X14. Toggling a row changes whether that row is expanded and leaves
    every other row as it was; toggling it twice restores the set. *)
Theorem toggleRow_flips_one_row (expandedRows : JsSet.t) (rowId : string) :
  (forall x : string,
      JsSet.has (toggleRow expandedRows rowId) x
      = if String.eqb x rowId then negb (JsSet.has expandedRows rowId)
        else JsSet.has expandedRows x)
  /\ (forall x : string,
         JsSet.has (toggleRow (toggleRow expandedRows rowId) rowId) x
         = JsSet.has expandedRows x).
Proof.
  split; [apply toggleRow_has |].
  intros x. rewrite !toggleRow_has, String.eqb_refl.
  destruct (String.eqb x rowId) eqn:E; [| reflexivity].
  apply String.eqb_eq in E. subst x. apply negb_involutive.
Qed.

(** X15. On the results of a run the expand button is shown on the rows
    that are not matched, and on no other. *)
Theorem hasDetails_of_results
        (purchaseRecords salesRecords : list FinancialRecord)
        (r : ReconciliationResult) :
  In r (reconcileDatasets purchaseRecords salesRecords) ->
  hasDetails r = negb (status_eqb (status r) matched).
Proof.
  intros Hin. unfold hasDetails.
  pose proof (reconcileDatasets_shape_of _ _ r Hin) as H.
  destruct (status r); cbn [status_eqb negb]; try apply orb_true_r.
  destruct H as [p [s [_ [_ [_ [-> _]]]]]]. reflexivity.
Qed.

Lemma hasDetails_of_results_witness :
  hasDetails
    (missingInPurchase "result-0" "INV-3|2024-01-07"
       (sampleRecord "row-1" "g" "n" "INV-3" "2024-01-07" 70%float))
  = true.
Proof.
  exact (hasDetails_of_results
           []
           [sampleRecord "row-1" "g" "n" "INV-3" "2024-01-07" 70%float]
           (missingInPurchase "result-0" "INV-3|2024-01-07"
              (sampleRecord "row-1" "g" "n" "INV-3" "2024-01-07" 70%float))
           (or_introl eq_refl)).
Defined.

(* ================================================================== *)
(** * Properties of the status tables *)

(** X16. The four status labels are pairwise distinct, and the options of
    the status filter after "all" are the four statuses, each with the
    label of its badge. *)
Theorem getStatusLabel_distinct :
  (forall a b : ReconciliationStatus,
      getStatusLabel a = getStatusLabel b -> a = b)
  /\ map (fun s => (statusValue s, getStatusLabel s))
         [matched; mismatched; missing_in_purchase; missing_in_sales]
     = tl statusOptions
  /\ (forall s : ReconciliationStatus,
         getStatusColor s = success <-> s = matched).
Proof.
  split; [| split].
  - intros a b H. destruct a, b; try reflexivity; discriminate H.
  - reflexivity.
  - intros s. destruct s; cbn; split; congruence.
Qed.

Section StringCaseFacts.

(** On a 7-bit character, changing the case keeps white space as it is,
    and lowering after raising is lowering. *)
Lemma upperChar_space (c : ascii) :
  (JsString.code c <? 128)%N = true ->
  isWhiteSpace (upperChar c) = isWhiteSpace c.
Proof.
  destruct c as [[] [] [] [] [] [] [] []]; intros H;
    first [reflexivity | discriminate H].
Qed.

Lemma lowerChar_upperChar (c : ascii) :
  (JsString.code c <? 128)%N = true ->
  lowerChar (upperChar c) = lowerChar c.
Proof.
  destruct c as [[] [] [] [] [] [] [] []]; intros H;
    first [reflexivity | discriminate H].
Qed.

Lemma sevenBit_String (c : ascii) (s : string) :
  sevenBit (String c s) = true ->
  (JsString.code c <? 128)%N = true /\ sevenBit s = true.
Proof. intros H. apply andb_true_iff in H. exact H. Qed.

Lemma sevenBit_trimStart (s : string) :
  sevenBit s = true -> sevenBit (trimStart s) = true.
Proof.
  induction s as [| c s IH]; intros H; [reflexivity |].
  cbn [trimStart]. destruct (isWhiteSpace c); [| exact H].
  apply IH. apply (sevenBit_String c s H).
Qed.

Lemma toLowerCase_toUpperCase (s : string) :
  sevenBit s = true -> toLowerCase (toUpperCase s) = toLowerCase s.
Proof.
  unfold toLowerCase, toUpperCase.
  induction s as [| c s IH]; intros H; [reflexivity |].
  apply sevenBit_String in H as [Hc Hs]. cbn [mapChars].
  rewrite (lowerChar_upperChar c Hc), (IH Hs). reflexivity.
Qed.

Lemma trimStart_toUpperCase (s : string) :
  sevenBit s = true ->
  trimStart (toUpperCase s) = toUpperCase (trimStart s).
Proof.
  unfold toUpperCase.
  induction s as [| c s IH]; intros H; [reflexivity |].
  apply sevenBit_String in H as [Hc Hs]. cbn [mapChars trimStart].
  rewrite (upperChar_space c Hc).
  destruct (isWhiteSpace c); [exact (IH Hs) | reflexivity].
Qed.

Lemma trimEnd_toUpperCase (s : string) :
  sevenBit s = true ->
  trimEnd (toUpperCase s) = toUpperCase (trimEnd s).
Proof.
  unfold toUpperCase.
  induction s as [| c s IH]; intros H; [reflexivity |].
  apply sevenBit_String in H as [Hc Hs]. cbn [mapChars trimEnd].
  rewrite (IH Hs), (upperChar_space c Hc).
  destruct (trimEnd s); cbn [mapChars]; [| reflexivity].
  destruct (isWhiteSpace c); reflexivity.
Qed.

Lemma trim_toUpperCase (s : string) :
  sevenBit s = true -> trim (toUpperCase s) = toUpperCase (trim s).
Proof.
  intros H. unfold trim.
  rewrite (trimStart_toUpperCase s H).
  apply trimEnd_toUpperCase, sevenBit_trimStart, H.
Qed.

Lemma truthy_toUpperCase (s : string) :
  JsString.truthy (toUpperCase s) = JsString.truthy s.
Proof. destruct s; reflexivity. Qed.

End StringCaseFacts.

Section FilterFacts.

Variable parseFloat : string -> float.

Lemma filter_filter_same {A : Type} (f : A -> bool) (l : list A) :
  filter f (filter f l) = filter f l.
Proof.
  rewrite filter_andb. apply filter_ext. intros x. apply andb_diag.
Qed.

Lemma applyFilters_as_filter (state : FilterState)
      (results : list ReconciliationResult) :
  applyFilters parseFloat state results
  = filter
      (fun result =>
         (if JsString.truthy (minAmount state) || JsString.truthy (maxAmount state)
          then amountKeeps
                 (numberOr (Some (parseFloat (minAmount state))) 0%float)
                 (numberOr (Some (parseFloat (maxAmount state))) infinity)
                 result
          else true)
         && (match statusFilter state with
             | Some wanted => status_eqb (status result) wanted
             | None => true
             end
             && (if JsString.truthy (trim (searchQuery state))
                 then searchKeeps (trim (toLowerCase (searchQuery state))) result
                 else true)))
      results.
Proof.
  unfold applyFilters. cbn zeta.
  destruct (JsString.truthy (trim (searchQuery state)));
    destruct (statusFilter state) as [wanted |];
    destruct (JsString.truthy (minAmount state) || JsString.truthy (maxAmount state));
    rewrite ?filter_andb;
    try (apply filter_ext; intros x; cbn [andb];
         rewrite ?andb_true_r, <- ?andb_assoc; reflexivity).
  symmetry. apply filter_all. reflexivity.
Qed.

Lemma filterAmount_not_nan (r : ReconciliationResult) :
  is_nan (filterAmount r) = false.
Proof.
  unfold filterAmount, numberOr, JsNumber.truthy.
  destruct (option_map totalAmount (purchaseRecord r)) as [a |].
  - destruct (negb (is_zero a || is_nan a)) eqn:Ea.
    + apply negb_true_iff, orb_false_iff in Ea. apply Ea.
    + destruct (option_map totalAmount (salesRecord r)) as [b |];
        [| reflexivity].
      destruct (negb (is_zero b || is_nan b)) eqn:Eb; [| reflexivity].
      apply negb_true_iff, orb_false_iff in Eb. apply Eb.
  - destruct (option_map totalAmount (salesRecord r)) as [b |];
      [| reflexivity].
    destruct (negb (is_zero b || is_nan b)) eqn:Eb; [| reflexivity].
    apply negb_true_iff, orb_false_iff in Eb. apply Eb.
Qed.

End FilterFacts.

(* ================================================================== *)
(** * Properties of the filter panel *)

(** X17. Filtering keeps or drops each result on its own, in the order of
    the list: what is shown is the list filtered by a test on single
    results. So every result shown is a result of the list, and applying
    the same filters to what is shown changes nothing. *)
Theorem applyFilters_pointwise (parseFloat : string -> float)
        (state : FilterState) :
  exists keep : ReconciliationResult -> bool,
    (forall results, applyFilters parseFloat state results = filter keep results)
    /\ (forall results r,
           In r (applyFilters parseFloat state results) -> In r results)
    /\ (forall results,
           applyFilters parseFloat state (applyFilters parseFloat state results)
           = applyFilters parseFloat state results).
Proof.
  eexists. split; [intros results; apply applyFilters_as_filter |].
  split.
  - intros results r H. rewrite applyFilters_as_filter in H.
    apply filter_In in H. apply H.
  - intros results. rewrite !applyFilters_as_filter. apply filter_filter_same.
Qed.

(** X18. With a search box that is empty or holds white space only, the
    status "all" and no amount typed, every result is shown. *)
Theorem applyFilters_no_filter (parseFloat : string -> float)
        (state : FilterState) (results : list ReconciliationResult) :
  trim (searchQuery state) = "" ->
  statusFilter state = None ->
  minAmount state = "" -> maxAmount state = "" ->
  applyFilters parseFloat state results = results.
Proof.
  intros Hq Hs Hmin Hmax. unfold applyFilters.
  rewrite Hq, Hs, Hmin, Hmax. reflexivity.
Qed.

Lemma applyFilters_no_filter_witness :
  applyFilters (fun _ => nan)
    {| searchQuery := "   "; statusFilter := None;
       minAmount := ""; maxAmount := "" |}
    [sampleResult matched; sampleResult missing_in_sales]
  = [sampleResult matched; sampleResult missing_in_sales].
Proof.
  apply applyFilters_no_filter; reflexivity.
Defined.

(** X19. With a status chosen and nothing else, the results shown are
    those of that status, and they are as many as the summary counts for
    it. *)
Theorem applyFilters_status_count (parseFloat : string -> float)
        (wanted : ReconciliationStatus) (results : list ReconciliationResult) :
  let shown :=
    applyFilters parseFloat
      {| searchQuery := ""; statusFilter := Some wanted;
         minAmount := ""; maxAmount := "" |} results in
  (forall r, In r shown <-> In r results /\ status r = wanted)
  /\ List.length shown
     = match wanted with
       | matched => matchedCount (calculateSummary results)
       | mismatched => mismatchedCount (calculateSummary results)
       | missing_in_purchase => missingInPurchaseCount (calculateSummary results)
       | missing_in_sales => missingInSalesCount (calculateSummary results)
       end.
Proof.
  cbn zeta. unfold applyFilters. cbn. split.
  - intros r. rewrite filter_In. split; intros [H1 H2]; split; try exact H1.
    + destruct (status r), wanted; try reflexivity; discriminate H2.
    + rewrite H2. destruct wanted; reflexivity.
  - destruct wanted; reflexivity.
Qed.

(** X20. A maximum that [parseFloat] reads as 0 or as no number sets no
    upper bound: with such a maximum, and a minimum read the same way, the
    results shown are exactly those whose amount is not below 0. *)
Theorem applyFilters_zero_maximum (parseFloat : string -> float)
        (state : FilterState) (results : list ReconciliationResult) :
  trim (searchQuery state) = "" ->
  statusFilter state = None ->
  maxAmount state <> "" ->
  JsNumber.truthy (parseFloat (minAmount state)) = false ->
  JsNumber.truthy (parseFloat (maxAmount state)) = false ->
  applyFilters parseFloat state results
  = filter (fun r => (0 <=? filterAmount r)%float) results.
Proof.
  intros Hq Hs Hmax Hpmin Hpmax. unfold applyFilters.
  rewrite Hq, Hs. cbn [JsString.truthy numberOr]. rewrite Hpmin, Hpmax.
  apply truthy_nonempty in Hmax. rewrite Hmax, orb_true_r.
  apply filter_ext. intros r. unfold amountKeeps. cbn zeta.
  rewrite (leb_infinity _ (filterAmount_not_nan r)). apply andb_true_r.
Qed.

Lemma applyFilters_zero_maximum_witness :
  applyFilters (fun _ => 0%float)
    {| searchQuery := ""; statusFilter := None;
       minAmount := ""; maxAmount := "0" |}
    [missingInPurchase "result-0" "K"
       (sampleRecord "row-0" "g" "n" "INV-1" "2024-01-05" 5900%float)]
  = filter (fun r => (0 <=? filterAmount r)%float)
      [missingInPurchase "result-0" "K"
         (sampleRecord "row-0" "g" "n" "INV-1" "2024-01-05" 5900%float)].
Proof.
  apply applyFilters_zero_maximum; try reflexivity. discriminate.
Defined.

(** X21. For a query of 7-bit characters the search does not depend on the
    case of the letters typed: the query and the same query in upper case
    show the same results, whatever the text of the results.  (Beyond 7-bit
    text JavaScript's [toUpperCase] is not undone by [toLowerCase]: the
    sharp s becomes SS.) *)
Theorem applyFilters_query_case (parseFloat : string -> float)
        (query : string) (wanted : option ReconciliationStatus)
        (minimum maximum : string) (results : list ReconciliationResult) :
  sevenBit query = true ->
  applyFilters parseFloat
    {| searchQuery := toUpperCase query; statusFilter := wanted;
       minAmount := minimum; maxAmount := maximum |} results
  = applyFilters parseFloat
      {| searchQuery := query; statusFilter := wanted;
         minAmount := minimum; maxAmount := maximum |} results.
Proof.
  intros Hquery.
  unfold applyFilters. cbn [searchQuery statusFilter minAmount maxAmount].
  rewrite (trim_toUpperCase query Hquery), truthy_toUpperCase.
  rewrite (toLowerCase_toUpperCase query Hquery).
  reflexivity.
Qed.

Lemma applyFilters_query_case_witness :
  applyFilters (fun _ => 0%float)
    {| searchQuery := "ACME 7"; statusFilter := None;
       minAmount := ""; maxAmount := "" |}
    [missingInPurchase "result-0" "K"
       (sampleRecord "row-0" "g" "Acme 7 Traders" "INV-1" "2024-01-05" 5900%float);
     missingInPurchase "result-1" "L"
       (sampleRecord "row-1" "g" "Other" "INV-2" "2024-01-05" 5900%float)]
  = applyFilters (fun _ => 0%float)
      {| searchQuery := "Acme 7"; statusFilter := None;
         minAmount := ""; maxAmount := "" |}
      [missingInPurchase "result-0" "K"
         (sampleRecord "row-0" "g" "Acme 7 Traders" "INV-1" "2024-01-05" 5900%float);
       missingInPurchase "result-1" "L"
         (sampleRecord "row-1" "g" "Other" "INV-2" "2024-01-05" 5900%float)].
Proof.
  apply (applyFilters_query_case (fun _ => 0%float) "Acme 7" None "" "").
  reflexivity.
Defined.

Section ExportFacts.

Lemma length_append (a b : string) :
  String.length (a ++ b) = String.length a + String.length b.
Proof. induction a as [| c a IH]; cbn; [| rewrite IH]; reflexivity. Qed.

Lemma append_inj_r (a b t : string) : (a ++ t = b ++ t)%string -> a = b.
Proof.
  revert b. induction a as [| c a IH]; intros b H.
  - destruct b as [| d b]; [reflexivity |].
    apply (f_equal String.length) in H.
    cbn in H. rewrite length_append in H. lia.
  - destruct b as [| d b].
    + apply (f_equal String.length) in H.
      cbn in H. rewrite length_append in H. lia.
    + cbn in H. injection H as -> H. f_equal. apply IH, H.
Qed.

Lemma doubleQuotes_inj (a b : string) :
  doubleQuotes a = doubleQuotes b -> a = b.
Proof.
  revert b. induction a as [| c a IH]; intros b H.
  - destruct b as [| d b]; [reflexivity |]. cbn [doubleQuotes] in H.
    destruct (Ascii.eqb d doubleQuote); discriminate H.
  - destruct b as [| d b].
    + cbn [doubleQuotes] in H. destruct (Ascii.eqb c doubleQuote); discriminate H.
    + cbn [doubleQuotes] in H.
      destruct (Ascii.eqb c doubleQuote) eqn:Ec;
        destruct (Ascii.eqb d doubleQuote) eqn:Ed.
      * apply Ascii.eqb_eq in Ec, Ed. subst c d.
        injection H as H. f_equal. apply IH, H.
      * injection H as H1 H2. subst d.
        rewrite Ascii.eqb_refl in Ed. discriminate Ed.
      * injection H as H1 H2. subst c.
        rewrite Ascii.eqb_refl in Ec. discriminate Ec.
      * injection H as -> H. f_equal. apply IH, H.
Qed.

Lemma includes_head (c : ascii) (t : string) :
  includes (String c t) (String c "") = true.
Proof. cbn. rewrite Ascii.eqb_refl. reflexivity. Qed.

End ExportFacts.

(* ================================================================== *)
(** * Properties of the CSV export *)

(** X22. Escaping a cell loses nothing: two different strings never give
    the same cell of the file. *)
Theorem escapeCell_injective (a b : string) :
  escapeCell a = escapeCell b -> a = b.
Proof.
  unfold escapeCell.
  destruct (includes a "," || includes a (String doubleQuote "")
            || includes a (String lineFeed "")) eqn:Ea;
    destruct (includes b "," || includes b (String doubleQuote "")
              || includes b (String lineFeed "")) eqn:Eb; intros H.
  - injection H as H. apply append_inj_r in H. apply doubleQuotes_inj, H.
  - subst b. rewrite includes_head in Eb.
    rewrite orb_true_r in Eb. discriminate Eb.
  - subst a. rewrite includes_head in Ea.
    rewrite orb_true_r in Ea. discriminate Ea.
  - exact H.
Qed.

Lemma escapeCell_injective_witness :
  "Acme, Inc" = "Acme, Inc".
Proof.
  apply escapeCell_injective. reflexivity.
Defined.

(** X23. Every row of the export has one cell per header, seventeen; and
    an amount cell is empty both when the record of its side is absent and
    when the amount is 0 or not a number, so that the file does not tell
    these apart. *)
Theorem exportRow_cells (numberToString : float -> string)
        (result : ReconciliationResult) :
  List.length (exportRow numberToString result) = List.length exportHeaders
  /\ List.length exportHeaders = 17
  /\ (forall (f : FinancialRecord -> float) (record : option FinancialRecord),
         amountCell f record = VString ""
         <-> (record = None
              \/ exists r, record = Some r /\ JsNumber.truthy (f r) = false)).
Proof.
  split; [reflexivity |]. split; [reflexivity |].
  intros f record. unfold amountCell. destruct record as [r |].
  - destruct (JsNumber.truthy (f r)) eqn:E; split.
    + discriminate.
    + intros [H | [r' [[= <-] H]]]; congruence.
    + intros _. right. exists r. auto.
    + reflexivity.
  - split; auto.
Qed.

Section IngestionFacts.

Lemma find_first {A : Type} (f : A -> bool) (l : list A) (x : A) :
  find f l = Some x <->
  exists before after,
    l = before ++ x :: after /\ f x = true
    /\ forall y, In y before -> f y = false.
Proof.
  split.
  - induction l as [| a l IH]; cbn; [discriminate |].
    destruct (f a) eqn:E.
    + intros [= ->]. exists [], l. repeat split; [exact E | intros y []].
    + intros H. destruct (IH H) as [before [after [-> [Hx Hb]]]].
      exists (a :: before), after. repeat split; [exact Hx |].
      intros y [<- | Hy]; auto.
  - intros [before [after [-> [Hx Hb]]]].
    induction before as [| b before IH]; cbn.
    + rewrite Hx. reflexivity.
    + rewrite (Hb b (or_introl eq_refl)). apply IH.
      intros y Hy. apply Hb. right. exact Hy.
Qed.

Lemma find_none_iff {A : Type} (f : A -> bool) (l : list A) :
  find f l = None <-> forall y, In y l -> f y = false.
Proof.
  split; [apply find_none |].
  induction l as [| a l IH]; cbn; [reflexivity |]. intros H.
  rewrite (H a (or_introl eq_refl)). apply IH. intros y Hy. apply H. auto.
Qed.

Lemma find_unique {A : Type} (f : A -> bool) (l : list A) (x : A) :
  In x l -> f x = true -> (forall y, In y l -> f y = true -> y = x) ->
  find f l = Some x.
Proof.
  intros Hin Hx Hu. destruct (find f l) as [y |] eqn:E.
  - apply find_some in E as [Hy Hfy]. f_equal. apply Hu; assumption.
  - rewrite (find_none _ _ E x Hin) in Hx. discriminate Hx.
Qed.

Lemma findColumn_find (headers : list string) (f : MappingField) :
  findColumn headers (COLUMN_ALIASES f) = find (headerMatches f) headers.
Proof. reflexivity. Qed.

Lemma headerMatches_nonempty (f : MappingField) (h : string) :
  headerMatches f h = true -> JsString.truthy h = true.
Proof.
  destruct h as [| c h]; [| reflexivity].
  destruct f; intros H; vm_compute in H; discriminate H.
Qed.

Lemma detectColumnMappings_find (headers : list string) (f : MappingField) :
  detectColumnMappings headers f = find (headerMatches f) headers.
Proof.
  unfold detectColumnMappings. rewrite findColumn_find.
  destruct (find (headerMatches f) headers) as [c |] eqn:E; [| reflexivity].
  apply find_some in E as [_ E]. rewrite (headerMatches_nonempty f c E).
  reflexivity.
Qed.

(** No alias, once normalised, belongs to two fields. *)
Lemma aliases_disjoint (f g : MappingField) (x : string) :
  listIncludes (map normalizedHeader (COLUMN_ALIASES f)) x = true ->
  listIncludes (map normalizedHeader (COLUMN_ALIASES g)) x = true ->
  f = g.
Proof.
  intros Hf Hg. unfold listIncludes in Hf.
  apply existsb_exists in Hf as [a [Ha E]]. apply String.eqb_eq in E. subst a.
  assert (D : f = g
              \/ forallb (fun a => negb (listIncludes
                                           (map normalizedHeader (COLUMN_ALIASES g)) a))
                         (map normalizedHeader (COLUMN_ALIASES f)) = true).
  { destruct f, g; (left; reflexivity) || (right; vm_compute; reflexivity). }
  destruct D as [D | D]; [exact D |].
  rewrite forallb_forall in D. specialize (D x Ha).
  rewrite Hg in D. discriminate D.
Qed.

Lemma default_matches (f g : MappingField) :
  headerMatches f (DEFAULT_COLUMN_MAPPINGS g) = true -> g = f.
Proof.
  destruct f, g; intros H; try reflexivity; vm_compute in H; discriminate H.
Qed.

Lemma default_matches_own (f : MappingField) :
  headerMatches f (DEFAULT_COLUMN_MAPPINGS f) = true.
Proof. destruct f; vm_compute; reflexivity. Qed.

End IngestionFacts.

(* ================================================================== *)
(** * Properties of the ingestion *)

(** X24. [findColumn] gives the first header of the file, in the order of
    the headers, that is one of the aliases once both are lower-cased and
    trimmed, whatever the place of that alias in its list; it gives nothing
    exactly when no header is such. *)
Theorem findColumn_first_match (headers aliases : list string) :
  let isAlias := fun h =>
    listIncludes (map normalizedHeader aliases) (normalizedHeader h) in
  (forall h : string,
      findColumn headers aliases = Some h <->
      exists before after : list string,
        headers = before ++ h :: after /\ isAlias h = true
        /\ forall y, In y before -> isAlias y = false)
  /\ (findColumn headers aliases = None <->
      forall y, In y headers -> isAlias y = false).
Proof.
  cbn zeta. split.
  - intros h.
    exact (find_first
             (fun y => listIncludes (map normalizedHeader aliases)
                                    (normalizedHeader y)) headers h).
  - exact (find_none_iff
             (fun y => listIncludes (map normalizedHeader aliases)
                                    (normalizedHeader y)) headers).
Qed.

(** X25. The detection never gives one column to two fields. *)
Theorem detectColumnMappings_no_shared_column
        (headers : list string) (f g : MappingField) (column : string) :
  detectColumnMappings headers f = Some column ->
  detectColumnMappings headers g = Some column ->
  f = g.
Proof.
  rewrite !detectColumnMappings_find. intros Hf Hg.
  apply find_some in Hf as [_ Hf]. apply find_some in Hg as [_ Hg].
  exact (aliases_disjoint f g _ Hf Hg).
Qed.

Lemma detectColumnMappings_no_shared_column_witness :
  TaxableAmountColumn = TaxableAmountColumn.
Proof.
  apply (detectColumnMappings_no_shared_column
           ["Invoice No"; " amount "; "Total"] TaxableAmountColumn
           TaxableAmountColumn " amount "); reflexivity.
Defined.

(** X26. A file whose headers are the nine default column names, in any
    order, is mapped field by field to these names. *)
Theorem detectColumnMappings_default_headers
        (headers : list string) (f : MappingField) :
  Permutation (map DEFAULT_COLUMN_MAPPINGS mappingFields) headers ->
  detectColumnMappings headers f = Some (DEFAULT_COLUMN_MAPPINGS f).
Proof.
  intros Hperm. rewrite detectColumnMappings_find. apply find_unique.
  - apply (Permutation_in _ Hperm). apply in_map.
    destruct f; cbn; auto 10.
  - apply default_matches_own.
  - intros y Hy Hm. apply (Permutation_in _ (Permutation_sym Hperm)) in Hy.
    apply in_map_iff in Hy as [g [<- _]].
    rewrite (default_matches f g Hm). reflexivity.
Qed.

Lemma detectColumnMappings_default_headers_witness :
  detectColumnMappings
    ["Total Amount"; "SGST"; "CGST"; "IGST"; "Taxable Amount"; "Invoice Date";
     "Invoice No"; "Party Name"; "GSTIN"] InvoiceDateColumn
  = Some "Invoice Date".
Proof.
  apply detectColumnMappings_default_headers.
  apply Permutation_rev.
Defined.

Section ProcessFacts.

Variable parseNumber : string -> float.







End ProcessFacts.

